(** * The Moving Men booking manager: availability engine and booking lifecycle

    A shallow embedding of [src/app.py].  The script is a Streamlit page that
    keeps a Google Sheet (one row per booking) in step with a Google Calendar
    (one event per booking).  The embedding follows the script top to bottom:

    - the Python values the script computes with (strings, dates, times) are
      modelled concretely in [PyStr] and [PyTime];
    - the two remote stores are the script's collaborators: the calendar is
      an arbitrary service ([Services]) whose calls may fail; the worksheet
      is a concrete grid of rows whose calls may fail as well;
    - every function of the script is a computation in the monad [M], which
      threads the world (stores, session state, the calls made, the messages
      shown) and propagates Python exceptions and [st.stop()];
    - one rerun of the script is [script], driven by the button the user
      pressed ([Button]) and the values the input widgets hold ([Widgets]);
      a session is a sequence of reruns ([run_session]).

    What is left to the collaborators: the text of a date-time is parsed by
    [fromisoformat] and the text of a date by [to_datetime], both taken from
    [Services]; cell values are text; [st.write] output is not recorded. *)

From Stdlib Require Import ZArith Lia String Ascii List DecimalString DecimalPos Bool.
From stdpp Require Import base tactics option list strings.

Local Open Scope string_scope.
Local Open Scope Z_scope.

(* ===================================================================== *)
(** * Python strings *)
(* ===================================================================== *)

Module PyStr.

(** [bool(s)]: a string is truthy iff it is not empty. *)
Definition truthy (s : string) : bool :=
  match s with EmptyString => false | String _ _ => true end.

(** [str(n)] for a Python [int]. *)
Definition str_of_Z (z : Z) : string := NilZero.string_of_int (Z.to_int z).

Fixpoint zeros (n : nat) : string :=
  match n with O => "" | S k => String "0" (zeros k) end.

(** [s.zfill(width)]: pad with ASCII zeros on the left up to [width]; a
    leading sign stays in front of the padding; longer strings are returned
    unchanged. *)
Definition zfill (width : nat) (s : string) : string :=
  let fill := zeros (width - String.length s) in
  match s with
  | String c rest =>
      if (Ascii.eqb c "+" || Ascii.eqb c "-")%bool
      then String c (fill ++ rest)
      else fill ++ s
  | EmptyString => fill
  end.

(** [s.lower()] on the ASCII letters (bytes outside [A-Z] are kept). *)
Definition lower_ascii (c : ascii) : ascii :=
  let n := nat_of_ascii c in
  if ((65 <=? n)%nat && (n <=? 90)%nat)%bool then ascii_of_nat (n + 32) else c.

Fixpoint lower (s : string) : string :=
  match s with
  | EmptyString => EmptyString
  | String c rest => String (lower_ascii c) (lower rest)
  end.

(** [needle in hay]: substring test. *)
Fixpoint contains (needle hay : string) : bool :=
  (String.prefix needle hay ||
   match hay with
   | EmptyString => false
   | String _ rest => contains needle rest
   end)%bool.

Fixpoint drop (n : nat) (s : string) : string :=
  match n, s with
  | O, _ => s
  | S k, EmptyString => EmptyString
  | S k, String _ rest => drop k rest
  end.

(** [s[-n:]]: the last [n] characters, the whole string when it is
    shorter. *)
Definition suffix_slice (n : nat) (s : string) : string :=
  drop (String.length s - n) s.

End PyStr.

(* ===================================================================== *)
(** * Python dates and times *)
(* ===================================================================== *)

Module PyTime.
Import PyStr.

(** [datetime.date] *)
Record date := mk_date { year : Z; month : Z; day : Z }.

(** [datetime.time], to the second. *)
Record time := mk_time { hour : Z; minute : Z; second : Z }.

(** An aware [datetime.datetime]: wall-clock date and time plus the UTC
    offset of its [tzinfo], in seconds. *)
Record datetime := mk_datetime {
  dt_date : date;
  dt_time : time;
  dt_utcoffset : Z
}.

(** [date.toordinal()]: day number in the proleptic Gregorian calendar,
    0001-01-01 being day 1. *)
Definition toordinal (d : date) : Z :=
  let y := if month d <=? 2 then year d - 1 else year d in
  let era := y / 400 in
  let yoe := y - era * 400 in
  let mp := if month d <=? 2 then month d + 9 else month d - 3 in
  let doy := (153 * mp + 2) / 5 + day d - 1 in
  let doe := yoe * 365 + yoe / 4 - yoe / 100 + doy in
  era * 146097 + doe - 305.

(** [date.fromordinal(n)], the inverse of [toordinal]. *)
Definition fromordinal (n : Z) : date :=
  let z := n + 305 in
  let era := z / 146097 in
  let doe := z - era * 146097 in
  let yoe := (doe - doe / 1460 + doe / 36524 - doe / 146096) / 365 in
  let doy := doe - (365 * yoe + yoe / 4 - yoe / 100) in
  let mp := (5 * doy + 2) / 153 in
  let d := doy - (153 * mp + 2) / 5 + 1 in
  let m := if mp <? 10 then mp + 3 else mp - 9 in
  let y := yoe + era * 400 in
  mk_date (if m <=? 2 then y + 1 else y) m d.

Definition seconds_of_time (t : time) : Z :=
  hour t * 3600 + minute t * 60 + second t.

Definition time_of_seconds (s : Z) : time :=
  mk_time (s / 3600) ((s mod 3600) / 60) (s mod 60).

(** The instant an aware datetime denotes, in seconds; aware datetimes
    compare by their instants, whatever their offsets. *)
Definition instant (d : datetime) : Z :=
  toordinal (dt_date d) * 86400 + seconds_of_time (dt_time d) - dt_utcoffset d.

Definition dt_le (a b : datetime) : bool := instant a <=? instant b.
Definition dt_ge (a b : datetime) : bool := instant a >=? instant b.

(** [d + datetime.timedelta(hours=h)]: wall-clock arithmetic, the tzinfo
    is kept. *)
Definition add_hours (d : datetime) (h : Z) : datetime :=
  let s := seconds_of_time (dt_time d) + h * 3600 in
  mk_datetime (fromordinal (toordinal (dt_date d) + s / 86400))
              (time_of_seconds (s mod 86400))
              (dt_utcoffset d).

(** [tz = timezone("Australia/Brisbane")]: UTC+10:00; Queensland keeps no
    daylight saving time. *)
Definition tz_utcoffset : Z := 36000.

(** [tz.localize(datetime.datetime.combine(date, time))] *)
Definition localize (d : date) (t : time) : datetime :=
  mk_datetime d t tz_utcoffset.

(** [dt.astimezone(tz)]: same instant, expressed at the offset of [tz]. *)
Definition astimezone (d : datetime) : datetime :=
  let local := instant d + tz_utcoffset in
  mk_datetime (fromordinal (local / 86400))
              (time_of_seconds (local mod 86400))
              tz_utcoffset.

Definition pad2 (z : Z) : string := zfill 2 (str_of_Z z).

(** [str(date)], [date.isoformat()] *)
Definition str_of_date (d : date) : string :=
  zfill 4 (str_of_Z (year d)) ++ "-" ++ pad2 (month d) ++ "-" ++ pad2 (day d).

(** [str(time)], [time.isoformat()] *)
Definition str_of_time (t : time) : string :=
  pad2 (hour t) ++ ":" ++ pad2 (minute t) ++ ":" ++ pad2 (second t).

Definition str_of_utcoffset (o : Z) : string :=
  (if o <? 0 then "-" else "+") ++
  pad2 (Z.abs o / 3600) ++ ":" ++ pad2 ((Z.abs o mod 3600) / 60).

(** [datetime.isoformat()] of an aware datetime. *)
Definition isoformat (d : datetime) : string :=
  str_of_date (dt_date d) ++ "T" ++ str_of_time (dt_time d) ++
  str_of_utcoffset (dt_utcoffset d).

End PyTime.

(* ===================================================================== *)
(** * The two stores and the world of one session *)
(* ===================================================================== *)

Import PyStr PyTime.

(** Python exceptions that reach the script; [str(e)] is the message. *)
Inductive Exn :=
| HttpError (msg : string)
| ValueError (msg : string)
| KeyError (msg : string)
| TypeError (msg : string).

Definition str_of_exn (e : Exn) : string :=
  match e with
  | HttpError m | ValueError m | KeyError m | TypeError m => m
  end.

(** ** Calendar events *)

(** [event["start"]] and [event["end"]]: timed events carry ["dateTime"],
    all-day events carry ["date"] only; [.get] gives [None] for a missing
    key. *)
Record EventTime := mk_event_time {
  get_dateTime : option string;
  get_date : option string
}.

Record Event := mk_event {
  ev_id : string;
  ev_summary : string;
  ev_description : string;
  ev_start : EventTime;
  ev_end : EventTime
}.

(** The body handed to [events().insert]. *)
Record EventBody := mk_event_body {
  summary : string;
  description : string;
  start_dateTime : string;
  end_dateTime : string
}.

(** ** Worksheet rows *)

(** One data row of the worksheet, columns A to K, which is also the
    row-as-mapping that [get_all_records] returns for it: the field names are
    the header cells the script looks rows up by. *)
Record Row := mk_row {
  PO_No : string;
  Name : string;
  Phone : string;
  From_Address : string;
  To_Address : string;
  Date : string;
  Time : string;
  End_Time : string;
  Service : string;
  Notes : string;
  Event_ID : string
}.

(** The data rows of the worksheet; the row at list position [p] is sheet
    row [p + 2], the header being sheet row 1. *)
Abbreviation Sheet := (list Row).

(** A list of cell values written to columns A.. of one row. *)
Definition row_of_values (vs : list string) : Row :=
  let cell j := nth j vs "" in
  mk_row (cell 0%nat) (cell 1%nat) (cell 2%nat) (cell 3%nat) (cell 4%nat)
         (cell 5%nat) (cell 6%nat) (cell 7%nat) (cell 8%nat) (cell 9%nat)
         (cell 10%nat).

Definition values_of_row (r : Row) : list string :=
  [PO_No r; Name r; Phone r; From_Address r; To_Address r; Date r; Time r;
   End_Time r; Service r; Notes r; Event_ID r].

Definition blank_row : Row := row_of_values (repeat "" 11).

(** [sheet.update("A{idx}:K{idx}", [values])] on the data rows: an existing
    row is overwritten in place; a row below the last one is written where it
    is, the rows in between staying blank; sheet row 1 is the header, outside
    the data rows. *)
Definition write_row (idx : nat) (r : Row) (s : Sheet) : Sheet :=
  match idx with
  | O | S O => s
  | S (S p) =>
      if (p <? List.length s)%nat then <[p := r]> s
      else (s ++ replicate (p - List.length s) blank_row ++ [r])%list
  end.

(** ** Calls to the stores, as the session issues them *)

Inductive Call :=
| CalList (time_min time_max : string)
| CalInsert (body : EventBody) (result : Exn + string)
| CalDelete (event_id : string) (result : option Exn)
| SheetGetAll (result : option Exn)
| SheetAppend (values : list string) (result : option Exn)
| SheetUpdate (idx : nat) (values : list string) (result : option Exn).

(** The collaborators of the script.  The calendar is any service with the
    three calls the script makes; a call may fail and may change the
    calendar.  [fromisoformat] and [to_datetime] are the library parsers the
    script applies to stored text.  [sheet_fault] says, from the calls made
    so far, whether the next worksheet call fails. *)
Class Services := {
  Cal : Type;
  events_list : Cal -> string -> string -> Exn + list Event;
  events_insert : Cal -> EventBody -> (Exn + string) * Cal;
  events_delete : Cal -> string -> option Exn * Cal;
  fromisoformat : string -> Exn + datetime;
  to_datetime : string -> Exn + date;
  is_upcoming : string -> bool;
  sheet_fault : list Call -> option Exn
}.

(** ** Session state and world *)

Inductive Mode := search | view | new_booking | rebook.

(** What [st.warning], [st.error] and [st.success] show. *)
Inductive Msg :=
| Warning (text : string)
| Error (text : string)
| Success (text : string).

Record SessionState := mk_session {
  mode : Mode;
  po_counter : Z;
  current_customer : option (nat * Row);
  show_cancel_confirm : bool
}.

Section WithServices.
Context `{svc : Services}.

Record World := mk_world {
  sheet : Sheet;
  calendar : Cal;
  session_state : SessionState;
  calls : list Call;
  messages : list Msg
}.

(** How a run of script code ends: normally, by an uncaught exception, or
    by [st.stop()]. *)
Inductive Outcome (A : Type) :=
| Done (a : A)
| Raised (e : Exn)
| Stopped.
Global Arguments Done {A} a.
Global Arguments Raised {A} e.
Global Arguments Stopped {A}.

Definition M (A : Type) : Type := World -> Outcome A * World.

Definition ret {A} (a : A) : M A := fun w => (Done a, w).

Definition bind {A B} (m : M A) (k : A -> M B) : M B := fun w =>
  match m w with
  | (Done a, w') => k a w'
  | (Raised e, w') => (Raised e, w')
  | (Stopped, w') => (Stopped, w')
  end.

Definition raise {A} (e : Exn) : M A := fun w => (Raised e, w).

(** [st.stop()] *)
Definition st_stop {A} : M A := fun w => (Stopped, w).

(** [try: m except Exception as e: h(e)]; [st.stop()] is not an
    [Exception] the handler sees. *)
Definition try_except {A} (m : M A) (h : Exn -> M A) : M A := fun w =>
  match m w with
  | (Raised e, w') => h e w'
  | r => r
  end.

End WithServices.

Notation "'let!' x ':=' m 'in' k" := (bind m (fun x => k))
  (at level 10, x name, m at level 100, k at level 200).
Notation "'run!' m 'in' k" := (bind m (fun _ => k))
  (at level 10, m at level 100, k at level 200).

(* ===================================================================== *)
(** * The script *)
(* ===================================================================== *)

Section Script.
Context `{svc : Services}.

(** ** Access to the world *)

Definition log_call (c : Call) (w : World) : World :=
  mk_world (sheet w) (calendar w) (session_state w) (calls w ++ [c]) (messages w).

Definition show (m : Msg) : M unit := fun w =>
  (Done tt,
   mk_world (sheet w) (calendar w) (session_state w) (calls w) (messages w ++ [m])).

Definition st_warning (text : string) : M unit := show (Warning text).
Definition st_error (text : string) : M unit := show (Error text).
Definition st_success (text : string) : M unit := show (Success text).

Definition get_state : M SessionState := fun w => (Done (session_state w), w).

Definition put_state (s : SessionState) : M unit := fun w =>
  (Done tt, mk_world (sheet w) (calendar w) s (calls w) (messages w)).

Definition set_mode (m : Mode) : M unit :=
  let! s := get_state in
  put_state (mk_session m (po_counter s) (current_customer s) (show_cancel_confirm s)).

Definition set_po_counter (n : Z) : M unit :=
  let! s := get_state in
  put_state (mk_session (mode s) n (current_customer s) (show_cancel_confirm s)).

Definition set_current_customer (c : option (nat * Row)) : M unit :=
  let! s := get_state in
  put_state (mk_session (mode s) (po_counter s) c (show_cancel_confirm s)).

Definition set_show_cancel_confirm (b : bool) : M unit :=
  let! s := get_state in
  put_state (mk_session (mode s) (po_counter s) (current_customer s) b).

(** A library call that returns or raises. *)
Definition lift {A} (r : Exn + A) : M A :=
  match r with
  | inl e => raise e
  | inr a => ret a
  end.

(** ** The calendar service *)

(** [calendar_service.events().list(...).execute().get("items", [])] *)
Definition calendar_list (time_min time_max : string) : M (list Event) := fun w =>
  let w' := log_call (CalList time_min time_max) w in
  match events_list (calendar w) time_min time_max with
  | inr items => (Done items, w')
  | inl e => (Raised e, w')
  end.

(** [calendar_service.events().insert(calendarId, body).execute()["id"]] *)
Definition calendar_insert (body : EventBody) : M string := fun w =>
  let '(r, c) := events_insert (calendar w) body in
  let w' := mk_world (sheet w) c (session_state w)
                     (calls w ++ [CalInsert body r]) (messages w) in
  match r with
  | inr id => (Done id, w')
  | inl e => (Raised e, w')
  end.

(** [calendar_service.events().delete(calendarId, eventId).execute()] *)
Definition calendar_delete (event_id : string) : M unit := fun w =>
  let '(r, c) := events_delete (calendar w) event_id in
  let w' := mk_world (sheet w) c (session_state w)
                     (calls w ++ [CalDelete event_id r]) (messages w) in
  match r with
  | None => (Done tt, w')
  | Some e => (Raised e, w')
  end.

(** ** The worksheet *)

(** [sheet.get_all_records()]: the data rows as the worksheet holds them.
    Cells are text here, and a cell reads back as the text that was written
    to it; the conversion the library applies on reading to cells that look
    like numbers is outside this model, and a blanked row is still a row of
    the snapshot. *)
Definition get_all_records : M (list Row) := fun w =>
  let f := sheet_fault (calls w) in
  let w' := log_call (SheetGetAll f) w in
  match f with
  | Some e => (Raised e, w')
  | None => (Done (sheet w), w')
  end.

(** [sheet.append_row(values)] *)
Definition append_row (values : list string) : M unit := fun w =>
  let f := sheet_fault (calls w) in
  let cs := (calls w ++ [SheetAppend values f])%list in
  match f with
  | Some e => (Raised e, log_call (SheetAppend values f) w)
  | None =>
      (Done tt,
       mk_world (sheet w ++ [row_of_values values]) (calendar w)
                (session_state w) cs (messages w))
  end.

(** How a range update of row [idx] ends when the worksheet call itself has
    the given fault: there is no sheet row 0 to address. *)
Definition update_result (idx : nat) (fault : option Exn) : option Exn :=
  match fault, idx with
  | Some e, _ => Some e
  | None, O => Some (HttpError "Unable to parse range")
  | None, S _ => None
  end.

(** [sheet.update(f"A{idx}:K{idx}", [values])] *)
Definition update (idx : nat) (values : list string) : M unit := fun w =>
  let f := update_result idx (sheet_fault (calls w)) in
  let cs := (calls w ++ [SheetUpdate idx values f])%list in
  match f with
  | Some e => (Raised e, log_call (SheetUpdate idx values f) w)
  | None =>
      (Done tt,
       mk_world (write_row idx (row_of_values values) (sheet w)) (calendar w)
                (session_state w) cs (messages w))
  end.

(** ** Functions of the script (lines 47 to 121) *)

Definition po_number (counter : Z) : string :=
  "E" ++ zfill 6 (str_of_Z counter).

Definition generate_po_number : M string :=
  let! s := get_state in
  ret (po_number (po_counter s)).

Definition get_calendar_events (date : date) : M (list Event) :=
  let time_min := localize date (mk_time 7 0 0) in
  let time_max := localize date (mk_time 18 0 0) in
  calendar_list (isoformat time_min) (isoformat time_max).

(** [x and y] as a condition, for the values of [.get("dateTime")]. *)
Definition truthy_opt (o : option string) : bool :=
  match o with
  | Some s => truthy s
  | None => false
  end.

Definition parse_event_time (o : option string) : M datetime :=
  match o with
  | Some s => let! d := lift (fromisoformat s) in ret (astimezone d)
  | None => raise (TypeError "fromisoformat: argument must be str")
  end.

(** The [for event in events] loop of [is_time_available]. *)
Fixpoint events_loop (start_dt end_dt : datetime) (events : list Event) : M bool :=
  match events with
  | [] => ret true
  | event :: rest =>
      let event_start := get_dateTime (ev_start event) in
      let event_end := get_dateTime (ev_end event) in
      if (truthy_opt event_start && truthy_opt event_end)%bool then
        let! estart := parse_event_time event_start in
        let! eend := parse_event_time event_end in
        if negb (dt_le end_dt estart || dt_ge start_dt eend)%bool
        then ret false
        else events_loop start_dt end_dt rest
      else events_loop start_dt end_dt rest
  end.

Definition is_time_available (date : date) (start_time : time) : M bool :=
  let start_dt := localize date start_time in
  let end_dt := add_hours start_dt 4 in
  let! events := get_calendar_events date in
  events_loop start_dt end_dt events.

(** The [for hour in range(7, 15)] loop of [get_available_slots]; the
    result is the list [slots] as the loop leaves it. *)
Fixpoint slots_loop (date : date) (hours : list Z) (slots : list time) : M (list time) :=
  match hours with
  | [] => ret slots
  | hour :: rest =>
      let start := mk_time hour 0 0 in
      let! ok := is_time_available date start in
      slots_loop date rest (if ok then slots ++ [start] else slots)%list
  end.

Definition get_available_slots (date : date) : M (list time) :=
  slots_loop date (seqZ 7 8) [].

Definition nl : string := String (ascii_of_nat 10) "".

Definition create_calendar_event
    (po name phone from_addr to_addr : string) (date : date)
    (start end_ : time) (service notes : string) : M string :=
  let event :=
    mk_event_body
      (po ++ " – " ++ name ++ " – " ++ service)
      ("Phone: " ++ phone ++ nl ++ "From: " ++ from_addr ++ nl ++
       "To: " ++ to_addr ++ nl ++ "Notes: " ++ notes)
      (isoformat (localize date start))
      (isoformat (localize date end_)) in
  calendar_insert event.

Definition update_calendar_event (event_id : string)
    (po name phone from_addr to_addr : string) (date : date)
    (start end_ : time) (service notes : string) : M string :=
  run! try_except (calendar_delete event_id)
         (fun e => st_warning ("Could not delete old event: " ++ str_of_exn e)) in
  create_calendar_event po name phone from_addr to_addr date start end_ service notes.

Definition delete_calendar_event (event_id : string) : M unit :=
  try_except (calendar_delete event_id)
    (fun e => st_error ("Delete failed: " ++ str_of_exn e)).

Definition append_booking_to_sheet (values : list string) : M unit :=
  append_row values.

Definition update_booking_in_sheet (row_index : nat) (values : list string) : M unit :=
  update row_index values.

(** The [for i, row in enumerate(records, start=2)] loop of
    [find_customer]; [None] stands for the pair [(None, None)]. *)
Fixpoint find_loop (name phone : string) (i : nat) (records : list Row)
    : option (nat * Row) :=
  match records with
  | [] => None
  | row :: rest =>
      if (truthy name && contains (lower name) (lower (Name row)))%bool
      then Some (i, row)
      else if (truthy phone &&
               String.eqb (suffix_slice 9 (Phone row)) (suffix_slice 9 phone))%bool
      then Some (i, row)
      else find_loop name phone (S i) rest
  end.

Definition find_customer (name phone : string) : M (option (nat * Row)) :=
  let! records := get_all_records in
  ret (find_loop name phone 2 records).

(** ** Widgets *)

(** The options of the "Service" select box. *)
Inductive ServiceKind :=
| SmallTruck1Man | SmallTruck2Men | BigTruck1Man | BigTruck2Men.

Definition service_name (k : ServiceKind) : string :=
  match k with
  | SmallTruck1Man => "Small Truck + 1 Man"
  | SmallTruck2Men => "Small Truck + 2 Men"
  | BigTruck1Man => "Big Truck + 1 Man"
  | BigTruck2Men => "Big Truck + 2 Men"
  end.

Definition service_options : list string :=
  map service_name [SmallTruck1Man; SmallTruck2Men; BigTruck1Man; BigTruck2Men].

(** [options.index(x)]: position of the first occurrence, [None] where
    Python raises [ValueError]. *)
Fixpoint list_index (x : string) (options : list string) : option nat :=
  match options with
  | [] => None
  | o :: rest => if String.eqb o x then Some O else S <$> list_index x rest
  end.

(** The button operated in this rerun, if any. *)
Inductive Button :=
| no_button
| btn_search
| btn_new_booking
| btn_view_modify (i : nat)
| btn_rebook
| btn_cancel_booking
| btn_yes_cancel
| btn_no
| btn_back
| btn_return_to_search
| btn_submit_booking.

(** The values the input widgets hold in this rerun. *)
Record Widgets := mk_widgets {
  search_name : string;
  search_phone : string;
  form_name : string;
  form_phone : string;
  form_from_addr : string;
  form_to_addr : string;
  form_date : date;
  form_start_time : nat;
  form_service : ServiceKind;
  form_notes : string
}.

(** [st.selectbox("Start Time", slots)]: the option at the position the
    user picked, the first one by default. *)
Definition selectbox (slots : list time) (pick : nat) : time :=
  match slots !! pick with
  | Some t => t
  | None => hd (mk_time 0 0 0) slots
  end.

(** [(datetime.combine(today, t) + timedelta(hours=h)).time()] *)
Definition time_add_hours (t : time) (h : Z) : time :=
  time_of_seconds ((seconds_of_time t + h * 3600) mod 86400).

Definition when (b : bool) (m : M unit) : M unit :=
  if b then m else ret tt.

Definition is_button (b clicked : Button) : bool :=
  match b, clicked with
  | no_button, no_button
  | btn_search, btn_search
  | btn_new_booking, btn_new_booking
  | btn_rebook, btn_rebook
  | btn_cancel_booking, btn_cancel_booking
  | btn_yes_cancel, btn_yes_cancel
  | btn_no, btn_no
  | btn_back, btn_back
  | btn_return_to_search, btn_return_to_search
  | btn_submit_booking, btn_submit_booking => true
  | btn_view_modify i, btn_view_modify j => (i =? j)%nat
  | _, _ => false
  end.

(** ** Search page (lines 138 to 173) *)

Definition search_page (clicked : Button) (ws : Widgets) : M unit :=
  run! when (is_button btn_search clicked)
         (let! found := find_customer (search_name ws) (search_phone ws) in
          match found with
          | Some (idx, cust) =>
              run! set_current_customer (Some (idx, cust)) in
              set_mode view
          | None => st_warning "Not found. You can create a new booking."
          end) in
  run! when (is_button btn_new_booking clicked) (set_mode new_booking) in
  (* Upcoming bookings: one "View/Modify" button per listed record; the
     frame built from no records has no "Date" column. *)
  let! records := get_all_records in
  match records with
  | [] => raise (KeyError "Date")
  | _ :: _ =>
      match clicked with
      | btn_view_modify i =>
          match records !! i with
          | Some row =>
              when (is_upcoming (Date row))
                (run! set_current_customer (Some (i + 2, row)%nat) in
                 set_mode view)
          | None => ret tt
          end
      | _ => ret tt
      end
  end.

(** ** View page (lines 177 to 205) *)

(** The body of [if st.button("Yes, Cancel")] (lines 193 to 199). *)
Definition cancel_booking (idx : nat) (cust : Row) : M unit :=
  run! when (truthy (Event_ID cust)) (delete_calendar_event (Event_ID cust)) in
  run! update idx (repeat "" 11) in
  run! st_success "Cancelled." in
  run! set_mode search in
  run! set_current_customer None in
  set_show_cancel_confirm false.

Definition view_page (clicked : Button) : M unit :=
  let! s := get_state in
  match current_customer s with
  | None => raise (TypeError "cannot unpack non-iterable NoneType object")
  | Some (idx, cust) =>
      run! when (is_button btn_rebook clicked) (set_mode rebook) in
      run! when (is_button btn_cancel_booking clicked) (set_show_cancel_confirm true) in
      let! s := get_state in
      run! when (show_cancel_confirm s)
             (run! st_warning "Are you sure?" in
              run! when (is_button btn_yes_cancel clicked) (cancel_booking idx cust) in
              when (is_button btn_no clicked) (set_show_cancel_confirm false)) in
      when (is_button btn_back clicked)
        (run! set_mode search in set_current_customer None)
  end.

(** ** Booking form (lines 208 to 269) *)

(** The body of [if st.button("Submit Booking")] (lines 258 to 269);
    [idx] is [None] in a new booking. *)
Definition submit_booking (idx : option nat) (event_id po name phone
    from_addr to_addr : string) (date : date) (start_time end_time : time)
    (service notes : string) : M unit :=
  let! s := get_state in
  run! match mode s with
       | new_booking =>
           let! event_id :=
             create_calendar_event po name phone from_addr to_addr date
                                   start_time end_time service notes in
           run! append_booking_to_sheet
                  [po; name; phone; from_addr; to_addr; str_of_date date;
                   str_of_time start_time; str_of_time end_time; service;
                   notes; event_id] in
           let! s := get_state in
           run! set_po_counter (po_counter s + 1) in
           st_success "Booking created."
       | _ =>
           let! event_id :=
             update_calendar_event event_id po name phone from_addr to_addr
                                   date start_time end_time service notes in
           run! match idx with
                | Some row_index =>
                    update_booking_in_sheet row_index
                      [po; name; phone; from_addr; to_addr; str_of_date date;
                       str_of_time start_time; str_of_time end_time; service;
                       notes; event_id]
                | None => raise (HttpError "Unable to parse range")
                end in
           st_success "Booking updated."
       end in
  run! set_mode search in
  set_current_customer None.

(** The widgets of the form and the submit button (lines 234 to 269), for
    the defaults the page has set up; [service] is the default the "Service"
    select box is positioned on. *)
Definition booking_form (clicked : Button) (ws : Widgets) (idx : option nat)
    (po service event_id : string) : M unit :=
  let name := form_name ws in
  let phone := form_phone ws in
  let from_addr := form_from_addr ws in
  let to_addr := form_to_addr ws in
  let date := form_date ws in
  let! slots := get_available_slots date in
  run! match slots with
       | [] =>
           run! st_warning "No 4-hour slots available between 7 AM and 6 PM." in
           st_stop
       | _ :: _ => ret tt
       end in
  let start_time := selectbox slots (form_start_time ws) in
  let end_time := time_add_hours start_time 4 in
  run! match list_index service service_options with
       | Some _ => ret tt
       | None => raise (ValueError "is not in list")
       end in
  let service := service_name (form_service ws) in
  let notes := form_notes ws in
  when (is_button btn_submit_booking clicked)
    (submit_booking idx event_id po name phone from_addr to_addr date
                    start_time end_time service notes).

Definition booking_page (clicked : Button) (ws : Widgets) : M unit :=
  run! when (is_button btn_return_to_search clicked)
         (run! set_mode search in
          run! set_current_customer None in
          st_stop) in
  let! s := get_state in
  let! defaults :=
    match mode s with
    | rebook =>
        match current_customer s with
        | Some (idx, cust) =>
            let! date := lift (to_datetime (Date cust)) in
            ret (Some idx, PO_No cust, Service cust, Event_ID cust)
        | None => raise (TypeError "cannot unpack non-iterable NoneType object")
        end
    | _ =>
        let! po := generate_po_number in
        ret (None, po, "Small Truck + 1 Man", "")
    end in
  let '(idx, po, service, event_id) := defaults in
  booking_form clicked ws idx po service event_id.

(** ** One rerun of the script, and a session *)

Definition script (clicked : Button) (ws : Widgets) : M unit :=
  let! s := get_state in
  match mode s with
  | search => search_page clicked ws
  | view => view_page clicked
  | new_booking | rebook => booking_page clicked ws
  end.

(** The session state after the first run has gone through lines 35 to 45
    on the given stores. *)
Definition new_session (s : Sheet) (c : Cal) : World :=
  mk_world s c
           (mk_session search (Z.of_nat (List.length s) + 1) None false)
           [SheetGetAll None] [].

(** The world after one user interaction; what a failed run had already
    changed stays changed. *)
Definition interact (w : World) (a : Button * Widgets) : World :=
  snd (script (fst a) (snd a) w).

Definition run_session (w : World) (actions : list (Button * Widgets)) : World :=
  fold_left interact actions w.

End Script.

(* ===================================================================== *)
(** * What the specification says, in its own words *)
(* ===================================================================== *)

Section Specification.
Context `{svc : Services}.

(** ** Availability *)

(** The bounds of the calendar query for [date]: 07:00 and 18:00. *)
Definition time_min (date : date) : string :=
  isoformat (localize date (mk_time 7 0 0)).
Definition time_max (date : date) : string :=
  isoformat (localize date (mk_time 18 0 0)).

(** The world after [n] further calendar queries for [date]. *)
Definition after_listing (date : date) (n : nat) (w : World) : World :=
  mk_world (sheet w) (calendar w) (session_state w)
           (calls w ++ replicate n (CalList (time_min date) (time_max date)))
           (messages w).

Definition all_slots : list time :=
  map (fun h => mk_time h 0 0) [7; 8; 9; 10; 11; 12; 13; 14].

(** The candidate window of start hour [h] on [date] is
    [[h:00, h:00 + 4h)]; instants are seconds. *)
Definition window_start (date : date) (h : Z) : Z :=
  instant (localize date (mk_time h 0 0)).

Definition window_end (date : date) (h : Z) : Z :=
  window_start date h + 4 * 3600.

(** Half-open overlap test:
    [not (window.end <= event.start OR window.start >= event.end)]. *)
Definition overlaps (w_start w_end : Z) (ev : Z * Z) : Prop :=
  ~ (w_end <= ev.1 \/ w_start >= ev.2).

Global Instance overlaps_dec w_start w_end ev : Decision (overlaps w_start w_end ev).
Proof. unfold overlaps. apply _. Defined.

Definition hour_available (date : date) (events : list (Z * Z)) (h : Z) : Prop :=
  Forall (fun ev => ~ overlaps (window_start date h) (window_end date h) ev) events.

Global Instance hour_available_dec date events h : Decision (hour_available date events h).
Proof. unfold hour_available. apply _. Defined.

(** The candidate start hours 7, 8, ..., 14 that overlap no event, in
    ascending order. *)
Definition available_hours (date : date) (events : list (Z * Z)) : list Z :=
  filter (hour_available date events) [7; 8; 9; 10; 11; 12; 13; 14].

(** An event with concrete start and end date-times, and the window
    [(start, end)] it occupies. *)
Definition timed_event (ev : Event) (window : Z * Z) : Prop :=
  exists s e ds de,
    get_dateTime (ev_start ev) = Some s /\ s <> "" /\ fromisoformat s = inr ds /\
    get_dateTime (ev_end ev) = Some e /\ e <> "" /\ fromisoformat e = inr de /\
    window = (instant ds, instant de).

(** An event without a ["dateTime"] start or without a ["dateTime"] end,
    such as an all-day event. *)
Definition lacks_dateTime (ev : Event) : Prop :=
  get_dateTime (ev_start ev) = None \/ get_dateTime (ev_end ev) = None.

(** ** Availability with events of both kinds *)

(** The text of a date-time is missing or empty: [.get("dateTime")] is
    falsy. *)
Definition no_text (o : option string) : Prop := o = None \/ o = Some "".

(** An event whose start or end has no date-time text. *)
Definition untimed_event (ev : Event) : Prop :=
  no_text (get_dateTime (ev_start ev)) \/ no_text (get_dateTime (ev_end ev)).

(** What an event contributes to availability: its window when it is timed,
    nothing when it is untimed. *)
Definition described (ev : Event) (ow : option (Z * Z)) : Prop :=
  match ow with
  | Some window => timed_event ev window
  | None => untimed_event ev
  end.

Definition windows_of (ows : list (option (Z * Z))) : list (Z * Z) := omap id ows.

(** The first date-time text of the event that is read does not parse:
    the start, or the end after a start that parses. *)
Definition malformed_event (ev : Event) (err : Exn) : Prop :=
  exists s e,
    get_dateTime (ev_start ev) = Some s /\ s <> "" /\
    get_dateTime (ev_end ev) = Some e /\ e <> "" /\
    (fromisoformat s = inl err \/
     exists ds, fromisoformat s = inr ds /\ fromisoformat e = inl err).

(** ** Search *)

(** [t] is the last [n] characters of [s] (all of [s] when it is shorter). *)
Definition last_chars (n : nat) (s t : string) : Prop :=
  (exists pre, s = pre ++ t) /\ String.length t = Nat.min n (String.length s).

(** [a] is a case-insensitive substring of [b]. *)
Definition substring_ci (a b : string) : Prop :=
  exists pre post, lower b = pre ++ lower a ++ post.

(** A row matches the query when the non-empty name is a case-insensitive
    substring of the stored name, or the last 9 characters of the
    non-empty phone equal the last 9 characters of the stored phone. *)
Definition matches (name phone : string) (row : Row) : Prop :=
  (name <> "" /\ substring_ci name (Name row)) \/
  (phone <> "" /\
   exists t, last_chars 9 (Phone row) t /\ last_chars 9 phone t).

(** ** PO numbers *)

(** The sequence number a PO number "E" + digits stands for. *)
Definition po_sequence (po : string) : option Z :=
  match po with
  | String "E" digits => Z.of_uint <$> NilEmpty.uint_of_string digits
  | _ => None
  end.

(** The PO numbers of the rows the session appended, oldest first. *)
Fixpoint assigned_pos (cs : list Call) : list string :=
  match cs with
  | [] => []
  | SheetAppend values None :: rest => nth 0 values "" :: assigned_pos rest
  | _ :: rest => assigned_pos rest
  end.

Definition is_calendar_call (c : Call) : bool :=
  match c with
  | CalList _ _ | CalInsert _ _ | CalDelete _ _ => true
  | _ => false
  end.

Definition is_sheet_write (c : Call) : bool :=
  match c with
  | SheetAppend _ _ | SheetUpdate _ _ _ => true
  | _ => false
  end.

(** ** Bookings in the two stores *)

(** The calendar event of a booking: summary "{po} – {name} – {service}",
    the contact details in the description, the 4-hour window as start and
    end. *)
Definition booking_event (po name phone from_addr to_addr : string) (date : date)
    (start end_ : time) (service notes : string) : EventBody :=
  mk_event_body
    (po ++ " – " ++ name ++ " – " ++ service)
    ("Phone: " ++ phone ++ nl ++ "From: " ++ from_addr ++ nl ++
     "To: " ++ to_addr ++ nl ++ "Notes: " ++ notes)
    (isoformat (localize date start))
    (isoformat (localize date end_)).

(** The cells of a booking in the fixed column order PO, Name, Phone, From,
    To, Date, Time, End Time, Service, Notes, Event ID. *)
Definition booking_values (po name phone from_addr to_addr : string) (date : date)
    (start end_ : time) (service notes event_id : string) : list string :=
  [po; name; phone; from_addr; to_addr; str_of_date date; str_of_time start;
   str_of_time end_; service; notes; event_id].

(** The booking the form holds, for the slot list the page has computed. *)
Definition form_event (po : string) (ws : Widgets) (slots : list time) : EventBody :=
  booking_event po (form_name ws) (form_phone ws) (form_from_addr ws)
                (form_to_addr ws) (form_date ws)
                (selectbox slots (form_start_time ws))
                (time_add_hours (selectbox slots (form_start_time ws)) 4)
                (service_name (form_service ws)) (form_notes ws).

Definition form_values (po : string) (ws : Widgets) (slots : list time)
    (event_id : string) : list string :=
  booking_values po (form_name ws) (form_phone ws) (form_from_addr ws)
                 (form_to_addr ws) (form_date ws)
                 (selectbox slots (form_start_time ws))
                 (time_add_hours (selectbox slots (form_start_time ws)) 4)
                 (service_name (form_service ws)) (form_notes ws) event_id.

(** The submit branch applied to what the form holds. *)
Definition submit_form (idx : option nat) (event_id po : string) (ws : Widgets)
    (slots : list time) : M unit :=
  submit_booking idx event_id po (form_name ws) (form_phone ws) (form_from_addr ws)
                 (form_to_addr ws) (form_date ws)
                 (selectbox slots (form_start_time ws))
                 (time_add_hours (selectbox slots (form_start_time ws)) 4)
                 (service_name (form_service ws)) (form_notes ws).

Definition no_slots_warning : string :=
  "No 4-hour slots available between 7 AM and 6 PM.".

(** Sheet row [idx] exists among the data rows. *)
Definition row_exists (idx : nat) (s : Sheet) : Prop :=
  (2 <= idx)%nat /\ (idx - 2 < List.length s)%nat.

(** The rebook form for the booking [cust] is rendered down to the "Submit
    Booking" button, with [slots] in the "Start Time" select box: the date
    held parses, [get_available_slots] returns the non-empty list [slots]
    for the date of the form, and the service held is one of the options. *)
Definition submit_reached (cust : Row) (ws : Widgets) (w : World)
    (slots : list time) : Prop :=
  (exists d, to_datetime (Date cust) = inr d) /\
  fst (get_available_slots (form_date ws) w) = Done slots /\
  slots <> [] /\
  (exists k, list_index (Service cust) service_options = Some k).

(** Sheet [s'] is sheet [s] with row [idx] overwritten in place by [row]:
    no row is added or removed, and every other row is as it was. *)
Definition overwritten_in_place (idx : nat) (row : Row) (s s' : Sheet) : Prop :=
  List.length s' = List.length s /\
  s' !! (idx - 2)%nat = Some row /\
  forall j, j <> (idx - 2)%nat -> s' !! j = s !! j.

Definition delete_warning (e : Exn) : Msg :=
  Warning ("Could not delete old event: " ++ str_of_exn e).

Definition delete_error (e : Exn) : Msg :=
  Error ("Delete failed: " ++ str_of_exn e).

Definition sure_warning : Msg := Warning "Are you sure?".

(** The world once the confirmation prompt is shown. *)
Definition prompted (w : World) : World :=
  mk_world (sheet w) (calendar w) (session_state w) (calls w)
           (messages w ++ [sure_warning]).

(** The calendar queries of one run of the form. *)
Definition queries (ws : Widgets) (n : nat) : list Call :=
  replicate n (CalList (time_min (form_date ws)) (time_max (form_date ws))).

(** ** Relations between the world before and after a run *)

(** The run assigned no PO number: the counter stands, no row was appended,
    and no row went away. *)
Definition same_pos (w w' : World) : Prop :=
  po_counter (session_state w') = po_counter (session_state w) /\
  assigned_pos (calls w') = assigned_pos (calls w) /\
  (List.length (sheet w) <= List.length (sheet w'))%nat.

(** The run created one booking under the PO number of the counter, and
    advanced the counter by one. *)
Definition created (w w' : World) : Prop :=
  po_counter (session_state w') = po_counter (session_state w) + 1 /\
  assigned_pos (calls w') =
    (assigned_pos (calls w) ++ [po_number (po_counter (session_state w))])%list /\
  (List.length (sheet w) <= List.length (sheet w'))%nat.

(** The run left the worksheet, the counter, the booking held and the list
    of assigned PO numbers as they were. *)
Definition untouched (w w' : World) : Prop :=
  sheet w' = sheet w /\
  po_counter (session_state w') = po_counter (session_state w) /\
  current_customer (session_state w') = current_customer (session_state w) /\
  assigned_pos (calls w') = assigned_pos (calls w).

(** The run removed no row, and holds the booking it held or none. *)
Definition keeps_customer (w w' : World) : Prop :=
  (List.length (sheet w) <= List.length (sheet w'))%nat /\
  (current_customer (session_state w') = current_customer (session_state w) \/
   current_customer (session_state w') = None).

(** Every run of [m] relates the world before and the world after by [R]. *)
Definition preserves {A} (R : World -> World -> Prop) (m : M A) : Prop :=
  forall w, R w (snd (m w)).

(** The booking held, if any, is a row of the worksheet. *)
Definition held_row_exists (w : World) : Prop :=
  forall idx cust,
    current_customer (session_state w) = Some (idx, cust) ->
    row_exists idx (sheet w).

(** The PO numbers of the counter values [n0], [n0 + 1], ..., [k] of them. *)
Definition po_run (n0 : Z) (k : nat) : list string :=
  (fun i => po_number (n0 + Z.of_nat i)) <$> seq 0 k.

(** The session has created [k] bookings since the counter was seeded with
    [n0], under the PO numbers of [n0], [n0 + 1], ... in this order. *)
Definition counting (n0 : Z) (w : World) : Prop :=
  exists k, po_counter (session_state w) = n0 + Z.of_nat k /\
            assigned_pos (calls w) = po_run n0 k.

(** A row of the worksheet the session starts from carries no PO number, or
    the PO number of a counter value up to the number of rows. *)
Definition below_seed (rows : Sheet) (r : Row) : Prop :=
  PO_No r = "" \/
  exists k, 0 <= k <= Z.of_nat (List.length rows) /\ PO_No r = po_number k.

(** ** Runs that only read *)

Definition is_read (c : Call) : bool :=
  match c with
  | CalList _ _ | SheetGetAll _ => true
  | _ => false
  end.

(** The run issued only reads (calendar queries, worksheet snapshots) and
    left the worksheet, the calendar and the PO counter as they were. *)
Definition read_only (w w' : World) : Prop :=
  sheet w' = sheet w /\
  calendar w' = calendar w /\
  po_counter (session_state w') = po_counter (session_state w) /\
  exists cs, calls w' = (calls w ++ cs)%list /\ Forall (fun c => is_read c = true) cs.

(** The run left the page mode as it was. *)
Definition same_mode (w w' : World) : Prop :=
  mode (session_state w') = mode (session_state w).

(** The mode a button leads to from a mode, if it leads anywhere: the
    edges of the page graph. *)
Definition leads_to (m : Mode) (clicked : Button) : option Mode :=
  match m, clicked with
  | search, btn_search => Some view
  | search, btn_new_booking => Some new_booking
  | search, btn_view_modify _ => Some view
  | view, btn_rebook => Some rebook
  | view, btn_back => Some search
  | view, btn_yes_cancel => Some search
  | new_booking, btn_return_to_search => Some search
  | new_booking, btn_submit_booking => Some search
  | rebook, btn_return_to_search => Some search
  | rebook, btn_submit_booking => Some search
  | _, _ => None
  end.

(** The run left the page mode as it was, or moved to the mode [t]. *)
Definition mode_or (t : option Mode) (w w' : World) : Prop :=
  mode (session_state w') = mode (session_state w) \/
  Some (mode (session_state w')) = t.

(** The calls made after the first [n]. *)
Definition calls_since (n : nat) (w : World) : list Call :=
  List.skipn n (calls w).

End Specification.

(* ===================================================================== *)
(** * An in-memory calendar and a reliable worksheet, for examples *)
(* ===================================================================== *)

Module InMemory.

Record MemCal := mk_cal {
  cal_events : list Event;
  cal_serial : Z;
  cal_reject_insert : bool;
  cal_reject_delete : bool
}.

Definition digit_of (c : ascii) : option Z :=
  let n := Z.of_nat (nat_of_ascii c) in
  if (48 <=? n) && (n <=? 57) then Some (n - 48) else None.

Fixpoint digits (s : string) (acc : Z) : option Z :=
  match s with
  | EmptyString => Some acc
  | String c rest =>
      match digit_of c with
      | Some d => digits rest (acc * 10 + d)
      | None => None
      end
  end.

Definition field (s : string) (start len : nat) : option Z :=
  digits (String.substring start len s) 0.

(** Reads ["YYYY-MM-DD"]. *)
Definition parse_date (s : string) : Exn + date :=
  match field s 0 4, field s 5 2, field s 8 2 with
  | Some y, Some m, Some d => inr (mk_date y m d)
  | _, _, _ => inl (ValueError "Unknown datetime string format")
  end.

(** Reads ["YYYY-MM-DDTHH:MM:SS+HH:MM"]. *)
Definition parse_iso (s : string) : Exn + datetime :=
  match parse_date s, field s 11 2, field s 14 2, field s 17 2,
        String.get 19 s, field s 20 2, field s 23 2 with
  | inr d, Some hh, Some mm, Some ss, Some sign, Some oh, Some om =>
      let off := oh * 3600 + om * 60 in
      inr (mk_datetime d (mk_time hh mm ss)
                       (if Ascii.eqb sign "-" then - off else off))
  | _, _, _, _, _, _, _ => inl (ValueError "Invalid isoformat string")
  end.

Definition insert (c : MemCal) (body : EventBody) : (Exn + string) * MemCal :=
  if cal_reject_insert c then (inl (HttpError "503 Service Unavailable"), c)
  else
    let id := "evt" ++ str_of_Z (cal_serial c) in
    let ev := mk_event id (summary body) (description body)
                       (mk_event_time (Some (start_dateTime body)) None)
                       (mk_event_time (Some (end_dateTime body)) None) in
    (inr id,
     mk_cal (cal_events c ++ [ev]) (cal_serial c + 1)
            (cal_reject_insert c) (cal_reject_delete c)).

Definition delete (c : MemCal) (id : string) : option Exn * MemCal :=
  if cal_reject_delete c then (Some (HttpError "503 Service Unavailable"), c)
  else if existsb (fun ev => String.eqb (ev_id ev) id) (cal_events c)
  then (None,
        mk_cal (List.filter (fun ev => negb (String.eqb (ev_id ev) id)) (cal_events c))
               (cal_serial c) (cal_reject_insert c) (cal_reject_delete c))
  else (Some (HttpError "410 Gone"), c).

(** The calendar lists every event it holds; the worksheet never fails. *)
Definition services : Services := {|
  Cal := MemCal;
  events_list := fun c _ _ => inr (cal_events c);
  events_insert := insert;
  events_delete := delete;
  fromisoformat := parse_iso;
  to_datetime := parse_date;
  is_upcoming := fun _ => true;
  sheet_fault := fun _ => None
|}.

Definition june10 : date := mk_date 2024 6 10.

Definition timed (id start_ end_ : string) : Event :=
  mk_event id "E000001 – Ann – Big Truck + 1 Man" ""
           (mk_event_time (Some start_) None) (mk_event_time (Some end_) None).

(** The event 10:00 to 14:00 on 2024-06-10. *)
Definition ev_10_14 : Event :=
  timed "evt1" "2024-06-10T10:00:00+10:00" "2024-06-10T14:00:00+10:00".

(** An all-day event. *)
Definition ev_all_day : Event :=
  mk_event "evt9" "Public holiday" ""
           (mk_event_time None (Some "2024-06-10"))
           (mk_event_time None (Some "2024-06-11")).

Definition ann : Row :=
  mk_row "E000001" "Ann Lee" "0412345678" "1 A St" "2 B St" "2024-06-10"
         "10:00:00" "14:00:00" "Big Truck + 1 Man" "" "evt1".

Definition bob : Row :=
  mk_row "E000002" "Bob Ray" "0498765432" "3 C St" "4 D St" "2024-06-11"
         "07:00:00" "11:00:00" "Small Truck + 2 Men" "piano" "evt2".

Definition world (rows : list Row) (events : list Event)
    (reject_insert reject_delete : bool) (s : SessionState) : World (svc := services) :=
  mk_world (svc := services) rows
           (mk_cal events 3 reject_insert reject_delete) s [] [].

Definition form (name phone : string) (d : date) (pick : nat) : Widgets :=
  mk_widgets "" "" name phone "5 E St" "6 F St" d pick BigTruck2Men "stairs".

Definition booking_session : SessionState := mk_session new_booking 3 None false.

(** The calendar holds the event 10:00 to 14:00. *)
Definition w_one_event : World (svc := services) :=
  world [ann; bob] [ev_10_14] false false booking_session.

Definition w_no_event : World (svc := services) :=
  world [ann; bob] [] false false booking_session.

Definition w_all_day : World (svc := services) :=
  world [ann; bob] [ev_all_day] false false booking_session.

(** The calendar rejects inserts. *)
Definition w_insert_down : World (svc := services) :=
  world [ann; bob] [] true false booking_session.

(** Ann's booking is held for rebooking; the calendar rejects deletes. *)
Definition w_rebook_ann : World (svc := services) :=
  world [ann; bob] [ev_10_14] false true (mk_session rebook 3 (Some (2%nat, ann)) false).

(** Ann's booking is held under the cancel prompt; the calendar rejects
    deletes. *)
Definition w_cancel_ann : World (svc := services) :=
  world [ann; bob] [ev_10_14] false true (mk_session view 3 (Some (2%nat, ann)) true).

(** Sheet row 3 is blank and held under the cancel prompt. *)
Definition w_cancel_blank : World (svc := services) :=
  world [ann; blank_row] [ev_10_14] false false
        (mk_session view 3 (Some (3%nat, blank_row)) true).

Definition cy_form : Widgets := form "Cy" "041" june10 0.

Definition cy_event : EventBody := form_event "E000003" cy_form all_slots.

(** Two bookings made one after the other from the search page. *)
Definition two_bookings : list (Button * Widgets) :=
  [(btn_new_booking, cy_form); (btn_submit_booking, cy_form);
   (btn_new_booking, cy_form); (btn_submit_booking, form "Di" "042" june10 0)].

Definition start : World (svc := services) :=
  new_session (svc := services) [ann; bob] (mk_cal [] 3 false false).

(** The same stores behind a calendar whose queries fail. *)
Definition offline : Services := {|
  Cal := MemCal;
  events_list := fun _ _ _ => inl (HttpError "503 Service Unavailable");
  events_insert := insert;
  events_delete := delete;
  fromisoformat := parse_iso;
  to_datetime := parse_date;
  is_upcoming := fun _ => true;
  sheet_fault := fun _ => None
|}.

Definition w_offline : World (svc := offline) :=
  mk_world (svc := offline) [ann; bob] (mk_cal [] 3 false false) booking_session [] [].

(** An event whose start text is no date-time. *)
Definition ev_garbled : Event :=
  timed "evt5" "tomorrow" "2024-06-10T14:00:00+10:00".

Definition w_garbled : World (svc := services) :=
  world [ann; bob] [ev_garbled; ev_10_14] false false booking_session.

(** An event that takes the whole day of work, 07:00 to 18:00. *)
Definition ev_07_18 : Event :=
  timed "evt6" "2024-06-10T07:00:00+10:00" "2024-06-10T18:00:00+10:00".

Definition w_full_day : World (svc := services) :=
  world [ann; bob] [ev_07_18] false false booking_session.

(** An all-day event and the event 10:00 to 14:00. *)
Definition w_two_kinds : World (svc := services) :=
  world [ann; bob] [ev_all_day; ev_10_14] false false booking_session.

Definition search_ann : Widgets :=
  mk_widgets "ann" "" "" "" "" "" june10 0 SmallTruck1Man "".

End InMemory.

(* ===================================================================== *)
(** * Properties *)
(* ===================================================================== *)

Local Open Scope list_scope.

(** ** Python dates and times *)

Ltac zdiv := Z.div_mod_to_equations; lia.

Lemma toordinal_fromordinal (n : Z) : toordinal (fromordinal n) = n.
Proof.
  unfold fromordinal, toordinal; cbn [year month day].
  set (z := n + 305). set (era := z / 146097). set (doe := z - era * 146097).
  assert (Hdoe : 0 <= doe < 146097) by (subst doe era; zdiv).
  set (yoe := (doe - doe / 1460 + doe / 36524 - doe / 146096) / 365).
  assert (Hyoe : 0 <= yoe <= 399) by (subst yoe; zdiv).
  set (doy := doe - (365 * yoe + yoe / 4 - yoe / 100)).
  assert (Hdoy : 0 <= doy <= 365) by (subst doy yoe; zdiv).
  set (mp := (5 * doy + 2) / 153).
  assert (Hmp : 0 <= mp <= 11) by (subst mp; zdiv).
  assert (Hera : (yoe + era * 400) / 400 = era) by zdiv.
  destruct (mp <? 10) eqn:E.
  - replace (mp + 3 <=? 2) with false by lia.
    rewrite Hera.
    replace (mp + 3 - 3) with mp by lia.
    replace (yoe + era * 400 - era * 400) with yoe by lia.
    subst doy z. zdiv.
  - replace (mp - 9 <=? 2) with true by lia.
    replace (yoe + era * 400 + 1 - 1) with (yoe + era * 400) by lia.
    rewrite Hera.
    replace (mp - 9 + 9) with mp by lia.
    replace (yoe + era * 400 - era * 400) with yoe by lia.
    subst doy z. zdiv.
Qed.

Lemma seconds_of_time_of_seconds (s : Z) :
  seconds_of_time (time_of_seconds s) = s.
Proof. unfold seconds_of_time, time_of_seconds; cbn [hour minute second]. zdiv. Qed.

Lemma instant_add_hours (d : datetime) (h : Z) :
  instant (add_hours d h) = instant d + h * 3600.
Proof.
  unfold instant, add_hours; cbn [dt_date dt_time dt_utcoffset].
  rewrite toordinal_fromordinal, seconds_of_time_of_seconds. zdiv.
Qed.

Lemma instant_astimezone (d : datetime) : instant (astimezone d) = instant d.
Proof.
  unfold astimezone. set (local := instant d + tz_utcoffset).
  unfold instant at 1; cbn [dt_date dt_time dt_utcoffset].
  rewrite toordinal_fromordinal, seconds_of_time_of_seconds.
  subst local. zdiv.
Qed.

Lemma window_end_add_hours (date : date) (h : Z) :
  instant (add_hours (localize date (mk_time h 0 0)) 4) = window_end date h.
Proof. rewrite instant_add_hours. reflexivity. Qed.

(** ** Availability engine *)

Section Availability.
Context `{svc : Services}.

Lemma truthy_nonempty (s : string) : s <> "" -> truthy s = true.
Proof. destruct s; [congruence | reflexivity]. Qed.

(** An event with both date-times parsed lets the loop go on exactly when
    the window does not overlap it. *)
Lemma events_loop_timed (start_dt end_dt : datetime) (events : list Event)
    (windows : list (Z * Z)) (w : World) :
  Forall2 timed_event events windows ->
  events_loop start_dt end_dt events w =
  (Done (bool_decide
           (Forall (fun ev => ~ overlaps (instant start_dt) (instant end_dt) ev)
                   windows)), w).
Proof.
  induction 1 as [|ev win events windows Hev _ IH]; [reflexivity|].
  destruct Hev as (s & e & ds & de & Hs & Hs' & Hds & He & He' & Hde & ->).
  cbn [events_loop]. rewrite Hs, He. cbn [truthy_opt].
  rewrite (truthy_nonempty s Hs'), (truthy_nonempty e He'). cbn [andb].
  unfold parse_event_time. rewrite Hds, Hde. cbv [bind ret raise lift].
  unfold dt_le, dt_ge. rewrite !instant_astimezone.
  assert (Hhead : ~ overlaps (instant start_dt) (instant end_dt) (instant ds, instant de)
                  <-> (instant end_dt <=? instant ds) || (instant start_dt >=? instant de) = true).
  { unfold overlaps; cbn [fst snd]. rewrite orb_true_iff, Z.leb_le, Z.geb_le. lia. }
  destruct ((instant end_dt <=? instant ds) || (instant start_dt >=? instant de))%bool;
    cbn [negb].
  - rewrite IH. do 2 f_equal. apply bool_decide_ext.
    rewrite Forall_cons. intuition.
  - do 2 f_equal. symmetry. apply bool_decide_eq_false.
    rewrite Forall_cons. intros [Hno _]. apply Hhead in Hno. discriminate.
Qed.

Lemma truthy_opt_lacking (ev : Event) :
  lacks_dateTime ev ->
  (truthy_opt (get_dateTime (ev_start ev)) &&
   truthy_opt (get_dateTime (ev_end ev)))%bool = false.
Proof.
  intros [-> | ->]; cbn [truthy_opt]; [reflexivity | apply andb_false_r].
Qed.

Lemma parse_event_time_world (o : option string) (w w0 : World) :
  parse_event_time o w = (fst (parse_event_time o w0), w).
Proof.
  destruct o as [s|]; cbn [parse_event_time]; [|reflexivity].
  cbv [bind ret raise lift]. destruct (fromisoformat s); reflexivity.
Qed.

(** The loop only reads the events: it leaves the world as it is, and its
    answer does not depend on the world. *)
Lemma events_loop_world (start_dt end_dt : datetime) (events : list Event)
    (w w0 : World) :
  events_loop start_dt end_dt events w =
  (fst (events_loop start_dt end_dt events w0), w).
Proof.
  induction events as [|ev events IH]; [reflexivity|].
  cbn [events_loop].
  destruct (truthy_opt _ && truthy_opt _)%bool; [|exact IH].
  unfold bind.
  rewrite (parse_event_time_world (get_dateTime (ev_start ev)) w w0).
  rewrite (surjective_pairing (parse_event_time (get_dateTime (ev_start ev)) w0)) at 2.
  destruct (fst (parse_event_time (get_dateTime (ev_start ev)) w0)) as [estart | |];
    try reflexivity.
  rewrite (parse_event_time_world _ w w0).
  rewrite (parse_event_time_world _ (snd _) w0).
  destruct (fst (parse_event_time (get_dateTime (ev_end ev)) w0)) as [eend | |];
    try reflexivity.
  destruct (negb _); [reflexivity|].
  rewrite IH. rewrite (parse_event_time_world _ w0 w0). cbn [snd].
  reflexivity.
Qed.

(** An event lacking a date-time is skipped by the loop. *)
Lemma events_loop_skip (start_dt end_dt : datetime) (before : list Event)
    (ev : Event) (after : list Event) (w : World) :
  lacks_dateTime ev ->
  events_loop start_dt end_dt (before ++ ev :: after) w =
  events_loop start_dt end_dt (before ++ after) w.
Proof.
  intros Hev. revert w.
  induction before as [|ev' before IH]; intros w; cbn [app events_loop].
  - rewrite (truthy_opt_lacking ev Hev). reflexivity.
  - destruct (truthy_opt _ && truthy_opt _)%bool; [|apply IH].
    unfold bind.
    destruct (parse_event_time (get_dateTime (ev_start ev')) w) as [[estart | |] w1];
      try reflexivity.
    destruct (parse_event_time (get_dateTime (ev_end ev')) w1) as [[eend | |] w2];
      try reflexivity.
    destruct (negb _); [reflexivity | apply IH].
Qed.

Lemma events_loop_lacking (start_dt end_dt : datetime) (events : list Event)
    (w : World) :
  Forall lacks_dateTime events ->
  events_loop start_dt end_dt events w = (Done true, w).
Proof.
  induction 1 as [|ev events Hev _ IH]; [reflexivity|].
  rewrite (events_loop_skip _ _ [] ev events w Hev). exact IH.
Qed.

Lemma is_time_available_listed (date : date) (start_time : time)
    (events : list Event) (w : World) :
  events_list (calendar w) (time_min date) (time_max date) = inr events ->
  is_time_available date start_time w =
  events_loop (localize date start_time) (add_hours (localize date start_time) 4)
              events (log_call (CalList (time_min date) (time_max date)) w).
Proof.
  intros Hlist. unfold is_time_available, get_calendar_events, calendar_list, bind.
  fold (time_min date) (time_max date). rewrite Hlist. reflexivity.
Qed.

Lemma is_time_available_world (date : date) (start_time : time) (w : World) :
  snd (is_time_available date start_time w) = after_listing date 1 w.
Proof.
  unfold is_time_available, get_calendar_events, calendar_list, bind.
  fold (time_min date) (time_max date).
  destruct (events_list _ _ _) as [e|events]; [reflexivity|].
  rewrite (events_loop_world _ _ _ _ w). reflexivity.
Qed.

Lemma after_listing_after_listing (date : date) (n m : nat) (w : World) :
  after_listing date n (after_listing date m w) = after_listing date (m + n) w.
Proof.
  unfold after_listing; cbn. f_equal.
  rewrite <- app_assoc, replicate_add. reflexivity.
Qed.

(** The slot loop only queries the calendar. *)
Lemma slots_loop_world (date : date) (hours : list Z) (slots : list time) (w : World) :
  exists n, snd (slots_loop date hours slots w) = after_listing date n w.
Proof.
  revert slots w. induction hours as [|h hours IH]; intros slots w.
  - exists 0%nat. unfold after_listing; destruct w; cbn. f_equal. symmetry. apply app_nil_r.
  - cbn [slots_loop]. unfold bind.
    pose proof (is_time_available_world date (mk_time h 0 0) w) as Hw.
    destruct (is_time_available date (mk_time h 0 0) w) as [[ok | e |] w1];
      cbn [snd] in Hw; subst w1; try (exists 1%nat; reflexivity).
    destruct (IH (if ok then (slots ++ [mk_time h 0 0])%list else slots)
                 (after_listing date 1 w)) as [n Hn].
    exists (1 + n)%nat. rewrite Hn. apply after_listing_after_listing.
Qed.

(** When every query lists [events] and the event loop answers [P h] for
    the window of hour [h], the slot loop keeps the hours that satisfy
    [P], in the order it tries them. *)
Lemma slots_loop_listed (P : Z -> Prop) `{!forall h, Decision (P h)}
    (date : date) (events : list Event) (hours : list Z) (slots : list time)
    (w : World) :
  events_list (calendar w) (time_min date) (time_max date) = inr events ->
  (forall h w',
      events_loop (localize date (mk_time h 0 0))
                  (add_hours (localize date (mk_time h 0 0)) 4) events w' =
      (Done (bool_decide (P h)), w')) ->
  fst (slots_loop date hours slots w) =
  Done (slots ++ map (fun h => mk_time h 0 0) (filter P hours))%list.
Proof.
  intros Hlist Hloop. revert slots w Hlist.
  induction hours as [|h hours IH]; intros slots w Hlist.
  - cbn. rewrite app_nil_r. reflexivity.
  - cbn [slots_loop]. unfold bind.
    rewrite (is_time_available_listed date _ events w Hlist), Hloop.
    rewrite IH by exact Hlist.
    rewrite filter_cons. destruct (decide (P h)) as [Hp|Hp].
    + rewrite (bool_decide_eq_true_2 _ Hp). cbn [map].
      rewrite <- app_assoc. reflexivity.
    + rewrite (bool_decide_eq_false_2 _ Hp). reflexivity.
Qed.

Lemma seqZ_7_8 : seqZ 7 8 = [7; 8; 9; 10; 11; 12; 13; 14].
Proof. reflexivity. Qed.

Lemma window_start_eq (date : date) (h : Z) :
  window_start date h = toordinal date * 86400 + h * 3600 - 36000.
Proof.
  unfold window_start, instant, localize, seconds_of_time, tz_utcoffset.
  cbn [dt_date dt_time dt_utcoffset hour minute second]. lia.
Qed.

(** C1. With the calendar listing events that all carry concrete start and
    end date-times, [get_available_slots(date)] returns exactly the start
    hours 7..14 whose window [[h:00, h:00+4h)] overlaps no event under the
    half-open test, in ascending order; with the single event
    [[10:00, 14:00)] the result is exactly [[14:00]]. *)
Theorem C1_available_slots_are_the_free_windows
    (w : World) (date : date) (events : list Event) (windows : list (Z * Z)) :
  events_list (calendar w) (time_min date) (time_max date) = inr events ->
  Forall2 timed_event events windows ->
  fst (get_available_slots date w) =
    Done (map (fun h => mk_time h 0 0) (available_hours date windows)) /\
  (windows = [(window_start date 10, window_start date 14)] ->
   fst (get_available_slots date w) = Done [mk_time 14 0 0]).
Proof.
  intros Hlist Htimed.
  assert (Hslots : fst (get_available_slots date w) =
                   Done (map (fun h => mk_time h 0 0) (available_hours date windows))).
  { unfold get_available_slots. rewrite seqZ_7_8.
    rewrite (slots_loop_listed (hour_available date windows) date events _ [] w Hlist).
    - reflexivity.
    - intros h w'. rewrite (events_loop_timed _ _ events windows w' Htimed).
      rewrite window_end_add_hours. reflexivity. }
  split; [exact Hslots|].
  intros ->. rewrite Hslots. do 2 f_equal.
  unfold available_hours.
  repeat (rewrite filter_cons_False;
          [| unfold hour_available; rewrite Forall_singleton;
             unfold overlaps, window_end; rewrite !window_start_eq; cbn [fst snd]; lia]).
  rewrite filter_cons_True; [reflexivity|].
  unfold hour_available; rewrite Forall_singleton.
  unfold overlaps, window_end; rewrite !window_start_eq; cbn [fst snd]; lia.
Qed.

(** C2. On a date for which the calendar lists no event,
    [get_available_slots(date)] returns the eight start times 07:00 to
    14:00, in ascending order. *)
Theorem C2_no_events_all_eight_slots (w : World) (date : date) :
  events_list (calendar w) (time_min date) (time_max date) = inr [] ->
  fst (get_available_slots date w) =
    Done [mk_time 7 0 0; mk_time 8 0 0; mk_time 9 0 0; mk_time 10 0 0;
          mk_time 11 0 0; mk_time 12 0 0; mk_time 13 0 0; mk_time 14 0 0].
Proof.
  intros Hlist. unfold get_available_slots. rewrite seqZ_7_8.
  rewrite (slots_loop_listed (fun _ => True) date [] _ [] w Hlist).
  - reflexivity.
  - intros h w'. reflexivity.
Qed.

(** C10. An event lacking a [dateTime] start or a [dateTime] end is
    ignored by [is_time_available]: the answer for any candidate is the
    one given without that event; and when every listed event lacks one,
    [get_available_slots] returns all eight slots. *)
Theorem C10_events_without_dateTime_are_ignored
    (w w' : World) (date : date) (start_time : time)
    (before : list Event) (ev : Event) (after : list Event) :
  events_list (calendar w) (time_min date) (time_max date)
    = inr (before ++ ev :: after) ->
  events_list (calendar w') (time_min date) (time_max date)
    = inr (before ++ after) ->
  lacks_dateTime ev ->
  fst (is_time_available date start_time w) =
    fst (is_time_available date start_time w') /\
  (Forall lacks_dateTime (before ++ after) ->
   fst (get_available_slots date w) = Done all_slots).
Proof.
  intros Hw Hw' Hev. split.
  - rewrite (is_time_available_listed _ _ _ w Hw).
    rewrite (is_time_available_listed _ _ _ w' Hw').
    rewrite events_loop_skip by exact Hev.
    rewrite (events_loop_world _ _ (before ++ after) (log_call _ w) w).
    rewrite (events_loop_world _ _ (before ++ after) (log_call _ w') w).
    reflexivity.
  - intros Hall. unfold get_available_slots. rewrite seqZ_7_8.
    rewrite (slots_loop_listed (fun _ => True) date _ _ [] w Hw).
    + reflexivity.
    + intros h w0. rewrite events_loop_skip by exact Hev.
      apply events_loop_lacking, Hall.
Qed.

End Availability.

(** ** Python strings *)

Lemma truthy_true (s : string) : truthy s = true <-> s <> "".
Proof. destruct s; cbn; split; congruence. Qed.

Lemma append_cons (c : ascii) (a b : string) :
  (String c a ++ b)%string = String c (a ++ b)%string.
Proof. reflexivity. Qed.

Lemma append_nil (b : string) : ("" ++ b)%string = b.
Proof. reflexivity. Qed.

Lemma prefix_app (a b : string) :
  String.prefix a b = true <-> exists post, b = (a ++ post)%string.
Proof.
  revert b. induction a as [|c a IH]; intros b.
  - split; [intros _; exists b; reflexivity | destruct b; reflexivity].
  - destruct b as [|c' b]; cbn [String.prefix].
    + split; [discriminate | intros [post H]; discriminate].
    + destruct (Ascii.ascii_dec c c') as [->|Hne].
      * rewrite IH. split; intros [post H]; exists post;
          rewrite append_cons in *; congruence.
      * split; [discriminate | intros [post H]; rewrite append_cons in H; congruence].
Qed.

(** [needle in hay] holds exactly when [hay] is [pre ++ needle ++ post]. *)
Lemma contains_spec (needle hay : string) :
  contains needle hay = true <->
  exists pre post, hay = (pre ++ needle ++ post)%string.
Proof.
  induction hay as [|c hay IH]; cbn [contains]; rewrite orb_true_iff, prefix_app.
  - split.
    + intros [[post H] | H]; [|discriminate]. exists "", post. exact H.
    + intros (pre & post & H). left. destruct pre; [exists post; exact H|discriminate].
  - rewrite IH. split.
    + intros [[post H] | (pre & post & H)].
      * exists "", post. exact H.
      * exists (String c pre), post. rewrite append_cons. congruence.
    + intros (pre & post & H). destruct pre as [|c' pre].
      * left. exists post. exact H.
      * right. exists pre, post. rewrite append_cons in H. congruence.
Qed.

Lemma length_drop (n : nat) (s : string) :
  String.length (drop n s) = (String.length s - n)%nat.
Proof.
  revert s. induction n as [|n IH]; intros s; cbn [drop].
  - lia.
  - destruct s; cbn [String.length]; [reflexivity | apply IH].
Qed.

Lemma drop_is_suffix (n : nat) (s : string) : exists pre, s = (pre ++ drop n s)%string.
Proof.
  revert s. induction n as [|n IH]; intros s; cbn [drop].
  - exists "". reflexivity.
  - destruct s as [|c s]; [exists ""; reflexivity|].
    destruct (IH s) as [pre H]. exists (String c pre). rewrite append_cons. congruence.
Qed.

Lemma length_app_string (a b : string) :
  String.length (a ++ b)%string = (String.length a + String.length b)%nat.
Proof.
  induction a; [reflexivity|]. rewrite append_cons. cbn [String.length Nat.add].
  congruence.
Qed.

Lemma drop_append_length (a b : string) : drop (String.length a) (a ++ b)%string = b.
Proof.
  induction a; [destruct b; reflexivity|].
  rewrite append_cons. cbn [String.length drop]. assumption.
Qed.

(** [s[-n:]] is the string of the last [n] characters of [s], and the only
    one. *)
Lemma suffix_slice_spec (n : nat) (s t : string) :
  last_chars n s t <-> t = suffix_slice n s.
Proof.
  unfold last_chars, suffix_slice. split.
  - intros [[pre ->] Hlen]. rewrite length_app_string in *.
    replace (String.length pre + String.length t - n)%nat with (String.length pre) by lia.
    symmetry. apply drop_append_length.
  - intros ->. split; [apply drop_is_suffix|]. rewrite length_drop. lia.
Qed.

(** ** Search *)

Section Search.
Context `{svc : Services}.

(** The two tests of the loop body decide [matches]. *)
Lemma row_tests_match (name phone : string) (row : Row) :
  (truthy name && contains (lower name) (lower (Name row)) = true \/
   truthy phone &&
     String.eqb (suffix_slice 9 (Phone row)) (suffix_slice 9 phone) = true)
  <-> matches name phone row.
Proof.
  unfold matches, substring_ci.
  rewrite !andb_true_iff, !truthy_true, contains_spec, String.eqb_eq.
  split.
  - intros [[Hn Hsub] | [Hp Heq]]; [left; auto | right].
    split; [exact Hp|]. exists (suffix_slice 9 phone).
    rewrite !suffix_slice_spec. auto.
  - intros [[Hn Hsub] | [Hp (t & Ht1 & Ht2)]]; [left; auto | right].
    apply suffix_slice_spec in Ht1, Ht2. split; congruence.
Qed.

(** The loop returns the first matching row with its sheet position, the
    rows being numbered from [i]. *)
Lemma find_loop_first_match (name phone : string) (records : list Row) (i : nat) :
  match find_loop name phone i records with
  | Some (idx, row) =>
      exists k, idx = (i + k)%nat /\ records !! k = Some row /\
                matches name phone row /\
                forall j earlier, (j < k)%nat -> records !! j = Some earlier ->
                                  ~ matches name phone earlier
  | None => forall row, row ∈ records -> ~ matches name phone row
  end.
Proof.
  revert i. induction records as [|r records IH]; intros i; cbn [find_loop].
  - intros row Hin. inversion Hin.
  - pose proof (row_tests_match name phone r) as Hr.
    destruct (truthy name && contains (lower name) (lower (Name r)))%bool.
    { exists 0%nat. repeat split; [lia | apply Hr; auto | intros; lia]. }
    destruct (truthy phone && _)%bool.
    { exists 0%nat. repeat split; [lia | apply Hr; auto | intros; lia]. }
    assert (Hno : ~ matches name phone r).
    { intros Hm. apply Hr in Hm. destruct Hm; discriminate. }
    specialize (IH (S i)).
    destruct (find_loop name phone (S i) records) as [[idx row]|].
    + destruct IH as (k & -> & Hk & Hm & Hfirst).
      exists (S k). repeat split; [lia | exact Hk | exact Hm |].
      intros [|j] earlier Hj Hl; cbn in Hl.
      * congruence.
      * apply (Hfirst j); [lia | exact Hl].
    + intros row Hin. apply elem_of_cons in Hin as [-> | Hin]; auto.
Qed.

(** C3. [find_customer] scans the record snapshot in store order and
    returns the first row that matches (non-empty name a case-insensitive
    substring of the stored name, or non-empty phone with the same last 9
    characters as the stored phone) together with its 1-based sheet
    position counting the header (the first data row is 2); it returns the
    not-found signal when no row matches; an empty query never matches. *)
Theorem C3_find_customer_first_match (w : World) (name phone : string) :
  match sheet_fault (calls w) with
  | Some e => fst (find_customer name phone w) = Raised e
  | None =>
      exists found,
        fst (find_customer name phone w) = Done found /\
        fst (find_customer "" "" w) = Done None /\
        match found with
        | Some (idx, row) =>
            exists k, idx = (k + 2)%nat /\ sheet w !! k = Some row /\
                      matches name phone row /\
                      forall j earlier, (j < k)%nat -> sheet w !! j = Some earlier ->
                                        ~ matches name phone earlier
        | None => forall row, row ∈ sheet w -> ~ matches name phone row
        end
  end.
Proof.
  unfold find_customer, get_all_records, bind, ret.
  destruct (sheet_fault (calls w)) as [e|]; [reflexivity|]. cbn [fst].
  exists (find_loop name phone 2 (sheet w)). split; [reflexivity|]. split.
  - f_equal. induction (sheet w) as [|r rows IH] in |- *; [reflexivity|].
    cbn [find_loop truthy andb]. clear IH.
    generalize 3%nat. induction rows as [|r' rows IH]; intros n; [reflexivity|].
    cbn [find_loop truthy andb]. apply IH.
  - pose proof (find_loop_first_match name phone (sheet w) 2) as H.
    destruct (find_loop name phone 2 (sheet w)) as [[idx row]|]; [|exact H].
    destruct H as (k & -> & H). exists k. split; [lia | exact H].
Qed.

End Search.

(** ** Booking lifecycle: one run of a page *)

Section Lifecycle.
Context `{svc : Services}.

Lemma after_listing_0 (date : date) (w : World) : after_listing date 0 w = w.
Proof. destruct w; unfold after_listing; cbn. f_equal. apply app_nil_r. Qed.

Lemma get_available_slots_world (date : date) (w : World) :
  exists n, snd (get_available_slots date w) = after_listing date n w.
Proof. apply slots_loop_world. Qed.

Lemma create_calendar_event_insert (po name phone from_addr to_addr : string)
    (date : date) (start end_ : time) (service notes : string) :
  create_calendar_event po name phone from_addr to_addr date start end_ service notes =
  calendar_insert (booking_event po name phone from_addr to_addr date start end_
                                 service notes).
Proof. reflexivity. Qed.

(** [update_calendar_event]: the delete is issued first, its failure is
    shown as a warning, and the insert is issued whatever the delete did. *)
Lemma update_calendar_event_run (event_id po name phone from_addr to_addr : string)
    (date : date) (start end_ : time) (service notes : string) (w : World)
    (dres : option Exn) (c1 : Cal) (ires : Exn + string) (c2 : Cal) :
  let body := booking_event po name phone from_addr to_addr date start end_
                            service notes in
  events_delete (calendar w) event_id = (dres, c1) ->
  events_insert c1 body = (ires, c2) ->
  update_calendar_event event_id po name phone from_addr to_addr date start end_
                        service notes w =
  (match ires with inr id => Done id | inl e => Raised e end,
   mk_world (sheet w) c2 (session_state w)
            (calls w ++ [CalDelete event_id dres; CalInsert body ires])
            (match dres with
             | Some e => messages w ++
                         [Warning ("Could not delete old event: " ++ str_of_exn e)%string]
             | None => messages w
             end)).
Proof.
  intros body Hdel Hins.
  unfold update_calendar_event. rewrite create_calendar_event_insert. fold body.
  unfold bind, try_except, calendar_delete, calendar_insert, st_warning, show.
  rewrite Hdel. destruct dres as [e|]; cbn [calendar]; rewrite Hins;
    destruct ires; cbn; rewrite <- app_assoc; reflexivity.
Qed.

(** The submit branch in rebook mode. *)
Lemma submit_booking_rebook (idx : nat) (event_id po name phone from_addr
    to_addr : string) (date : date) (start end_ : time) (service notes : string)
    (w : World) (dres : option Exn) (c1 : Cal) (ires : Exn + string) (c2 : Cal) :
  let body := booking_event po name phone from_addr to_addr date start end_
                            service notes in
  let w1 := mk_world (sheet w) c2 (session_state w)
              (calls w ++ [CalDelete event_id dres; CalInsert body ires])
              (match dres with
               | Some e => messages w ++
                           [Warning ("Could not delete old event: " ++ str_of_exn e)%string]
               | None => messages w
               end) in
  mode (session_state w) = rebook ->
  events_delete (calendar w) event_id = (dres, c1) ->
  events_insert c1 body = (ires, c2) ->
  submit_booking (Some idx) event_id po name phone from_addr to_addr date start
                 end_ service notes w =
  match ires with
  | inl e => (Raised e, w1)
  | inr new_id =>
      let values := booking_values po name phone from_addr to_addr date start
                                   end_ service notes new_id in
      match update_result idx (sheet_fault (calls w1)) with
      | Some e => (Raised e, log_call (SheetUpdate idx values (Some e)) w1)
      | None =>
          (Done tt,
           mk_world (write_row idx (row_of_values values) (sheet w)) c2
                    (mk_session search (po_counter (session_state w)) None
                                (show_cancel_confirm (session_state w)))
                    (calls w1 ++ [SheetUpdate idx values None])
                    (messages w1 ++ [Success "Booking updated."]))
      end
  end.
Proof.
  intros body w1 Hmode Hdel Hins.
  unfold submit_booking. unfold bind at 1. unfold get_state at 1. rewrite Hmode.
  unfold bind at 1. unfold bind at 1.
  rewrite (update_calendar_event_run _ _ _ _ _ _ _ _ _ _ _ w dres c1 ires c2 Hdel Hins).
  fold body. fold w1. destruct ires as [e|new_id]; [reflexivity|].
  unfold bind at 1. unfold update_booking_in_sheet, update.
  fold (booking_values po name phone from_addr to_addr date start end_ service notes new_id).
  destruct (update_result idx (sheet_fault (calls w1))) as [e|]; reflexivity.
Qed.

(** The submit branch in new-booking mode. *)
Lemma submit_booking_new (idx : option nat) (event_id po name phone from_addr
    to_addr : string) (date : date) (start end_ : time) (service notes : string)
    (w : World) (ires : Exn + string) (c2 : Cal) :
  let body := booking_event po name phone from_addr to_addr date start end_
                            service notes in
  let w1 := mk_world (sheet w) c2 (session_state w)
              (calls w ++ [CalInsert body ires]) (messages w) in
  mode (session_state w) = new_booking ->
  events_insert (calendar w) body = (ires, c2) ->
  submit_booking idx event_id po name phone from_addr to_addr date start
                 end_ service notes w =
  match ires with
  | inl e => (Raised e, w1)
  | inr new_id =>
      let values := booking_values po name phone from_addr to_addr date start
                                   end_ service notes new_id in
      match sheet_fault (calls w1) with
      | Some e => (Raised e, log_call (SheetAppend values (Some e)) w1)
      | None =>
          (Done tt,
           mk_world (sheet w ++ [row_of_values values]) c2
                    (mk_session search (po_counter (session_state w) + 1) None
                                (show_cancel_confirm (session_state w)))
                    (calls w1 ++ [SheetAppend values None])
                    (messages w ++ [Success "Booking created."]))
      end
  end.
Proof.
  intros body w1 Hmode Hins.
  unfold submit_booking. unfold bind at 1. unfold get_state at 1. rewrite Hmode.
  unfold bind at 1. unfold bind at 1.
  rewrite create_calendar_event_insert. fold body.
  unfold calendar_insert. rewrite Hins. fold w1.
  destruct ires as [e|new_id]; [reflexivity|].
  unfold bind at 1. unfold append_booking_to_sheet, append_row.
  fold (booking_values po name phone from_addr to_addr date start end_ service notes new_id).
  destruct (sheet_fault (calls w1)) as [e|]; reflexivity.
Qed.

(** The form with "Submit Booking" pressed: the page queries the calendar
    for the slots and then either ends before the submit branch (an
    exception, or [st.stop()] on an empty slot list), or runs the submit
    branch on the values of the form. *)
Lemma booking_form_submit (ws : Widgets) (idx : option nat)
    (po service event_id : string) (w : World) :
  exists n,
    let w1 := after_listing (form_date ws) n w in
    (exists r w',
        booking_form btn_submit_booking ws idx po service event_id w = (r, w') /\
        (forall x, r <> Done x) /\
        (w' = w1 \/ w' = snd (st_warning no_slots_warning w1))) \/
    (exists slots,
        booking_form btn_submit_booking ws idx po service event_id w =
        submit_form idx event_id po ws slots w1).
Proof.
  destruct (get_available_slots_world (form_date ws) w) as [n Hn].
  exists n. cbv zeta.
  remember (booking_form btn_submit_booking ws idx po service event_id w) as res eqn:Hres.
  unfold booking_form in Hres. cbn [is_button when] in Hres. unfold bind at 1 in Hres.
  destruct (get_available_slots (form_date ws) w) as [[slots|e|] w1];
    cbn [snd] in Hn; subst w1.
  - destruct slots as [|t slots].
    + left. eexists _, _. split; [exact Hres|]. split; [discriminate|].
      right. reflexivity.
    + unfold bind at 1 in Hres. unfold ret at 1 in Hres. unfold bind at 1 in Hres.
      destruct (list_index service service_options).
      * right. exists (t :: slots). exact Hres.
      * left. eexists _, _. split; [exact Hres|]. split; [discriminate|].
        left. reflexivity.
  - left. eexists _, _. split; [exact Hres|]. split; [discriminate|]. left. reflexivity.
  - left. eexists _, _. split; [exact Hres|]. split; [discriminate|]. left. reflexivity.
Qed.

(** The defaults the page sets up before the form: in rebook mode the PO
    number, row and event id of the booking held; otherwise the PO number of
    the counter, no row and no event. *)
Lemma booking_page_defaults (clicked : Button) (ws : Widgets) (w : World) :
  is_button btn_return_to_search clicked = false ->
  (exists e, booking_page clicked ws w = (Raised e, w)) \/
  (exists idx po service event_id,
      booking_page clicked ws w = booking_form clicked ws idx po service event_id w /\
      match mode (session_state w) with
      | rebook =>
          exists i cust,
            current_customer (session_state w) = Some (i, cust) /\
            idx = Some i /\ po = PO_No cust /\ event_id = Event_ID cust
      | _ => idx = None /\ po = po_number (po_counter (session_state w)) /\
             event_id = ""%string
      end).
Proof.
  intros Hbtn. unfold booking_page. rewrite Hbtn.
  cbv [when bind ret get_state generate_po_number lift raise].
  destruct (mode (session_state w)) eqn:Hmode.
  1-3: right; eexists _, _, _, _; split; [reflexivity | auto].
  destruct (current_customer (session_state w)) as [[i cust]|] eqn:Hcur.
  - destruct (to_datetime (Date cust)) as [e|d].
    + left. eexists. reflexivity.
    + right. eexists _, _, _, _. split; [reflexivity|]. exists i, cust. auto.
  - left. eexists. reflexivity.
Qed.

(** A rerun with "Submit Booking" pressed, in one of the two booking modes. *)
Lemma script_submit (ws : Widgets) (w : World) :
  mode (session_state w) = new_booking \/ mode (session_state w) = rebook ->
  exists n,
    let w1 := after_listing (form_date ws) n w in
    (exists r w',
        script btn_submit_booking ws w = (r, w') /\
        (forall x, r <> Done x) /\
        (w' = w1 \/ w' = snd (st_warning no_slots_warning w1))) \/
    (mode (session_state w) = new_booking /\
     exists slots,
       script btn_submit_booking ws w =
       submit_form None "" (po_number (po_counter (session_state w))) ws slots w1) \/
    (mode (session_state w) = rebook /\
     exists slots i cust,
       current_customer (session_state w) = Some (i, cust) /\
       script btn_submit_booking ws w =
       submit_form (Some i) (Event_ID cust) (PO_No cust) ws slots w1).
Proof.
  intros Hmode.
  assert (Hscript : script btn_submit_booking ws w = booking_page btn_submit_booking ws w).
  { unfold script, bind, get_state. destruct Hmode as [-> | ->]; reflexivity. }
  rewrite Hscript.
  destruct (booking_page_defaults btn_submit_booking ws w eq_refl)
    as [[e He] | (idx & po & service & event_id & Hpage & Hdef)].
  { exists 0%nat. left. exists (Raised e), w. split; [exact He|].
    split; [discriminate|]. left. cbv zeta. symmetry. apply after_listing_0. }
  rewrite Hpage.
  destruct (booking_form_submit ws idx po service event_id w) as [n Hform].
  exists n. cbv zeta in *. destruct Hform as [Hend | [slots Hsub]]; [left; exact Hend|].
  right. rewrite Hsub. destruct Hmode as [Hm | Hm]; rewrite Hm in Hdef.
  - left. split; [exact Hm|]. destruct Hdef as (-> & -> & ->). exists slots. reflexivity.
  - right. split; [exact Hm|]. destruct Hdef as (i & cust & Hcur & -> & -> & ->).
    exists slots, i, cust. split; [exact Hcur | reflexivity].
Qed.

Lemma calls_since_app (w w' : World) (new : list Call) :
  calls w' = calls w ++ new -> calls_since (List.length (calls w)) w' = new.
Proof. unfold calls_since. intros ->. apply drop_app_length. Qed.

Lemma not_in_listing (c : Call) (n : nat) (tmin tmax : string) :
  c ∈ replicate n (CalList tmin tmax) -> c = CalList tmin tmax.
Proof. intros H. apply elem_of_replicate in H. tauto. Qed.

Lemma listing_no_write (n : nat) (tmin tmax : string) :
  Forall (fun c => is_sheet_write c = false) (replicate n (CalList tmin tmax)).
Proof. apply Forall_replicate. reflexivity. Qed.

(** C6. In a new-booking or rebook submit in which the calendar insert
    fails, the run ends with that failure, no worksheet write is issued (no
    append, no range update), the PO counter is not advanced and the
    worksheet is left exactly as it was. *)
Theorem C6_failed_insert_leaves_the_sheet_alone
    (ws : Widgets) (w : World) (body : EventBody) (e : Exn) :
  mode (session_state w) = new_booking \/ mode (session_state w) = rebook ->
  CalInsert body (inl e)
    ∈ calls_since (List.length (calls w)) (snd (script btn_submit_booking ws w)) ->
  fst (script btn_submit_booking ws w) = Raised e /\
  sheet (snd (script btn_submit_booking ws w)) = sheet w /\
  po_counter (session_state (snd (script btn_submit_booking ws w)))
    = po_counter (session_state w) /\
  Forall (fun c => is_sheet_write c = false)
         (calls_since (List.length (calls w)) (snd (script btn_submit_booking ws w))).
Proof.
  intros Hmode Hin.
  destruct (script_submit ws w Hmode) as [n Hrun]. cbv zeta in Hrun.
  destruct Hrun as [(r & w' & Hrun & _ & Hw') | [[Hm [slots Hrun]] | [Hm (slots & i & cust & _ & Hrun)]]];
    rewrite Hrun in *; cbn [fst snd] in *.
  - exfalso.
    assert (Hcalls : calls w' = calls w ++ replicate n (CalList (time_min (form_date ws))
                                                            (time_max (form_date ws))))
      by (destruct Hw' as [-> | ->]; reflexivity).
    rewrite (calls_since_app _ _ _ Hcalls) in Hin.
    apply not_in_listing in Hin. discriminate.
  - unfold submit_form in *.
    destruct (events_insert (calendar (after_listing (form_date ws) n w))
                (form_event (po_number (po_counter (session_state w))) ws slots))
      as [ires c2] eqn:Hins.
    unfold form_event in Hins.
    rewrite (submit_booking_new _ _ _ _ _ _ _ _ _ _ _ _
               (after_listing (form_date ws) n w) ires c2 Hm Hins) in *.
    destruct ires as [e'|new_id]; cbn [fst snd] in *.
    + erewrite calls_since_app in * by (cbn; rewrite <- app_assoc; reflexivity).
      apply elem_of_app in Hin as [Hin | Hin];
        [apply not_in_listing in Hin; discriminate|].
      apply list_elem_of_singleton in Hin. injection Hin as -> ->.
      repeat split. apply Forall_app. split; [apply listing_no_write|].
      repeat constructor.
    + exfalso. cbv zeta in Hin.
      destruct (sheet_fault _); cbn [fst snd] in Hin;
        erewrite calls_since_app in Hin
          by (cbn; rewrite <- !app_assoc; reflexivity);
        repeat (apply elem_of_app in Hin as [Hin | Hin];
                [try (apply not_in_listing in Hin); try discriminate|]);
        repeat (apply elem_of_cons in Hin as [Hin | Hin]; [discriminate|]);
        inversion Hin.
  - unfold submit_form in *.
    destruct (events_delete (calendar (after_listing (form_date ws) n w)) (Event_ID cust))
      as [dres c1] eqn:Hdel.
    destruct (events_insert c1 (form_event (PO_No cust) ws slots)) as [ires c2] eqn:Hins.
    unfold form_event in Hins.
    rewrite (submit_booking_rebook _ _ _ _ _ _ _ _ _ _ _ _
               (after_listing (form_date ws) n w) dres c1 ires c2 Hm Hdel Hins) in *.
    destruct ires as [e'|new_id]; cbn [fst snd] in *.
    + erewrite calls_since_app in * by (cbn; rewrite <- app_assoc; reflexivity).
      apply elem_of_app in Hin as [Hin | Hin];
        [apply not_in_listing in Hin; discriminate|].
      apply elem_of_cons in Hin as [Hin | Hin]; [discriminate|].
      apply list_elem_of_singleton in Hin. injection Hin as -> ->.
      repeat split. apply Forall_app. split; [apply listing_no_write|].
      repeat constructor.
    + exfalso. cbv zeta in Hin.
      destruct (update_result _ _); cbn [fst snd] in Hin;
        erewrite calls_since_app in Hin
          by (cbn; rewrite <- !app_assoc; reflexivity);
        repeat (apply elem_of_app in Hin as [Hin | Hin];
                [try (apply not_in_listing in Hin); try discriminate|]);
        repeat (apply elem_of_cons in Hin as [Hin | Hin]; [discriminate|]);
        inversion Hin.
Qed.

Lemma write_row_in_place (idx : nat) (row : Row) (s : Sheet) :
  row_exists idx s -> overwritten_in_place idx row s (write_row idx row s).
Proof.
  intros [Hge Hlt]. destruct idx as [|[|p]]; [lia | lia |].
  unfold overwritten_in_place. cbn [write_row].
  replace (S (S p) - 2)%nat with p in * by lia.
  destruct (Nat.ltb_spec p (List.length s)); [|lia].
  split; [apply length_insert|]. split.
  - apply list_lookup_insert_eq. assumption.
  - intros j Hj. apply list_lookup_insert_ne. congruence.
Qed.

Lemma write_row_length (idx : nat) (row : Row) (s : Sheet) :
  (List.length s <= List.length (write_row idx row s))%nat.
Proof.
  destruct idx as [|[|p]]; cbn [write_row]; [lia | lia |].
  destruct (p <? List.length s)%nat.
  - rewrite length_insert. lia.
  - rewrite length_app. lia.
Qed.

Lemma update_result_row_exists (idx : nat) (s : Sheet) (fault : option Exn) :
  row_exists idx s -> update_result idx fault = fault.
Proof. intros [Hge _]. destruct idx; [lia|]. destruct fault; reflexivity. Qed.

(** A slot loop that returns has queried the calendar once per hour. *)
Lemma slots_loop_done_world (date : date) (hours : list Z) (slots res : list time)
    (w : World) :
  fst (slots_loop date hours slots w) = Done res ->
  snd (slots_loop date hours slots w) = after_listing date (List.length hours) w.
Proof.
  revert slots w. induction hours as [|h hours IH]; intros slots w.
  - intros _. cbn. symmetry. apply after_listing_0.
  - cbn [slots_loop List.length]. unfold bind.
    pose proof (is_time_available_world date (mk_time h 0 0) w) as Hw.
    destruct (is_time_available date (mk_time h 0 0) w) as [[ok | e |] w1];
      cbn [snd] in Hw; subst w1; cbn [fst]; try discriminate.
    intros Hdone. rewrite (IH _ _ Hdone).
    apply (after_listing_after_listing date (List.length hours) 1 w).
Qed.

Lemma get_available_slots_done (date : date) (slots : list time) (w : World) :
  fst (get_available_slots date w) = Done slots ->
  get_available_slots date w = (Done slots, after_listing date 8 w).
Proof.
  intros Hdone.
  pose proof (slots_loop_done_world date (seqZ 7 8) [] slots w Hdone) as Hw.
  unfold get_available_slots in *.
  destruct (slots_loop date (seqZ 7 8) [] w) as [r w1]. cbn [fst snd] in *.
  subst. reflexivity.
Qed.

(** A rerun with "Submit Booking" pressed in rebook mode either renders the
    form down to the button and runs the submit branch on the booking held,
    after the eight queries of the slot list, or ends above the button. *)
Lemma rebook_submit_run (ws : Widgets) (w : World) (idx : nat) (cust : Row) :
  mode (session_state w) = rebook ->
  current_customer (session_state w) = Some (idx, cust) ->
  (exists slots,
      submit_reached cust ws w slots /\
      script btn_submit_booking ws w =
      submit_form (Some idx) (Event_ID cust) (PO_No cust) ws slots
                  (after_listing (form_date ws) 8 w)) \/
  ((forall slots, ~ submit_reached cust ws w slots) /\
   exists n r w',
     script btn_submit_booking ws w = (r, w') /\
     (forall x, r <> Done x) /\
     (w' = after_listing (form_date ws) n w \/
      w' = snd (st_warning no_slots_warning (after_listing (form_date ws) n w)))).
Proof.
  intros Hmode Hcur.
  assert (Hscript : script btn_submit_booking ws w =
                    match to_datetime (Date cust) with
                    | inl e => (Raised e, w)
                    | inr _ => booking_form btn_submit_booking ws (Some idx) (PO_No cust)
                                            (Service cust) (Event_ID cust) w
                    end).
  { unfold script, bind at 1, get_state at 1. rewrite Hmode. cbv beta iota.
    unfold booking_page. cbn [is_button when].
    cbv [bind ret get_state lift raise]. rewrite Hmode, Hcur.
    destruct (to_datetime (Date cust)); reflexivity. }
  rewrite Hscript. unfold submit_reached.
  destruct (to_datetime (Date cust)) as [e|d] eqn:Hd.
  { right. split; [intros slots ((d & Hd') & _); discriminate|].
    exists 0%nat, (Raised e), w. split; [reflexivity|]. split; [discriminate|].
    left. symmetry. apply after_listing_0. }
  destruct (get_available_slots_world (form_date ws) w) as [n Hn].
  pose proof (fun slots => get_available_slots_done (form_date ws) slots w) as Hdone.
  remember (booking_form btn_submit_booking ws (Some idx) (PO_No cust) (Service cust)
                         (Event_ID cust) w) as res eqn:Hres.
  unfold booking_form in Hres. cbn [is_button when] in Hres. unfold bind at 1 in Hres.
  destruct (get_available_slots (form_date ws) w) as [[slots|e|] w1];
    cbn [fst snd] in *; subst w1.
  - destruct slots as [|t slots].
    + right. split; [intros slots (_ & Hs & Hne & _); congruence|].
      exists n, (fst res), (snd res). subst res. cbn [fst snd].
      split; [reflexivity|]. split; [discriminate|]. right. reflexivity.
    + unfold bind at 1 in Hres. unfold ret at 1 in Hres. unfold bind at 1 in Hres.
      destruct (list_index (Service cust) service_options) as [k|] eqn:Hk.
      * left. exists (t :: slots). split.
        { split; [exists d; reflexivity|]. split; [reflexivity|].
          split; [discriminate|]. exists k. reflexivity. }
        specialize (Hdone (t :: slots) eq_refl).
        apply (f_equal snd) in Hdone. cbn [snd] in Hdone.
        rewrite <- Hdone. subst res. reflexivity.
      * right. split; [intros s (_ & _ & _ & k & Hk'); discriminate|].
        exists n, (fst res), (snd res). subst res. cbn [fst snd].
        split; [reflexivity|]. split; [discriminate|]. left. reflexivity.
  - right. split; [intros s (_ & Hs & _); discriminate|].
    exists n, (fst res), (snd res). subst res. cbn [fst snd].
    split; [reflexivity|]. split; [discriminate|]. left. reflexivity.
  - right. split; [intros s (_ & Hs & _); discriminate|].
    exists n, (fst res), (snd res). subst res. cbn [fst snd].
    split; [reflexivity|]. split; [discriminate|]. left. reflexivity.
Qed.

(** C4. A rebook submit keeps the PO number and the row of the booking held.
    When the form is rendered down to the "Submit Booking" button, the run
    makes the eight calendar queries of the slot list, then deletes the old
    event, then inserts the replacement whatever the delete answered (a
    failed delete is shown as a warning), and on a successful insert
    overwrites the row at the same index by a range update that carries the
    same PO number and the event id the insert returned; no row is appended.
    The answers of the delete and of the insert are the calendar's own.
    When the form is not rendered that far, the run ends above the button
    and writes nothing. *)
Theorem C4_rebook_keeps_po_and_row
    (ws : Widgets) (w : World) (idx : nat) (cust : Row) :
  mode (session_state w) = rebook ->
  current_customer (session_state w) = Some (idx, cust) ->
  row_exists idx (sheet w) ->
  let r := fst (script btn_submit_booking ws w) in
  let w' := snd (script btn_submit_booking ws w) in
  let new := calls_since (List.length (calls w)) w' in
  (forall slots,
      submit_reached cust ws w slots ->
      let body := form_event (PO_No cust) ws slots in
      let deleted := events_delete (calendar w) (Event_ID cust) in
      let inserted := events_insert (snd deleted) body in
      let steps := queries ws 8 ++
                   [CalDelete (Event_ID cust) (fst deleted);
                    CalInsert body (fst inserted)] in
      calendar w' = snd inserted /\
      (forall e, fst deleted = Some e -> delete_warning e ∈ messages w') /\
      match fst inserted with
      | inl e => new = steps /\ r = Raised e /\ sheet w' = sheet w
      | inr new_id =>
          let values := form_values (PO_No cust) ws slots new_id in
          let f := sheet_fault (calls w ++ steps) in
          new = steps ++ [SheetUpdate idx values f] /\
          nth 0 values ""%string = PO_No cust /\
          nth 10 values ""%string = new_id /\
          match f with
          | Some e => r = Raised e /\ sheet w' = sheet w
          | None =>
              r = Done tt /\
              overwritten_in_place idx (row_of_values values) (sheet w) (sheet w') /\
              PO_No (row_of_values values) = PO_No cust /\
              Event_ID (row_of_values values) = new_id
          end
      end) /\
  ((forall slots, ~ submit_reached cust ws w slots) ->
   exists n,
     new = queries ws n /\ (forall x, r <> Done x) /\
     sheet w' = sheet w /\ calendar w' = calendar w).
Proof.
  intros Hmode Hcur Hrow. cbv zeta.
  destruct (rebook_submit_run ws w idx cust Hmode Hcur)
    as [(slots0 & Hreach0 & Hrun) | (Hnot & n & r & w' & Hrun & Hr & Hw')]; split.
  - intros slots Hreach.
    assert (slots = slots0) as ->.
    { destruct Hreach as (_ & Hs & _), Hreach0 as (_ & Hs0 & _). congruence. }
    clear Hreach Hreach0. rewrite Hrun. unfold submit_form.
    destruct (events_delete (calendar w) (Event_ID cust)) as [dres c1] eqn:Hdel.
    cbn [fst snd].
    destruct (events_insert c1 (form_event (PO_No cust) ws slots0)) as [ires c2] eqn:Hins.
    cbn [fst snd]. unfold form_event in Hins.
    rewrite (submit_booking_rebook _ _ _ _ _ _ _ _ _ _ _ _
               (after_listing (form_date ws) 8 w) dres c1 ires c2 Hmode Hdel Hins).
    fold (form_event (PO_No cust) ws slots0).
    destruct ires as [e|new_id]; cbn [fst snd].
    + split; [reflexivity|]. split.
      * intros e' ->. cbn. apply elem_of_app. right. apply list_elem_of_singleton.
        reflexivity.
      * erewrite calls_since_app by (cbn; rewrite <- app_assoc; reflexivity).
        repeat split.
    + fold (form_values (PO_No cust) ws slots0 new_id).
      rewrite (update_result_row_exists idx (sheet w)) by exact Hrow.
      cbn [calls sheet messages session_state calendar after_listing].
      fold (queries ws 8). rewrite <- app_assoc.
      set (f := sheet_fault _).
      destruct (write_row_in_place idx
                  (row_of_values (form_values (PO_No cust) ws slots0 new_id))
                  (sheet w) Hrow) as (Hlen & Hat & Hother).
      split; [destruct f; reflexivity|]. split.
      * intros e' ->. destruct f; cbn;
          rewrite ?elem_of_app, ?list_elem_of_singleton; unfold delete_warning; auto.
      * destruct f as [e|]; cbn [fst snd];
          (erewrite calls_since_app by (cbn; rewrite <- !app_assoc; reflexivity));
          repeat split; cbn [sheet]; auto.
  - intros Hnot. destruct (Hnot slots0 Hreach0).
  - intros slots Hreach. destruct (Hnot slots Hreach).
  - intros _. exists n. rewrite Hrun. cbn [fst snd].
    assert (Hcalls : calls w' = calls w ++ queries ws n)
      by (destruct Hw' as [-> | ->]; reflexivity).
    rewrite (calls_since_app _ _ _ Hcalls).
    split; [reflexivity|]. split; [exact Hr|].
    destruct Hw' as [-> | ->]; split; reflexivity.
Qed.

(** [delete_calendar_event] never raises: a failed delete is shown as an
    error. *)
Lemma delete_calendar_event_run (event_id : string) (w : World)
    (dres : option Exn) (c1 : Cal) :
  events_delete (calendar w) event_id = (dres, c1) ->
  delete_calendar_event event_id w =
  (Done tt,
   mk_world (sheet w) c1 (session_state w) (calls w ++ [CalDelete event_id dres])
            (match dres with
             | Some e => messages w ++ [delete_error e]
             | None => messages w
             end)).
Proof.
  intros Hdel. unfold delete_calendar_event, try_except, calendar_delete.
  rewrite Hdel. destruct dres; reflexivity.
Qed.

(** The confirmed cancellation, from the world [w1] the delete attempt (if
    any) has left. *)
Lemma cancel_booking_run (idx : nat) (cust : Row) (w : World) :
  let w1 := if truthy (Event_ID cust)
            then snd (delete_calendar_event (Event_ID cust) w) else w in
  cancel_booking idx cust w =
  match update_result idx (sheet_fault (calls w1)) with
  | Some e => (Raised e, log_call (SheetUpdate idx (repeat ""%string 11) (Some e)) w1)
  | None =>
      (Done tt,
       mk_world (write_row idx blank_row (sheet w1)) (calendar w1)
                (mk_session search (po_counter (session_state w1)) None false)
                (calls w1 ++ [SheetUpdate idx (repeat ""%string 11) None])
                (messages w1 ++ [Success "Cancelled."]))
  end.
Proof.
  cbv zeta. unfold cancel_booking. unfold bind at 1.
  destruct (truthy (Event_ID cust)); cbn [when].
  - destruct (events_delete (calendar w) (Event_ID cust)) as [dres c1] eqn:Hdel.
    rewrite (delete_calendar_event_run _ _ _ _ Hdel). cbn [snd].
    unfold bind at 1. unfold update.
    destruct (update_result idx _); reflexivity.
  - unfold ret at 1. unfold bind at 1. unfold update.
    destruct (update_result idx _); reflexivity.
Qed.

(** A rerun of the view page with "Yes, Cancel" pressed under the
    confirmation prompt. *)
Lemma script_yes_cancel (ws : Widgets) (w : World) (idx : nat) (cust : Row) :
  mode (session_state w) = view ->
  show_cancel_confirm (session_state w) = true ->
  current_customer (session_state w) = Some (idx, cust) ->
  script btn_yes_cancel ws w = cancel_booking idx cust (prompted w).
Proof.
  intros Hmode Hshow Hcur.
  unfold script, bind at 1, get_state at 1. rewrite Hmode.
  unfold view_page, bind at 1, get_state at 1. rewrite Hcur.
  cbn [is_button when].
  unfold bind at 1, ret at 1, bind at 1, ret at 1, bind at 1, get_state at 1.
  rewrite Hshow. cbn [when].
  unfold bind at 1. unfold bind at 1. unfold st_warning at 1, show at 1.
  fold sure_warning. fold (prompted w).
  unfold bind at 1.
  destruct (cancel_booking idx cust (prompted w)) as [[[]|e|] w']; reflexivity.
Qed.

(** C5. A confirmed cancellation attempts the calendar delete exactly when
    the Event ID of the booking is not empty, shows a failed delete as an
    error, and in every case goes on to the range update that sets the 11
    columns of the booking's row to empty strings; the row is blanked in
    place, no row is removed; with an empty Event ID no calendar call is
    made. *)
Theorem C5_cancel_blanks_the_row_whatever_the_delete_did
    (ws : Widgets) (w : World) (idx : nat) (cust : Row) :
  mode (session_state w) = view ->
  show_cancel_confirm (session_state w) = true ->
  current_customer (session_state w) = Some (idx, cust) ->
  row_exists idx (sheet w) ->
  let r := fst (script btn_yes_cancel ws w) in
  let w' := snd (script btn_yes_cancel ws w) in
  let new := calls_since (List.length (calls w)) w' in
  let blanks := repeat ""%string 11 in
  exists f,
    (Event_ID cust <> ""%string ->
     exists dres,
       new = [CalDelete (Event_ID cust) dres; SheetUpdate idx blanks f] /\
       f = sheet_fault (calls w ++ [CalDelete (Event_ID cust) dres]) /\
       (forall e, dres = Some e -> delete_error e ∈ messages w')) /\
    (Event_ID cust = ""%string ->
     new = [SheetUpdate idx blanks f] /\ f = sheet_fault (calls w)) /\
    match f with
    | Some e => r = Raised e /\ sheet w' = sheet w
    | None =>
        r = Done tt /\
        overwritten_in_place idx blank_row (sheet w) (sheet w') /\
        values_of_row blank_row = blanks
    end.
Proof.
  intros Hmode Hshow Hcur Hrow. cbv zeta.
  rewrite (script_yes_cancel ws w idx cust Hmode Hshow Hcur), cancel_booking_run.
  destruct (write_row_in_place idx blank_row (sheet w) Hrow) as (Hlen & Hat & Hother).
  destruct (truthy (Event_ID cust)) eqn:Hid.
  - destruct (events_delete (calendar (prompted w)) (Event_ID cust)) as [dres c1] eqn:Hdel.
    rewrite (delete_calendar_event_run _ _ _ _ Hdel). cbn [snd calls prompted sheet].
    rewrite (update_result_row_exists idx (sheet w)) by exact Hrow.
    remember (sheet_fault _) as f eqn:Hf. exists f. split; [|split].
    + intros _. exists dres.
      destruct f as [e|]; cbn [fst snd];
        (erewrite calls_since_app by (cbn; rewrite <- !app_assoc; reflexivity));
        (split; [reflexivity|split; [exact Hf|]]);
        intros e' ->; cbn; rewrite ?elem_of_app, ?list_elem_of_singleton; auto.
    + intros Hempty. rewrite Hempty in Hid. discriminate.
    + destruct f as [e|]; cbn [fst snd sheet]; repeat split; auto.
  - cbn [calls prompted sheet].
    rewrite (update_result_row_exists idx (sheet w)) by exact Hrow.
    remember (sheet_fault _) as f eqn:Hf. exists f. split; [|split].
    + intros Hne. apply truthy_true in Hne. congruence.
    + intros _.
      destruct f as [e|]; cbn [fst snd];
        (erewrite calls_since_app by (cbn; reflexivity)); split; reflexivity.
    + destruct f as [e|]; cbn [fst snd sheet]; repeat split; auto.
Qed.

(** C8. Cancelling a booking whose row is already blank (so its Event ID is
    empty) raises no error, makes no calendar call, leaves that row all
    blank and leaves every other row, indeed the whole worksheet and the
    calendar, as they were. *)
Theorem C8_cancel_of_a_blank_row_changes_nothing
    (ws : Widgets) (w : World) (idx : nat) :
  mode (session_state w) = view ->
  show_cancel_confirm (session_state w) = true ->
  current_customer (session_state w) = Some (idx, blank_row) ->
  (2 <= idx)%nat ->
  sheet w !! (idx - 2)%nat = Some blank_row ->
  sheet_fault (calls w) = None ->
  let r := fst (script btn_yes_cancel ws w) in
  let w' := snd (script btn_yes_cancel ws w) in
  let new := calls_since (List.length (calls w)) w' in
  r = Done tt /\
  new = [SheetUpdate idx (repeat ""%string 11) None] /\
  Forall (fun c => is_calendar_call c = false) new /\
  calendar w' = calendar w /\
  sheet w' = sheet w /\
  sheet w' !! (idx - 2)%nat = Some blank_row /\
  messages w' = messages w ++ [sure_warning; Success "Cancelled."].
Proof.
  intros Hmode Hshow Hcur Hidx Hblank Hfault. cbv zeta.
  rewrite (script_yes_cancel ws w idx blank_row Hmode Hshow Hcur), cancel_booking_run.
  cbn [Event_ID blank_row row_of_values truthy nth repeat calls prompted].
  assert (Hrow : row_exists idx (sheet w)).
  { split; [exact Hidx|]. apply lookup_lt_Some in Hblank. exact Hblank. }
  rewrite (update_result_row_exists idx (sheet w)) by exact Hrow.
  rewrite Hfault. cbn [fst snd sheet calendar messages prompted].
  assert (Hsame : write_row idx blank_row (sheet w) = sheet w).
  { destruct idx as [|[|p]]; [lia | lia |]. cbn [write_row].
    replace (S (S p) - 2)%nat with p in * by lia.
    destruct Hrow as [_ Hlt]. destruct (Nat.ltb_spec p (List.length (sheet w))); [|lia].
    apply list_insert_id. exact Hblank. }
  erewrite calls_since_app by (cbn; reflexivity).
  fold blank_row. rewrite Hsame.
  repeat split; auto.
  rewrite <- app_assoc. reflexivity.
Qed.

End Lifecycle.

(** ** PO numbers *)

Lemma zfill_unsigned (width : nat) (d : Decimal.uint) :
  zfill width (NilZero.string_of_uint d) =
  (zeros (width - String.length (NilZero.string_of_uint d)) ++
   NilZero.string_of_uint d)%string.
Proof. destruct d; reflexivity. Qed.

Lemma uint_of_string_zeros (k : nat) (s : string) :
  NilEmpty.uint_of_string (zeros k ++ s)%string =
  Nat.iter k Decimal.D0 <$> NilEmpty.uint_of_string s.
Proof.
  induction k as [|k IH]; cbn [zeros Nat.iter].
  - rewrite append_nil. destruct (NilEmpty.uint_of_string s); reflexivity.
  - rewrite append_cons. cbn [NilEmpty.uint_of_string]. rewrite IH.
    destruct (NilEmpty.uint_of_string s); reflexivity.
Qed.

Lemma of_uint_leading_zeros (k : nat) (d : Decimal.uint) :
  Z.of_uint (Nat.iter k Decimal.D0 d) = Z.of_uint d.
Proof. induction k as [|k IH]; [reflexivity|]. cbn [Nat.iter]. exact IH. Qed.

Lemma uint_of_string_of_uint (d : Decimal.uint) :
  Z.of_uint <$> NilEmpty.uint_of_string (NilZero.string_of_uint d) = Some (Z.of_uint d).
Proof.
  destruct d; try reflexivity;
    unfold NilZero.string_of_uint; rewrite NilEmpty.usu; reflexivity.
Qed.

(** For a counter that is not negative, [str] gives its decimal digits. *)
Lemma str_of_Z_nonneg (n : Z) :
  0 <= n -> exists d, str_of_Z n = NilZero.string_of_uint d /\ Z.of_uint d = n.
Proof.
  intros Hn. destruct n as [|p|p]; [| |lia].
  - exists (Decimal.D0 Decimal.Nil). split; reflexivity.
  - exists (Pos.to_uint p). split; [reflexivity|].
    unfold Z.of_uint. rewrite DecimalPos.Unsigned.of_to. reflexivity.
Qed.

(** The PO number is "E" and the counter zero-padded to 6 digits. *)
Lemma po_number_padded (n : Z) :
  0 <= n ->
  po_number n =
  ("E" ++ zeros (6 - String.length (str_of_Z n)) ++ str_of_Z n)%string.
Proof.
  intros Hn. destruct (str_of_Z_nonneg n Hn) as (d & Hd & _).
  unfold po_number. rewrite Hd, zfill_unsigned. reflexivity.
Qed.

(** The counter is read back from the PO number. *)
Lemma po_sequence_po_number (n : Z) : 0 <= n -> po_sequence (po_number n) = Some n.
Proof.
  intros Hn. rewrite (po_number_padded n Hn).
  destruct (str_of_Z_nonneg n Hn) as (d & Hd & Hval). rewrite Hd.
  change (po_sequence ("E" ++ ?s)%string)
    with (Z.of_uint <$> NilEmpty.uint_of_string s).
  rewrite uint_of_string_zeros.
  pose proof (uint_of_string_of_uint d) as Hrt.
  destruct (NilEmpty.uint_of_string (NilZero.string_of_uint d)) as [d'|];
    [|discriminate].
  cbn in *. rewrite of_uint_leading_zeros. congruence.
Qed.

Lemma po_number_inj (n m : Z) : 0 <= n -> 0 <= m -> po_number n = po_number m -> n = m.
Proof.
  intros Hn Hm Heq.
  pose proof (po_sequence_po_number n Hn) as H1.
  pose proof (po_sequence_po_number m Hm) as H2.
  congruence.
Qed.

(** ** Booking lifecycle: a whole session *)

Section Session.
Context `{svc : Services}.

Lemma assigned_pos_app (cs cs' : list Call) :
  assigned_pos (cs ++ cs') = assigned_pos cs ++ assigned_pos cs'.
Proof.
  induction cs as [|c cs IH]; [reflexivity|].
  destruct c as [| | | |values [e|]|]; cbn; rewrite ?IH; reflexivity.
Qed.

Lemma assigned_pos_queries (n : nat) (tmin tmax : string) :
  assigned_pos (replicate n (CalList tmin tmax)) = [].
Proof. induction n; [reflexivity | exact IHn]. Qed.

Global Instance untouched_preorder : PreOrder untouched.
Proof.
  split.
  - intros w. repeat split.
  - intros w1 w2 w3 (Hs & Hc & Hh & Ha) (Hs' & Hc' & Hh' & Ha').
    repeat split; congruence.
Qed.

Global Instance same_pos_preorder : PreOrder same_pos.
Proof.
  split.
  - intros w. repeat split; reflexivity.
  - intros w1 w2 w3 (Hc & Ha & Hl) (Hc' & Ha' & Hl').
    repeat split; try congruence. lia.
Qed.

Global Instance keeps_customer_preorder : PreOrder keeps_customer.
Proof.
  split.
  - intros w. split; [reflexivity | left; reflexivity].
  - intros w1 w2 w3 (Hl & Hh) (Hl' & Hh'). split; [lia|].
    destruct Hh' as [Hh' | Hh']; [|right; exact Hh'].
    destruct Hh as [Hh | Hh]; [left | right]; congruence.
Qed.

Lemma untouched_same_pos (w w' : World) : untouched w w' -> same_pos w w'.
Proof. intros (Hs & Hc & _ & Ha). repeat split; try assumption. rewrite Hs. reflexivity. Qed.

Lemma untouched_keeps_customer (w w' : World) : untouched w w' -> keeps_customer w w'.
Proof. intros (Hs & _ & Hh & _). split; [rewrite Hs; reflexivity | left; exact Hh]. Qed.

(** *** How [preserves] follows the structure of the code *)

Section Structure.
Context (R : World -> World -> Prop) `{!PreOrder R}.

Lemma preserves_ret {A} (a : A) : preserves R (ret a).
Proof. intros w. reflexivity. Qed.

Lemma preserves_raise {A} (e : Exn) : preserves R (raise (A := A) e).
Proof. intros w. reflexivity. Qed.

Lemma preserves_st_stop {A} : preserves R (st_stop (A := A)).
Proof. intros w. reflexivity. Qed.

Lemma preserves_get_state : preserves R get_state.
Proof. intros w. reflexivity. Qed.

Lemma preserves_bind {A B} (m : M A) (k : A -> M B) :
  preserves R m -> (forall a, preserves R (k a)) -> preserves R (bind m k).
Proof.
  intros Hm Hk w. unfold bind. specialize (Hm w).
  destruct (m w) as [[a|e|] w1]; cbn [snd] in *; [|exact Hm|exact Hm].
  etransitivity; [exact Hm | apply Hk].
Qed.

Lemma preserves_try_except {A} (m : M A) (h : Exn -> M A) :
  preserves R m -> (forall e, preserves R (h e)) -> preserves R (try_except m h).
Proof.
  intros Hm Hh w. unfold try_except. specialize (Hm w).
  destruct (m w) as [[a|e|] w1]; cbn [snd] in *; [exact Hm| |exact Hm].
  etransitivity; [exact Hm | apply Hh].
Qed.

Lemma preserves_when (b : bool) (m : M unit) : preserves R m -> preserves R (when b m).
Proof. intros Hm. destruct b; [exact Hm | apply preserves_ret]. Qed.

Lemma preserves_lift {A} (r : Exn + A) : preserves R (lift r).
Proof. destruct r; [apply preserves_raise | apply preserves_ret]. Qed.

Lemma preserves_untouched {A} (m : M A) :
  (forall w w', untouched w w' -> R w w') -> preserves untouched m -> preserves R m.
Proof. intros Hsub Hm w. apply Hsub, Hm. Qed.

End Structure.

(** *** The calls that touch nothing *)

Lemma untouched_show (m : Msg) : preserves untouched (show m).
Proof. intros w. repeat split. Qed.

Lemma untouched_set_mode (m : Mode) : preserves untouched (set_mode m).
Proof. intros w. repeat split. Qed.

Lemma untouched_set_show_cancel_confirm (b : bool) :
  preserves untouched (set_show_cancel_confirm b).
Proof. intros w. repeat split. Qed.

Lemma untouched_generate_po_number : preserves untouched generate_po_number.
Proof. intros w. repeat split. Qed.

Lemma untouched_calendar_insert (body : EventBody) :
  preserves untouched (calendar_insert body).
Proof.
  intros w. unfold calendar_insert.
  destruct (events_insert (calendar w) body) as [[e|id] c];
    repeat split; cbn; rewrite assigned_pos_app; apply app_nil_r.
Qed.

Lemma untouched_calendar_delete (event_id : string) :
  preserves untouched (calendar_delete event_id).
Proof.
  intros w. unfold calendar_delete.
  destruct (events_delete (calendar w) event_id) as [[e|] c];
    repeat split; cbn; rewrite assigned_pos_app; apply app_nil_r.
Qed.

Lemma untouched_get_all_records : preserves untouched get_all_records.
Proof.
  intros w. unfold get_all_records.
  destruct (sheet_fault (calls w));
    repeat split; cbn; rewrite assigned_pos_app; apply app_nil_r.
Qed.

Lemma untouched_after_listing (date : date) (n : nat) (w : World) :
  untouched w (after_listing date n w).
Proof.
  repeat split; cbn. rewrite assigned_pos_app, assigned_pos_queries. apply app_nil_r.
Qed.

Lemma untouched_get_available_slots (date : date) :
  preserves untouched (get_available_slots date).
Proof.
  intros w. destruct (get_available_slots_world date w) as [n ->].
  apply untouched_after_listing.
Qed.

(** *** The calls that change the worksheet or the session *)

Lemma same_pos_update (idx : nat) (values : list string) :
  preserves same_pos (update idx values).
Proof.
  intros w. unfold update.
  destruct (update_result idx (sheet_fault (calls w)));
    repeat split; cbn; rewrite ?assigned_pos_app, ?app_nil_r; try reflexivity.
  apply write_row_length.
Qed.

Lemma same_pos_set_current_customer (c : option (nat * Row)) :
  preserves same_pos (set_current_customer c).
Proof. intros w. repeat split; reflexivity. Qed.

Lemma keeps_customer_update (idx : nat) (values : list string) :
  preserves keeps_customer (update idx values).
Proof.
  intros w. unfold update.
  destruct (update_result idx (sheet_fault (calls w))); split; cbn;
    try reflexivity; try (left; reflexivity).
  apply write_row_length.
Qed.

Lemma keeps_customer_append_row (values : list string) :
  preserves keeps_customer (append_row values).
Proof.
  intros w. unfold append_row.
  destruct (sheet_fault (calls w)); split; cbn;
    try reflexivity; try (left; reflexivity).
  rewrite length_app. lia.
Qed.

Lemma keeps_customer_set_po_counter (n : Z) :
  preserves keeps_customer (set_po_counter n).
Proof. intros w. split; [reflexivity | left; reflexivity]. Qed.

Lemma keeps_customer_set_current_customer_None :
  preserves keeps_customer (set_current_customer None).
Proof. intros w. split; [reflexivity | right; reflexivity]. Qed.

Create HintDb frames.
#[local] Hint Resolve untouched_show untouched_set_mode
  untouched_set_show_cancel_confirm untouched_generate_po_number
  untouched_calendar_insert untouched_calendar_delete untouched_get_all_records
  untouched_get_available_slots same_pos_update same_pos_set_current_customer
  keeps_customer_update keeps_customer_append_row keeps_customer_set_po_counter
  keeps_customer_set_current_customer_None : frames.
#[local] Hint Extern 5 (preserves same_pos _) =>
  apply (preserves_untouched same_pos _ untouched_same_pos) : frames.
#[local] Hint Extern 5 (preserves keeps_customer _) =>
  apply (preserves_untouched keeps_customer _ untouched_keeps_customer) : frames.

(** Follows binds, handlers and case distinctions down to the calls. *)
Ltac frame_step :=
  match goal with
  | |- preserves _ (bind _ _) => apply preserves_bind; [exact _ | | intros ?]
  | |- preserves _ (try_except _ _) => apply preserves_try_except; [exact _ | | intros ?]
  | |- preserves _ (when _ _) => apply preserves_when; [exact _ |]
  | |- preserves _ (ret _) => apply preserves_ret; exact _
  | |- preserves _ (raise _) => apply preserves_raise; exact _
  | |- preserves _ st_stop => apply preserves_st_stop; exact _
  | |- preserves _ (lift _) => apply preserves_lift; exact _
  | |- preserves _ get_state => apply preserves_get_state; exact _
  | |- preserves _ (match ?x with _ => _ end) => destruct x
  | |- preserves _ _ => solve [unfold st_warning, st_error, st_success; eauto with frames]
  end.

Ltac frame := repeat frame_step.

Lemma quiet_find_customer (name phone : string) :
  preserves same_pos (find_customer name phone).
Proof. unfold find_customer. frame. Qed.

Lemma quiet_search_page (clicked : Button) (ws : Widgets) :
  preserves same_pos (search_page clicked ws).
Proof. unfold search_page, find_customer. frame. Qed.

Lemma quiet_view_page (clicked : Button) : preserves same_pos (view_page clicked).
Proof.
  unfold view_page, cancel_booking, delete_calendar_event. frame.
Qed.

Lemma quiet_booking_page (clicked : Button) (ws : Widgets) :
  is_button btn_submit_booking clicked = false ->
  preserves same_pos (booking_page clicked ws).
Proof.
  intros Hbtn. unfold booking_page, booking_form. rewrite Hbtn. cbn [when]. frame.
Qed.

(** *** The booking held is a row of the worksheet *)

Lemma keeps_view_page (clicked : Button) : preserves keeps_customer (view_page clicked).
Proof. unfold view_page, cancel_booking, delete_calendar_event. frame. Qed.

Lemma keeps_booking_page (clicked : Button) (ws : Widgets) :
  preserves keeps_customer (booking_page clicked ws).
Proof.
  unfold booking_page, booking_form, submit_booking, update_calendar_event,
    create_calendar_event, append_booking_to_sheet, update_booking_in_sheet.
  frame.
Qed.

Lemma held_keeps_customer (w w' : World) :
  held_row_exists w -> keeps_customer w w' -> held_row_exists w'.
Proof.
  intros Hw [Hlen [Hsame | Hnone]] idx cust Hcur; [|congruence].
  rewrite Hsame in Hcur. destruct (Hw idx cust Hcur) as [Hge Hlt].
  split; [exact Hge | lia].
Qed.

Lemma held_untouched (w w' : World) :
  held_row_exists w -> untouched w w' -> held_row_exists w'.
Proof. intros Hw Hu. eapply held_keeps_customer, untouched_keeps_customer; eassumption. Qed.

Lemma held_bind {A B} (m : M A) (k : A -> M B) :
  (forall w, held_row_exists w -> held_row_exists (snd (m w))) ->
  (forall a w, held_row_exists w -> held_row_exists (snd (k a w))) ->
  forall w, held_row_exists w -> held_row_exists (snd (bind m k w)).
Proof.
  intros Hm Hk w Hw. unfold bind. specialize (Hm w Hw).
  destruct (m w) as [[a|e|] w1]; cbn [snd] in *; auto.
Qed.

(** The search form holds the row it has found, under its sheet position. *)
Lemma held_search_form (name phone : string) (w : World) :
  held_row_exists w ->
  held_row_exists
    (snd ((let! found := find_customer name phone in
           match found with
           | Some (idx, cust) =>
               run! set_current_customer (Some (idx, cust)) in
               set_mode view
           | None => st_warning "Not found. You can create a new booking."
           end) w)).
Proof.
  intros Hw. unfold find_customer, get_all_records.
  cbv [bind ret set_current_customer set_mode get_state put_state st_warning show].
  destruct (sheet_fault (calls w)); [exact Hw|].
  pose proof (find_loop_first_match name phone (sheet w) 2) as Hfound.
  destruct (find_loop name phone 2 (sheet w)) as [[idx cust]|]; [|exact Hw].
  destruct Hfound as (k & -> & Hk & _).
  intros idx' cust' Hcur. cbn in Hcur. injection Hcur as <- <-.
  apply lookup_lt_Some in Hk. split; cbn; lia.
Qed.

(** The listing holds the record of the button pressed, under its sheet
    position. *)
Lemma held_listing (clicked : Button) (w : World) :
  held_row_exists w ->
  held_row_exists
    (snd ((let! records := get_all_records in
           match records with
           | [] => raise (KeyError "Date")
           | _ :: _ =>
               match clicked with
               | btn_view_modify i =>
                   match records !! i with
                   | Some row =>
                       when (is_upcoming (Date row))
                         (run! set_current_customer (Some (i + 2, row)%nat) in
                          set_mode view)
                   | None => ret tt
                   end
               | _ => ret tt
               end
           end) w)).
Proof.
  intros Hw. unfold get_all_records.
  cbv [bind ret raise when set_current_customer set_mode get_state put_state].
  destruct (sheet_fault (calls w)); [exact Hw|].
  destruct (sheet w) as [|r rows] eqn:Hsheet; [exact Hw|].
  destruct clicked; try exact Hw.
  destruct ((r :: rows) !! i) as [row|] eqn:Hi; [|exact Hw].
  destruct (is_upcoming (Date row)); [|exact Hw].
  intros idx' cust' Hcur. cbn in Hcur. injection Hcur as <- <-.
  apply lookup_lt_Some in Hi. unfold row_exists. cbn. rewrite ?Hsheet. cbn in *. lia.
Qed.

Lemma held_search_page (clicked : Button) (ws : Widgets) (w : World) :
  held_row_exists w -> held_row_exists (snd (search_page clicked ws w)).
Proof.
  unfold search_page. revert w. apply held_bind.
  - intros w Hw. destruct (is_button btn_search clicked); [|exact Hw].
    apply held_search_form, Hw.
  - intros _. apply held_bind.
    + intros w Hw. eapply held_untouched; [exact Hw|].
      apply (preserves_when untouched), untouched_set_mode.
    + intros _ w Hw. apply held_listing, Hw.
Qed.

Lemma held_script (clicked : Button) (ws : Widgets) (w : World) :
  held_row_exists w -> held_row_exists (snd (script clicked ws w)).
Proof.
  intros Hw. unfold script, bind, get_state.
  destruct (mode (session_state w)).
  - apply held_search_page, Hw.
  - eapply held_keeps_customer; [exact Hw | apply keeps_view_page].
  - eapply held_keeps_customer; [exact Hw | apply keeps_booking_page].
  - eapply held_keeps_customer; [exact Hw | apply keeps_booking_page].
Qed.

(** Throughout a session, the booking under view, rebooking or cancellation
    is a row of the worksheet. *)
Lemma run_session_held (rows : Sheet) (c : Cal) (actions : list (Button * Widgets)) :
  held_row_exists (run_session (new_session rows c) actions).
Proof.
  assert (Hstart : held_row_exists (new_session rows c)) by (intros idx cust H; discriminate).
  revert Hstart. generalize (new_session rows c).
  induction actions as [|a actions IH]; intros w Hw; [exact Hw|].
  change (run_session w (a :: actions)) with (run_session (interact w a) actions).
  apply IH, held_script, Hw.
Qed.

(** One rerun either assigns no PO number, or creates one booking under the
    PO number of the counter and advances the counter. *)
Lemma script_step (clicked : Button) (ws : Widgets) (w : World) :
  same_pos w (snd (script clicked ws w)) \/ created w (snd (script clicked ws w)).
Proof.
  assert (Hquery : forall n date, same_pos w (after_listing date n w)).
  { intros n date. repeat split; cbn; try reflexivity.
    rewrite assigned_pos_app, assigned_pos_queries. apply app_nil_r. }
  assert (Hwarn : forall n date,
             same_pos w (snd (st_warning no_slots_warning (after_listing date n w)))).
  { intros n date. apply (Hquery n date). }
  destruct (mode (session_state w)) eqn:Hmode.
  - left. replace (script clicked ws w) with (search_page clicked ws w)
      by (unfold script, bind, get_state; rewrite Hmode; reflexivity).
    apply quiet_search_page.
  - left. replace (script clicked ws w) with (view_page clicked w)
      by (unfold script, bind, get_state; rewrite Hmode; reflexivity).
    apply quiet_view_page.
  - destruct (is_button btn_submit_booking clicked) eqn:Hbtn.
    + assert (clicked = btn_submit_booking) as ->
        by (destruct clicked; cbn in Hbtn; congruence).
      destruct (script_submit ws w (or_introl Hmode)) as [n Hrun]. cbv zeta in Hrun.
      destruct Hrun as [(r & w' & Hrun & _ & Hw') | [[_ [slots Hrun]] | [Hm _]]];
        [| |congruence]; rewrite Hrun; cbn [snd].
      * left. destruct Hw' as [-> | ->]; auto.
      * unfold submit_form.
        destruct (events_insert (calendar (after_listing (form_date ws) n w))
                    (form_event (po_number (po_counter (session_state w))) ws slots))
          as [ires c2] eqn:Hins.
        unfold form_event in Hins.
        rewrite (submit_booking_new _ _ _ _ _ _ _ _ _ _ _ _
                   (after_listing (form_date ws) n w) ires c2 Hmode Hins).
        destruct ires as [e|new_id]; [|destruct (sheet_fault _)]; cbn [snd];
          [left | left | right]; repeat split; cbn; try reflexivity;
          rewrite ?assigned_pos_app, ?assigned_pos_queries;
          cbn [assigned_pos nth booking_values]; rewrite ?app_nil_r;
          try reflexivity.
        rewrite length_app. lia.
    + left. replace (script clicked ws w) with (booking_page clicked ws w)
        by (unfold script, bind, get_state; rewrite Hmode; reflexivity).
      apply quiet_booking_page, Hbtn.
  - destruct (is_button btn_submit_booking clicked) eqn:Hbtn.
    + assert (clicked = btn_submit_booking) as ->
        by (destruct clicked; cbn in Hbtn; congruence).
      left.
      destruct (script_submit ws w (or_intror Hmode)) as [n Hrun]. cbv zeta in Hrun.
      destruct Hrun as [(r & w' & Hrun & _ & Hw') | [[Hm _] | [_ (slots & i & cust & _ & Hrun)]]];
        [|congruence|]; rewrite Hrun; cbn [snd].
      * destruct Hw' as [-> | ->]; auto.
      * unfold submit_form.
        destruct (events_delete (calendar (after_listing (form_date ws) n w)) (Event_ID cust))
          as [dres c1] eqn:Hdel.
        destruct (events_insert c1 (form_event (PO_No cust) ws slots)) as [ires c2] eqn:Hins.
        unfold form_event in Hins.
        rewrite (submit_booking_rebook _ _ _ _ _ _ _ _ _ _ _ _
                   (after_listing (form_date ws) n w) dres c1 ires c2 Hmode Hdel Hins).
        destruct ires as [e|new_id]; [|destruct (update_result _ _)]; cbn [snd];
          repeat split; cbn; try reflexivity;
          rewrite ?assigned_pos_app, ?assigned_pos_queries;
          cbn [assigned_pos]; rewrite ?app_nil_r; try reflexivity.
        apply write_row_length.
    + left. replace (script clicked ws w) with (booking_page clicked ws w)
        by (unfold script, bind, get_state; rewrite Hmode; reflexivity).
      apply quiet_booking_page, Hbtn.
Qed.

Lemma po_run_snoc (n0 : Z) (k : nat) :
  po_run n0 (S k) = po_run n0 k ++ [po_number (n0 + Z.of_nat k)].
Proof. unfold po_run. rewrite seq_S, fmap_app. reflexivity. Qed.

Lemma interact_counting (n0 : Z) (w : World) (a : Button * Widgets) :
  counting n0 w -> counting n0 (interact w a).
Proof.
  intros (k & Hc & Ha). unfold interact.
  destruct (script_step (fst a) (snd a) w) as [(Hc' & Ha' & _) | (Hc' & Ha' & _)].
  - exists k. split; congruence.
  - exists (S k). split; [lia|]. rewrite po_run_snoc, Ha', Ha, Hc. reflexivity.
Qed.

Lemma run_session_counting (n0 : Z) (actions : list (Button * Widgets)) (w : World) :
  counting n0 w -> counting n0 (run_session w actions).
Proof.
  revert w. induction actions as [|a actions IH]; intros w Hw; [exact Hw|].
  change (run_session w (a :: actions)) with (run_session (interact w a) actions).
  apply IH, interact_counting, Hw.
Qed.

Lemma new_session_counting (rows : Sheet) (c : Cal) :
  counting (Z.of_nat (List.length rows) + 1) (new_session rows c).
Proof. exists 0%nat. split; [cbn; lia | reflexivity]. Qed.

(** Along a session the list of assigned PO numbers only grows at its end,
    and the worksheet loses no row. *)
Lemma run_session_grows (actions : list (Button * Widgets)) (w : World) :
  assigned_pos (calls w) `prefix_of` assigned_pos (calls (run_session w actions)) /\
  (List.length (sheet w) <= List.length (sheet (run_session w actions)))%nat.
Proof.
  revert w. induction actions as [|a actions IH]; intros w; [split; reflexivity|].
  change (run_session w (a :: actions)) with (run_session (interact w a) actions).
  destruct (IH (interact w a)) as [Hp Hl].
  destruct (script_step (fst a) (snd a) w) as [(_ & Ha & Hl') | (_ & Ha & Hl')];
    fold (interact w a) in Ha, Hl'.
  - rewrite Ha in Hp. split; [exact Hp | lia].
  - rewrite Ha in Hp. split; [|lia].
    etransitivity; [apply prefix_app_r; reflexivity | exact Hp].
Qed.

Lemma po_run_NoDup (n0 : Z) (k : nat) : 0 <= n0 -> NoDup (po_run n0 k).
Proof.
  intros Hn0. unfold po_run. apply NoDup_fmap_2_strong; [|apply NoDup_seq].
  intros i j _ _ Heq. apply po_number_inj in Heq; lia.
Qed.

Lemma po_run_lookup (n0 : Z) (k i : nat) (po : string) :
  po_run n0 k !! i = Some po -> po = po_number (n0 + Z.of_nat i).
Proof.
  unfold po_run. rewrite list_lookup_fmap. intros H.
  destruct (seq 0 k !! i) as [x|] eqn:Hx; [|discriminate].
  apply lookup_seq in Hx as [-> _]. cbn in H. congruence.
Qed.

(** C7. Starting from a counter seeded with record count + 1, whatever
    the user does (create, rebook, cancel, search, in any order and with any
    failures of the stores), the PO numbers assigned to new bookings are
    pairwise different: each differs from every one assigned before it; the
    list of assigned PO numbers is never shortened by later actions, and no
    row of the worksheet is removed (cancelled rows are blanked). *)
Theorem C7_po_numbers_are_never_reused
    (rows : Sheet) (c : Cal) (actions more : list (Button * Widgets)) :
  NoDup (assigned_pos (calls (run_session (new_session rows c) (actions ++ more)))) /\
  assigned_pos (calls (run_session (new_session rows c) actions))
    `prefix_of`
    assigned_pos (calls (run_session (new_session rows c) (actions ++ more))) /\
  (List.length rows
     <= List.length (sheet (run_session (new_session rows c) (actions ++ more))))%nat /\
  (Forall (below_seed rows) rows ->
   forall po,
     po ∈ assigned_pos (calls (run_session (new_session rows c) (actions ++ more))) ->
     Forall (fun r => PO_No r <> po) rows).
Proof.
  split; [|split; [|split]].
  - destruct (run_session_counting _ (actions ++ more) _ (new_session_counting rows c))
      as (k & _ & ->).
    apply po_run_NoDup. lia.
  - unfold run_session at 2. rewrite fold_left_app. apply run_session_grows.
  - apply (run_session_grows (actions ++ more) (new_session rows c)).
  - intros Hrows po Hpo.
    destruct (run_session_counting _ (actions ++ more) _ (new_session_counting rows c))
      as (k & _ & Ha).
    rewrite Ha in Hpo. apply list_elem_of_lookup in Hpo as [i Hi].
    apply po_run_lookup in Hi. subst po.
    eapply Forall_impl; [exact Hrows|]. intros r [Hblank | (k' & Hk' & Hr)] Heq.
    + rewrite Hblank in Heq. unfold po_number in Heq.
      rewrite append_cons in Heq. discriminate.
    + rewrite Hr in Heq. apply po_number_inj in Heq; lia.
Qed.

(** C9. [generate_po_number] returns "E" followed by the counter
    zero-padded to 6 digits: "E000001" for 1 and "E123456" for 123456; and
    the PO numbers assigned in one session have strictly increasing sequence
    numbers. *)
Theorem C9_po_number_format_and_order
    (rows : Sheet) (c : Cal) (actions : list (Button * Widgets)) (w : World)
    (n : Z) (i j : nat) (po_i po_j : string) :
  0 <= n ->
  po_counter (session_state w) = n ->
  (i < j)%nat ->
  assigned_pos (calls (run_session (new_session rows c) actions)) !! i = Some po_i ->
  assigned_pos (calls (run_session (new_session rows c) actions)) !! j = Some po_j ->
  po_number 1 = "E000001"%string /\
  po_number 123456 = "E123456"%string /\
  fst (generate_po_number w) =
    Done ("E" ++ zeros (6 - String.length (str_of_Z n)) ++ str_of_Z n)%string /\
  po_sequence (po_number n) = Some n /\
  exists a b, po_sequence po_i = Some a /\ po_sequence po_j = Some b /\ a < b.
Proof.
  intros Hn Hw Hij Hi Hj.
  split; [reflexivity|]. split; [reflexivity|]. split; [|split].
  - unfold generate_po_number, bind, get_state, ret. cbn [fst].
    rewrite Hw, (po_number_padded n Hn). reflexivity.
  - apply po_sequence_po_number, Hn.
  - destruct (run_session_counting _ actions _ (new_session_counting rows c))
      as (k & _ & Ha).
    rewrite Ha in Hi, Hj.
    apply po_run_lookup in Hi, Hj. subst po_i po_j.
    eexists _, _. split; [apply po_sequence_po_number; lia|].
    split; [apply po_sequence_po_number; lia|]. lia.
Qed.

End Session.

(* ===================================================================== *)
(** * The properties at work on the in-memory stores *)
(* ===================================================================== *)

Import InMemory.

(** One event 10:00 to 14:00 on 2024-06-10: only 14:00 is free. *)
Lemma C1_one_event_leaves_1400 :
  events_list (Services := services) (calendar w_one_event)
              (time_min june10) (time_max june10) = inr [ev_10_14] /\
  Forall2 (timed_event (svc := services)) [ev_10_14]
          [(window_start june10 10, window_start june10 14)] /\
  fst (get_available_slots june10 w_one_event) = Done [mk_time 14 0 0].
Proof.
  assert (H1 : events_list (Services := services) (calendar w_one_event)
                 (time_min june10) (time_max june10) = inr [ev_10_14])
    by reflexivity.
  assert (H2 : Forall2 (timed_event (svc := services)) [ev_10_14]
                 [(window_start june10 10, window_start june10 14)]).
  { constructor; [|constructor].
    exists "2024-06-10T10:00:00+10:00"%string, "2024-06-10T14:00:00+10:00"%string,
           (localize june10 (mk_time 10 0 0)), (localize june10 (mk_time 14 0 0)).
    repeat split; try discriminate; reflexivity. }
  split; [exact H1|]. split; [exact H2|].
  exact (proj2 (C1_available_slots_are_the_free_windows
                  w_one_event june10 _ _ H1 H2) eq_refl).
Defined.

(** An empty calendar: all eight slots. *)
Lemma C2_empty_calendar_all_slots :
  events_list (Services := services) (calendar w_no_event)
              (time_min june10) (time_max june10) = inr [] /\
  fst (get_available_slots june10 w_no_event) = Done all_slots.
Proof.
  split; [reflexivity|].
  apply (C2_no_events_all_eight_slots w_no_event june10). reflexivity.
Defined.

(** An all-day event changes no answer and leaves all eight slots. *)
Lemma C10_all_day_event_ignored :
  lacks_dateTime ev_all_day /\
  fst (is_time_available june10 (mk_time 9 0 0) w_all_day) =
    fst (is_time_available june10 (mk_time 9 0 0) w_no_event) /\
  fst (get_available_slots june10 w_all_day) = Done all_slots.
Proof.
  assert (Hev : lacks_dateTime ev_all_day) by (left; reflexivity).
  destruct (C10_events_without_dateTime_are_ignored
              w_all_day w_no_event june10 (mk_time 9 0 0) [] ev_all_day []
              eq_refl eq_refl Hev) as [Hsame Hall].
  split; [exact Hev|]. split; [exact Hsame|]. apply Hall. constructor.
Defined.

(** Rebooking Ann while the calendar rejects deletes: the form is rendered
    with the slot 14:00, the delete fails and is shown as a warning, the
    replacement is inserted and sheet row 2 is overwritten under E000001. *)
Lemma C4_rebook_ann :
  mode (session_state w_rebook_ann) = rebook /\
  current_customer (session_state w_rebook_ann) = Some (2%nat, ann) /\
  row_exists 2 (sheet w_rebook_ann) /\
  submit_reached ann cy_form w_rebook_ann [mk_time 14 0 0] /\
  fst (script btn_submit_booking cy_form w_rebook_ann) = Done tt /\
  calls_since (List.length (calls w_rebook_ann))
              (snd (script btn_submit_booking cy_form w_rebook_ann)) =
    queries cy_form 8 ++
    [CalDelete "evt1" (Some (HttpError "503 Service Unavailable"));
     CalInsert (form_event "E000001" cy_form [mk_time 14 0 0]) (inr "evt3"%string);
     SheetUpdate 2 (form_values "E000001" cy_form [mk_time 14 0 0] "evt3") None] /\
  delete_warning (HttpError "503 Service Unavailable")
    ∈ messages (snd (script btn_submit_booking cy_form w_rebook_ann)) /\
  overwritten_in_place 2
    (row_of_values (form_values "E000001" cy_form [mk_time 14 0 0] "evt3"))
    (sheet w_rebook_ann)
    (sheet (snd (script btn_submit_booking cy_form w_rebook_ann))).
Proof.
  assert (Hrow : row_exists 2 (sheet w_rebook_ann)) by (split; cbn; lia).
  assert (Hreach : submit_reached ann cy_form w_rebook_ann [mk_time 14 0 0]).
  { split; [exists june10; reflexivity|]. split; [reflexivity|].
    split; [discriminate|]. eexists. reflexivity. }
  split; [reflexivity|]. split; [reflexivity|]. split; [exact Hrow|].
  split; [exact Hreach|].
  destruct (C4_rebook_keeps_po_and_row
              cy_form w_rebook_ann 2 ann eq_refl eq_refl Hrow) as [Hrun _].
  destruct (Hrun _ Hreach) as (_ & Hwarn & Hrest).
  specialize (Hwarn (HttpError "503 Service Unavailable") eq_refl).
  change (fst (events_insert
                 (snd (events_delete (calendar w_rebook_ann) (Event_ID ann)))
                 (form_event (PO_No ann) cy_form [mk_time 14 0 0])))
    with (@inr Exn string "evt3"%string) in Hrest.
  cbv beta iota zeta in Hrest.
  destruct Hrest as (Hnew & _ & _ & Hdone).
  change (sheet_fault _) with (@None Exn) in Hdone.
  cbv beta iota in Hdone. destruct Hdone as (Hr & Hrow' & _).
  split; [exact Hr|]. split; [exact Hnew|]. split; [exact Hwarn | exact Hrow'].
Defined.

(** What that rebook leaves behind: the delete was attempted first and
    failed, the replacement was inserted under a new event id, and sheet
    row 2 was overwritten with Ann's PO number. *)
Example rebook_ann_run :
  fst (script btn_submit_booking cy_form w_rebook_ann) = Done tt /\
  calls_since 8 (snd (script btn_submit_booking cy_form w_rebook_ann)) =
    [CalDelete "evt1" (Some (HttpError "503 Service Unavailable"));
     CalInsert (form_event "E000001" cy_form [mk_time 14 0 0]) (inr "evt3"%string);
     SheetUpdate 2 (form_values "E000001" cy_form [mk_time 14 0 0] "evt3") None] /\
  messages (snd (script btn_submit_booking cy_form w_rebook_ann)) =
    [Warning "Could not delete old event: 503 Service Unavailable";
     Success "Booking updated."] /\
  sheet (snd (script btn_submit_booking cy_form w_rebook_ann)) =
    [mk_row "E000001" "Cy" "041" "5 E St" "6 F St" "2024-06-10" "14:00:00"
            "18:00:00" "Big Truck + 2 Men" "stairs" "evt3"; bob].
Proof. vm_compute. repeat split. Qed.

(** Cancelling Ann while the calendar rejects deletes. *)
Lemma C5_cancel_ann :
  mode (session_state w_cancel_ann) = view /\
  show_cancel_confirm (session_state w_cancel_ann) = true /\
  current_customer (session_state w_cancel_ann) = Some (2%nat, ann) /\
  row_exists 2 (sheet w_cancel_ann) /\
  exists f,
    (Event_ID ann <> ""%string ->
     exists dres,
       calls_since (List.length (calls w_cancel_ann))
                   (snd (script btn_yes_cancel cy_form w_cancel_ann))
         = [CalDelete (Event_ID ann) dres; SheetUpdate 2 (repeat ""%string 11) f] /\
       f = sheet_fault (Services := services)
             (calls w_cancel_ann ++ [CalDelete (Event_ID ann) dres]) /\
       (forall e, dres = Some e ->
                  delete_error e ∈ messages (snd (script btn_yes_cancel cy_form w_cancel_ann)))) /\
    (Event_ID ann = ""%string ->
     calls_since (List.length (calls w_cancel_ann))
                 (snd (script btn_yes_cancel cy_form w_cancel_ann))
       = [SheetUpdate 2 (repeat ""%string 11) f] /\
     f = sheet_fault (Services := services) (calls w_cancel_ann)) /\
    match f with
    | Some e =>
        fst (script btn_yes_cancel cy_form w_cancel_ann) = Raised e /\
        sheet (snd (script btn_yes_cancel cy_form w_cancel_ann)) = sheet w_cancel_ann
    | None =>
        fst (script btn_yes_cancel cy_form w_cancel_ann) = Done tt /\
        overwritten_in_place 2 blank_row (sheet w_cancel_ann)
          (sheet (snd (script btn_yes_cancel cy_form w_cancel_ann))) /\
        values_of_row blank_row = repeat ""%string 11
    end.
Proof.
  assert (Hrow : row_exists 2 (sheet w_cancel_ann)) by (split; cbn; lia).
  split; [reflexivity|]. split; [reflexivity|]. split; [reflexivity|].
  split; [exact Hrow|].
  exact (C5_cancel_blanks_the_row_whatever_the_delete_did
           cy_form w_cancel_ann 2 ann eq_refl eq_refl eq_refl Hrow).
Defined.

Example cancel_ann_run :
  fst (script btn_yes_cancel cy_form w_cancel_ann) = Done tt /\
  calls (snd (script btn_yes_cancel cy_form w_cancel_ann)) =
    [CalDelete "evt1" (Some (HttpError "503 Service Unavailable"));
     SheetUpdate 2 (repeat ""%string 11) None] /\
  messages (snd (script btn_yes_cancel cy_form w_cancel_ann)) =
    [Warning "Are you sure?"; Error "Delete failed: 503 Service Unavailable";
     Success "Cancelled."] /\
  sheet (snd (script btn_yes_cancel cy_form w_cancel_ann)) = [blank_row; bob].
Proof. vm_compute. repeat split. Qed.

(** A new booking while the calendar rejects inserts. *)
Lemma C6_insert_rejected :
  (mode (session_state w_insert_down) = new_booking \/
   mode (session_state w_insert_down) = rebook) /\
  CalInsert cy_event (inl (HttpError "503 Service Unavailable"))
    ∈ calls_since (List.length (calls w_insert_down))
                  (snd (script btn_submit_booking cy_form w_insert_down)) /\
  fst (script btn_submit_booking cy_form w_insert_down)
    = Raised (HttpError "503 Service Unavailable") /\
  sheet (snd (script btn_submit_booking cy_form w_insert_down)) = sheet w_insert_down /\
  po_counter (session_state (snd (script btn_submit_booking cy_form w_insert_down)))
    = po_counter (session_state w_insert_down) /\
  Forall (fun c => is_sheet_write c = false)
         (calls_since (List.length (calls w_insert_down))
                      (snd (script btn_submit_booking cy_form w_insert_down))).
Proof.
  assert (Hmode : mode (session_state w_insert_down) = new_booking \/
                  mode (session_state w_insert_down) = rebook) by (left; reflexivity).
  assert (Hin : CalInsert cy_event (inl (HttpError "503 Service Unavailable"))
                  ∈ calls_since (List.length (calls w_insert_down))
                      (snd (script btn_submit_booking cy_form w_insert_down))).
  { apply list_elem_of_In. vm_compute. do 8 right. left. reflexivity. }
  split; [exact Hmode|]. split; [exact Hin|].
  exact (C6_failed_insert_leaves_the_sheet_alone cy_form w_insert_down _ _ Hmode Hin).
Defined.

(** Cancelling the blank sheet row 3. *)
Lemma C8_cancel_blank_row :
  (2 <= 3)%nat /\
  sheet w_cancel_blank !! (3 - 2)%nat = Some blank_row /\
  sheet_fault (Services := services) (calls w_cancel_blank) = None /\
  fst (script btn_yes_cancel cy_form w_cancel_blank) = Done tt /\
  calls_since (List.length (calls w_cancel_blank))
              (snd (script btn_yes_cancel cy_form w_cancel_blank))
    = [SheetUpdate 3 (repeat ""%string 11) None] /\
  Forall (fun c => is_calendar_call c = false)
         (calls_since (List.length (calls w_cancel_blank))
                      (snd (script btn_yes_cancel cy_form w_cancel_blank))) /\
  calendar (snd (script btn_yes_cancel cy_form w_cancel_blank)) = calendar w_cancel_blank /\
  sheet (snd (script btn_yes_cancel cy_form w_cancel_blank)) = sheet w_cancel_blank /\
  sheet (snd (script btn_yes_cancel cy_form w_cancel_blank)) !! (3 - 2)%nat = Some blank_row /\
  messages (snd (script btn_yes_cancel cy_form w_cancel_blank))
    = messages w_cancel_blank ++ [sure_warning; Success "Cancelled."].
Proof.
  assert (Hidx : (2 <= 3)%nat) by lia.
  split; [exact Hidx|]. split; [reflexivity|]. split; [reflexivity|].
  exact (C8_cancel_of_a_blank_row_changes_nothing
           cy_form w_cancel_blank 3 eq_refl eq_refl eq_refl Hidx eq_refl eq_refl).
Defined.

(** Two bookings in a session that starts with two records: E000003, then
    E000004. *)
Lemma C9_two_bookings_in_order :
  assigned_pos (calls (run_session start two_bookings)) !! 0%nat = Some "E000003"%string /\
  assigned_pos (calls (run_session start two_bookings)) !! 1%nat = Some "E000004"%string /\
  po_number 1 = "E000001"%string /\
  po_number 123456 = "E123456"%string /\
  fst (generate_po_number w_no_event) = Done "E000003"%string /\
  po_sequence (po_number 3) = Some 3 /\
  exists a b, po_sequence "E000003" = Some a /\ po_sequence "E000004" = Some b /\ a < b.
Proof.
  assert (H0 : assigned_pos (calls (run_session start two_bookings)) !! 0%nat
               = Some "E000003"%string) by (vm_compute; reflexivity).
  assert (H1 : assigned_pos (calls (run_session start two_bookings)) !! 1%nat
               = Some "E000004"%string) by (vm_compute; reflexivity).
  split; [exact H0|]. split; [exact H1|].
  assert (Hn : 0 <= 3) by lia.
  assert (Hij : (0 < 1)%nat) by lia.
  exact (C9_po_number_format_and_order (svc := services)
           [ann; bob] (mk_cal [] 3 false false) two_bookings w_no_event 3 0 1
           "E000003" "E000004" Hn eq_refl Hij H0 H1).
Defined.

(** The rows the session starts from carry E000001 and E000002: the PO
    numbers assigned in the session differ from both. *)
Lemma C7_two_bookings_fresh :
  Forall (below_seed [ann; bob]) [ann; bob] /\
  NoDup (assigned_pos (calls (run_session start two_bookings))) /\
  Forall (fun r => PO_No r <> "E000004"%string) [ann; bob].
Proof.
  assert (Hrows : Forall (below_seed [ann; bob]) [ann; bob]).
  { apply Forall_cons. split; [right; exists 1; split; [cbn; lia | reflexivity]|].
    apply Forall_cons. split; [right; exists 2; split; [cbn; lia | reflexivity]|].
    constructor. }
  destruct (C7_po_numbers_are_never_reused (svc := services)
              [ann; bob] (mk_cal [] 3 false false) two_bookings [])
    as (Hnodup & _ & _ & Hfresh).
  rewrite app_nil_r in Hnodup, Hfresh.
  split; [exact Hrows|]. split; [exact Hnodup|].
  apply (Hfresh Hrows). apply list_elem_of_In. vm_compute. right. left. reflexivity.
Defined.

(** ** Further runs *)

(** An event 09:00 to 13:00 leaves 13:00 and 14:00. *)
Example slots_around_0900_1300 :
  fst (get_available_slots june10
         (world [] [timed "evt7" "2024-06-10T09:00:00+10:00" "2024-06-10T13:00:00+10:00"]
                false false booking_session))
  = Done [mk_time 13 0 0; mk_time 14 0 0].
Proof. vm_compute. reflexivity. Qed.

(** An event given at another UTC offset is compared by its instant:
    00:00 to 04:00 UTC is 10:00 to 14:00 in Brisbane. *)
Example slots_with_utc_event :
  fst (get_available_slots june10
         (world [] [timed "evt8" "2024-06-10T00:00:00+00:00" "2024-06-10T04:00:00+00:00"]
                false false booking_session))
  = Done [mk_time 14 0 0].
Proof. vm_compute. reflexivity. Qed.

(** Search by name ignores case; search by phone compares the last 9
    characters; the first match in store order wins. *)
Example find_by_name :
  fst (find_customer "LEE" "" (world [bob; ann] [] false false booking_session))
  = Done (Some (3%nat, ann)).
Proof. vm_compute. reflexivity. Qed.

Example find_by_phone :
  fst (find_customer "" "+61412345678" (world [bob; ann] [] false false booking_session))
  = Done (Some (3%nat, ann)).
Proof. vm_compute. reflexivity. Qed.

Example find_first_match :
  fst (find_customer "b" "0412345678" (world [ann; bob] [] false false booking_session))
  = Done (Some (2%nat, ann)).
Proof. vm_compute. reflexivity. Qed.

Example find_nothing :
  fst (find_customer "" "" (world [ann; bob] [] false false booking_session))
  = Done None.
Proof. vm_compute. reflexivity. Qed.

(** Beyond 999999 the counter needs no padding and takes seven digits. *)
Example po_number_widths :
  po_number 999999 = "E999999"%string /\ po_number 1000000 = "E1000000"%string.
Proof. split; reflexivity. Qed.

(** A booking, its cancellation and another booking: the cancelled PO
    number is not handed out again. *)
Example cancel_then_book :
  let w := run_session start
             [(btn_new_booking, cy_form); (btn_submit_booking, cy_form);
              (btn_search, mk_widgets "cy" "" "" "" "" "" june10 0 BigTruck2Men "");
              (btn_cancel_booking, cy_form); (btn_yes_cancel, cy_form);
              (btn_new_booking, cy_form);
              (btn_submit_booking, form "Di" "042" june10 0)] in
  assigned_pos (calls w) = ["E000003"; "E000004"]%string /\
  po_counter (session_state w) = 5.
Proof. vm_compute. repeat split. Qed.

(* ===================================================================== *)
(** * Further properties of the availability engine *)
(* ===================================================================== *)

Section AvailabilityMore.
Context `{svc : Services}.

Lemma truthy_opt_untimed (ev : Event) :
  untimed_event ev ->
  (truthy_opt (get_dateTime (ev_start ev)) &&
   truthy_opt (get_dateTime (ev_end ev)))%bool = false.
Proof.
  intros [[-> | ->] | [-> | ->]]; cbn [truthy_opt truthy];
    try reflexivity; apply andb_false_r.
Qed.

(** One turn of the event loop on a timed event. *)
Lemma events_loop_cons_timed (start_dt end_dt : datetime) (ev : Event)
    (window : Z * Z) (rest : list Event) (w : World) :
  timed_event ev window ->
  events_loop start_dt end_dt (ev :: rest) w =
  if decide (overlaps (instant start_dt) (instant end_dt) window)
  then (Done false, w)
  else events_loop start_dt end_dt rest w.
Proof.
  intros (s & e & ds & de & Hs & Hs' & Hds & He & He' & Hde & ->).
  cbn [events_loop]. rewrite Hs, He. cbn [truthy_opt].
  rewrite (truthy_nonempty s Hs'), (truthy_nonempty e He'). cbn [andb].
  unfold parse_event_time. rewrite Hds, Hde. cbv [bind ret raise lift].
  unfold dt_le, dt_ge. rewrite !instant_astimezone.
  destruct (decide (overlaps _ _ _)) as [Hov | Hov]; unfold overlaps in Hov;
    cbn [fst snd] in Hov.
  - replace ((instant end_dt <=? instant ds) || (instant start_dt >=? instant de))%bool
      with false; [reflexivity|].
    symmetry. apply orb_false_iff. rewrite Z.leb_gt, Z.geb_leb, Z.leb_gt. lia.
  - replace ((instant end_dt <=? instant ds) || (instant start_dt >=? instant de))%bool
      with true; [reflexivity|].
    symmetry. apply orb_true_iff. rewrite Z.leb_le, Z.geb_le.
    lia.
Qed.

(** The event loop on events of both kinds: the untimed ones are passed
    over, the timed ones decide. *)
Lemma events_loop_described (start_dt end_dt : datetime) (events : list Event)
    (ows : list (option (Z * Z))) (w : World) :
  Forall2 described events ows ->
  events_loop start_dt end_dt events w =
  (Done (bool_decide
           (Forall (fun ev => ~ overlaps (instant start_dt) (instant end_dt) ev)
                   (windows_of ows))), w).
Proof.
  induction 1 as [|ev ow events ows Hev _ IH]; [reflexivity|].
  destruct ow as [window|]; cbn [described] in Hev.
  - rewrite (events_loop_cons_timed _ _ ev window events w Hev).
    change (windows_of (Some window :: ows)) with (window :: windows_of ows).
    destruct (decide (overlaps _ _ _)) as [Hov | Hov].
    + do 2 f_equal. symmetry. apply bool_decide_eq_false.
      rewrite Forall_cons. tauto.
    + rewrite IH. do 2 f_equal. apply bool_decide_ext.
      rewrite Forall_cons. tauto.
  - cbn [events_loop]. rewrite (truthy_opt_untimed ev Hev). exact IH.
Qed.

Lemma slots_described (date : date) (events : list Event)
    (ows : list (option (Z * Z))) (w : World) :
  events_list (calendar w) (time_min date) (time_max date) = inr events ->
  Forall2 described events ows ->
  fst (get_available_slots date w) =
  Done (map (fun h => mk_time h 0 0) (available_hours date (windows_of ows))).
Proof.
  intros Hlist Hdesc. unfold get_available_slots. rewrite seqZ_7_8.
  rewrite (slots_loop_listed (hour_available date (windows_of ows))
             date events _ [] w Hlist).
  - reflexivity.
  - intros h w'. rewrite (events_loop_described _ _ events ows w' Hdesc).
    rewrite window_end_add_hours. reflexivity.
Qed.

(** X1. Whatever the calendar holds, events that carry date-time text
    decide availability by the half-open overlap test and events whose
    start or end text is missing or empty are passed over: the result is the
    hours 7..14 free of every timed event. *)
Theorem X1_slots_with_events_of_both_kinds
    (w : World) (date : date) (events : list Event) (ows : list (option (Z * Z))) :
  events_list (calendar w) (time_min date) (time_max date) = inr events ->
  Forall2 described events ows ->
  fst (get_available_slots date w) =
  Done (map (fun h => mk_time h 0 0) (available_hours date (windows_of ows))).
Proof. apply slots_described. Qed.

(** What the slot loop returns extends the slots it started from by a
    sublist of the hours it tries. *)
Lemma slots_loop_sublist (date : date) (hours : list Z) (slots : list time)
    (w : World) (result : list time) :
  fst (slots_loop date hours slots w) = Done result ->
  exists more, result = slots ++ more /\
               more `sublist_of` map (fun h => mk_time h 0 0) hours.
Proof.
  revert slots w. induction hours as [|h hours IH]; intros slots w; cbn [slots_loop].
  - intros [= <-]. exists []. split; [symmetry; apply app_nil_r | constructor].
  - unfold bind.
    destruct (is_time_available date (mk_time h 0 0) w) as [[ok|e|] w1];
      [|discriminate|discriminate].
    intros Hres. apply IH in Hres as (more & -> & Hsub).
    destruct ok.
    + exists (mk_time h 0 0 :: more). rewrite <- app_assoc.
      split; [reflexivity|]. cbn [map]. apply sublist_skip, Hsub.
    + exists more. split; [reflexivity|]. cbn [map]. apply sublist_cons, Hsub.
Qed.

Lemma get_available_slots_sublist (date : date) (w : World) (slots : list time) :
  fst (get_available_slots date w) = Done slots -> slots `sublist_of` all_slots.
Proof.
  intros Hres. apply slots_loop_sublist in Hres as (more & -> & Hsub). exact Hsub.
Qed.

(** X2. Whatever the events are, a list of slots returned by
    [get_available_slots] is a sublist of 07:00, 08:00, ..., 14:00: at most
    eight start times, on the hour, in ascending order and without
    repetition. *)
Theorem X2_slots_are_a_sublist_of_the_eight
    (w : World) (date : date) (slots : list time) :
  fst (get_available_slots date w) = Done slots ->
  slots `sublist_of` all_slots /\
  (List.length slots <= 8)%nat /\
  NoDup slots /\
  forall t, t ∈ slots -> exists h, 7 <= h <= 14 /\ t = mk_time h 0 0.
Proof.
  intros Hres. apply get_available_slots_sublist in Hres.
  split; [exact Hres|]. split; [|split].
  - apply sublist_length in Hres. exact Hres.
  - eapply sublist_NoDup; [|exact Hres].
    unfold all_slots. cbn [map].
    repeat (apply NoDup_cons; split;
            [rewrite ?elem_of_cons, elem_of_nil; intros H;
             repeat (destruct H as [H | H]; [discriminate|]); exact H|]).
    apply NoDup_nil_2.
  - intros t Ht. apply sublist_submseteq in Hres.
    apply (elem_of_submseteq _ _ _ Ht) in Hres.
    unfold all_slots in Hres. cbn [map] in Hres.
    rewrite !elem_of_cons, elem_of_nil in Hres.
    repeat (destruct Hres as [-> | Hres]; [eexists; split; [|reflexivity]; lia|]).
    destruct Hres.
Qed.

(** X3. When the calendar query fails, [get_available_slots] raises that
    failure after this one query: it does not retry and does not go on to
    the other candidate hours. *)
Theorem X3_listing_failure_is_raised_at_once
    (w : World) (date : date) (e : Exn) :
  events_list (calendar w) (time_min date) (time_max date) = inl e ->
  get_available_slots date w = (Raised e, after_listing date 1 w).
Proof.
  intros Hlist. unfold get_available_slots. rewrite seqZ_7_8. cbn [slots_loop].
  unfold bind at 1. unfold is_time_available, get_calendar_events, calendar_list, bind.
  fold (time_min date) (time_max date). rewrite Hlist. reflexivity.
Qed.

(** X4. When the first event listed carries both date-time texts and the
    first of them that is read does not parse, [get_available_slots] raises
    the parser's error after one query: no slot is offered for that date. *)
Theorem X4_unparsable_event_is_raised
    (w : World) (date : date) (ev : Event) (rest : list Event) (err : Exn) :
  events_list (calendar w) (time_min date) (time_max date) = inr (ev :: rest) ->
  malformed_event ev err ->
  get_available_slots date w = (Raised err, after_listing date 1 w).
Proof.
  intros Hlist (s & e & Hs & Hs' & He & He' & Hbad).
  unfold get_available_slots. rewrite seqZ_7_8. cbn [slots_loop].
  unfold bind at 1. rewrite (is_time_available_listed _ _ _ w Hlist).
  cbn [events_loop]. rewrite Hs, He. cbn [truthy_opt].
  rewrite (truthy_nonempty s Hs'), (truthy_nonempty e He'). cbn [andb].
  unfold parse_event_time.
  destruct Hbad as [Hds | (ds & Hds & Hde)].
  - rewrite Hds. reflexivity.
  - rewrite Hds, Hde. reflexivity.
Qed.

Lemma filter_sublist_impl {A} (P Q : A -> Prop)
    `{!forall x, Decision (P x)} `{!forall x, Decision (Q x)} (l : list A) :
  (forall x, P x -> Q x) -> filter P l `sublist_of` filter Q l.
Proof.
  intros Himpl. induction l as [|x l IH]; [constructor|].
  rewrite !filter_cons.
  destruct (decide (P x)) as [Hp | Hp]; destruct (decide (Q x)) as [Hq | Hq].
  - apply sublist_skip, IH.
  - destruct (Hq (Himpl x Hp)).
  - apply sublist_cons, IH.
  - exact IH.
Qed.

Lemma map_sublist {A B} (f : A -> B) (l k : list A) :
  l `sublist_of` k -> map f l `sublist_of` map f k.
Proof.
  induction 1; cbn [map]; [constructor | apply sublist_skip | apply sublist_cons];
    assumption.
Qed.

(** X5. One more event in the calendar never frees a slot: the slots
    offered with the event are a sublist of the slots offered without it. *)
Theorem X5_an_event_never_adds_slots
    (w w' : World) (date : date) (before : list Event) (ev : Event)
    (after : list Event) (ows1 : list (option (Z * Z))) (ow : option (Z * Z))
    (ows2 : list (option (Z * Z))) :
  events_list (calendar w) (time_min date) (time_max date)
    = inr (before ++ ev :: after) ->
  events_list (calendar w') (time_min date) (time_max date)
    = inr (before ++ after) ->
  Forall2 described before ows1 ->
  described ev ow ->
  Forall2 described after ows2 ->
  exists slots slots',
    fst (get_available_slots date w) = Done slots /\
    fst (get_available_slots date w') = Done slots' /\
    slots `sublist_of` slots'.
Proof.
  intros Hw Hw' H1 Hev H2.
  assert (Hwith : Forall2 described (before ++ ev :: after) (ows1 ++ ow :: ows2)).
  { apply Forall2_app; [exact H1|]. constructor; assumption. }
  assert (Hwithout : Forall2 described (before ++ after) (ows1 ++ ows2)).
  { apply Forall2_app; assumption. }
  eexists _, _.
  split; [exact (slots_described date _ _ w Hw Hwith)|].
  split; [exact (slots_described date _ _ w' Hw' Hwithout)|].
  apply map_sublist. unfold available_hours. apply filter_sublist_impl.
  intros h. unfold hour_available, windows_of. rewrite !omap_app, !Forall_app.
  intros [Ha Hb]. split; [exact Ha|].
  destruct ow as [window|]; cbn in Hb; [|exact Hb].
  apply Forall_cons in Hb as [_ Hb]. exact Hb.
Qed.

End AvailabilityMore.

(* ===================================================================== *)
(** * Further properties of the booking form *)
(* ===================================================================== *)

Section FormMore.
Context `{svc : Services}.

(** The form with "Submit Booking" pressed reaches the submit branch with
    the slots [get_available_slots] has returned, or ends before it. *)
Lemma booking_form_submit_slots (ws : Widgets) (idx : option nat)
    (po service event_id : string) (w : World) :
  exists n,
    let w1 := after_listing (form_date ws) n w in
    (exists r w',
        booking_form btn_submit_booking ws idx po service event_id w = (r, w') /\
        (forall x, r <> Done x) /\
        (w' = w1 \/ w' = snd (st_warning no_slots_warning w1))) \/
    (exists slots,
        fst (get_available_slots (form_date ws) w) = Done slots /\
        slots <> [] /\
        booking_form btn_submit_booking ws idx po service event_id w =
        submit_form idx event_id po ws slots w1).
Proof.
  destruct (get_available_slots_world (form_date ws) w) as [n Hn].
  exists n. cbv zeta.
  remember (booking_form btn_submit_booking ws idx po service event_id w) as res eqn:Hres.
  unfold booking_form in Hres. cbn [is_button when] in Hres. unfold bind at 1 in Hres.
  destruct (get_available_slots (form_date ws) w) as [[slots|e|] w1];
    cbn [snd] in Hn; subst w1.
  - destruct slots as [|t slots].
    + left. eexists _, _. split; [exact Hres|]. split; [discriminate|].
      right. reflexivity.
    + unfold bind at 1 in Hres. unfold ret at 1 in Hres. unfold bind at 1 in Hres.
      destruct (list_index service service_options).
      * right. exists (t :: slots). split; [reflexivity|]. split; [discriminate|].
        exact Hres.
      * left. eexists _, _. split; [exact Hres|]. split; [discriminate|].
        left. reflexivity.
  - left. eexists _, _. split; [exact Hres|]. split; [discriminate|]. left. reflexivity.
  - left. eexists _, _. split; [exact Hres|]. split; [discriminate|]. left. reflexivity.
Qed.

(** A rerun with "Submit Booking" pressed in a booking mode, with the slots
    and the defaults the submit branch runs on. *)
Lemma script_submit_slots (ws : Widgets) (w : World) :
  mode (session_state w) = new_booking \/ mode (session_state w) = rebook ->
  exists n,
    let w1 := after_listing (form_date ws) n w in
    (exists r w',
        script btn_submit_booking ws w = (r, w') /\
        (forall x, r <> Done x) /\
        (w' = w1 \/ w' = snd (st_warning no_slots_warning w1))) \/
    (exists slots idx event_id po,
        fst (get_available_slots (form_date ws) w) = Done slots /\
        slots <> [] /\
        script btn_submit_booking ws w = submit_form idx event_id po ws slots w1 /\
        match mode (session_state w) with
        | rebook =>
            exists i cust,
              current_customer (session_state w) = Some (i, cust) /\
              idx = Some i /\ po = PO_No cust /\ event_id = Event_ID cust
        | _ => idx = None /\ po = po_number (po_counter (session_state w)) /\
               event_id = ""%string
        end).
Proof.
  intros Hmode.
  assert (Hscript : script btn_submit_booking ws w = booking_page btn_submit_booking ws w).
  { unfold script, bind, get_state. destruct Hmode as [-> | ->]; reflexivity. }
  rewrite Hscript.
  destruct (booking_page_defaults btn_submit_booking ws w eq_refl)
    as [[e He] | (idx & po & service & event_id & Hpage & Hdef)].
  { exists 0%nat. left. exists (Raised e), w. split; [exact He|].
    split; [discriminate|]. left. cbv zeta. symmetry. apply after_listing_0. }
  rewrite Hpage.
  destruct (booking_form_submit_slots ws idx po service event_id w) as [n Hform].
  exists n. cbv zeta in *.
  destruct Hform as [Hend | (slots & Hslots & Hne & Hsub)]; [left; exact Hend|].
  right. exists slots, idx, event_id, po. auto.
Qed.

(** Every insert a submit issues carries the booking of the form, at the
    slot picked from the slots [get_available_slots] has returned. *)
Lemma script_submit_insert (ws : Widgets) (w : World) (body : EventBody)
    (r : Exn + string) :
  mode (session_state w) = new_booking \/ mode (session_state w) = rebook ->
  CalInsert body r
    ∈ calls_since (List.length (calls w)) (snd (script btn_submit_booking ws w)) ->
  exists slots po,
    fst (get_available_slots (form_date ws) w) = Done slots /\
    slots <> [] /\
    body = form_event po ws slots.
Proof.
  intros Hmode Hin.
  destruct (script_submit_slots ws w Hmode) as [n Hrun]. cbv zeta in Hrun.
  destruct Hrun as [(r0 & w' & Hrun & _ & Hw')
                   | (slots & idx & event_id & po & Hslots & Hne & Hrun & Hdef)];
    rewrite Hrun in Hin; cbn [snd] in Hin.
  - exfalso.
    assert (Hcalls : calls w' = calls w ++ queries ws n)
      by (destruct Hw' as [-> | ->]; reflexivity).
    rewrite (calls_since_app _ _ _ Hcalls) in Hin.
    apply not_in_listing in Hin. discriminate.
  - exists slots, po. split; [exact Hslots|]. split; [exact Hne|].
    unfold submit_form in Hin.
    destruct Hmode as [Hm | Hm].
    + destruct (events_insert (calendar (after_listing (form_date ws) n w))
                  (form_event po ws slots)) as [ires c2] eqn:Hins.
      unfold form_event in Hins.
      rewrite (submit_booking_new _ _ _ _ _ _ _ _ _ _ _ _
                 (after_listing (form_date ws) n w) ires c2 Hm Hins) in Hin.
      fold (form_event po ws slots) in Hin.
      destruct ires as [e|new_id]; [|cbv zeta in Hin; destruct (sheet_fault _)];
        cbn [fst snd] in Hin;
        (erewrite calls_since_app in Hin by (cbn; rewrite <- ?app_assoc; reflexivity));
        repeat (apply elem_of_app in Hin as [Hin | Hin];
                [try (apply not_in_listing in Hin); try discriminate|]);
        repeat (apply elem_of_cons in Hin as [Hin | Hin];
                [try discriminate; try (injection Hin as -> _; reflexivity)|]);
        inversion Hin.
    + destruct (events_delete (calendar (after_listing (form_date ws) n w)) event_id)
        as [dres c1] eqn:Hdel.
      destruct (events_insert c1 (form_event po ws slots)) as [ires c2] eqn:Hins.
      unfold form_event in Hins.
      rewrite Hm in Hdef. destruct Hdef as (i & cust & _ & -> & _ & _).
      rewrite (submit_booking_rebook _ _ _ _ _ _ _ _ _ _ _ _
                 (after_listing (form_date ws) n w) dres c1 ires c2 Hm Hdel Hins) in Hin.
      fold (form_event po ws slots) in Hin.
      destruct ires as [e|new_id]; [|cbv zeta in Hin; destruct (update_result _ _)];
        cbn [fst snd] in Hin;
        (erewrite calls_since_app in Hin by (cbn; rewrite <- ?app_assoc; reflexivity));
        repeat (apply elem_of_app in Hin as [Hin | Hin];
                [try (apply not_in_listing in Hin); try discriminate|]);
        repeat (apply elem_of_cons in Hin as [Hin | Hin];
                [try discriminate; try (injection Hin as -> _; reflexivity)|]);
        inversion Hin.
Qed.

Lemma selectbox_elem (slots : list time) (pick : nat) :
  slots <> [] -> selectbox slots pick ∈ slots.
Proof.
  intros Hne. unfold selectbox. destruct (slots !! pick) as [t|] eqn:Hpick.
  - apply list_elem_of_lookup. exists pick. exact Hpick.
  - destruct slots as [|t slots]; [congruence|]. left.
Qed.

Lemma time_add_hours_4 (h : Z) :
  7 <= h <= 14 -> time_add_hours (mk_time h 0 0) 4 = mk_time (h + 4) 0 0.
Proof.
  intros Hh. unfold time_add_hours, seconds_of_time, time_of_seconds.
  cbn [hour minute second]. f_equal; zdiv.
Qed.

(** X6. Every calendar event a booking submit inserts, new or rebook,
    occupies a 4-hour block on the date of the form that starts on the hour
    between 07:00 and 14:00, so that it ends by 18:00. *)
Theorem X6_inserted_event_is_a_four_hour_block
    (ws : Widgets) (w : World) (body : EventBody) (r : Exn + string) :
  mode (session_state w) = new_booking \/ mode (session_state w) = rebook ->
  CalInsert body r
    ∈ calls_since (List.length (calls w)) (snd (script btn_submit_booking ws w)) ->
  exists h,
    7 <= h <= 14 /\
    start_dateTime body = isoformat (localize (form_date ws) (mk_time h 0 0)) /\
    end_dateTime body = isoformat (localize (form_date ws) (mk_time (h + 4) 0 0)).
Proof.
  intros Hmode Hin.
  destruct (script_submit_insert ws w body r Hmode Hin) as (slots & po & Hslots & Hne & ->).
  pose proof (selectbox_elem slots (form_start_time ws) Hne) as Hpick.
  apply get_available_slots_sublist, sublist_submseteq in Hslots.
  apply (elem_of_submseteq _ _ _ Hpick) in Hslots.
  unfold all_slots in Hslots. cbn [map] in Hslots.
  rewrite !elem_of_cons, elem_of_nil in Hslots.
  unfold form_event, booking_event; cbn [start_dateTime end_dateTime].
  repeat (destruct Hslots as [-> | Hslots];
          [eexists; split; [|split; [reflexivity|]];
           [lia | rewrite time_add_hours_4 by lia; reflexivity]|]).
  destruct Hslots.
Qed.

(** X7. When the calendar lists the events of the date, the event a
    booking submit inserts overlaps none of the timed ones: its start hour
    is one whose 4-hour window is free of every listed event.  In a rebook
    the listed events include the booking's own old event. *)
Theorem X7_inserted_event_overlaps_no_listed_event
    (ws : Widgets) (w : World) (body : EventBody) (r : Exn + string)
    (events : list Event) (ows : list (option (Z * Z))) :
  mode (session_state w) = new_booking \/ mode (session_state w) = rebook ->
  events_list (calendar w) (time_min (form_date ws)) (time_max (form_date ws))
    = inr events ->
  Forall2 described events ows ->
  CalInsert body r
    ∈ calls_since (List.length (calls w)) (snd (script btn_submit_booking ws w)) ->
  exists h,
    hour_available (form_date ws) (windows_of ows) h /\
    start_dateTime body = isoformat (localize (form_date ws) (mk_time h 0 0)).
Proof.
  intros Hmode Hlist Hdesc Hin.
  destruct (script_submit_insert ws w body r Hmode Hin) as (slots & po & Hslots & Hne & ->).
  pose proof (selectbox_elem slots (form_start_time ws) Hne) as Hpick.
  rewrite (slots_described (form_date ws) events ows w Hlist Hdesc) in Hslots.
  injection Hslots as <-.
  apply list_elem_of_In, in_map_iff in Hpick as (h & Hh & Hfree).
  apply list_elem_of_In in Hfree. unfold available_hours in Hfree.
  apply list_elem_of_filter in Hfree as [Hfree _].
  exists h. split; [exact Hfree|].
  unfold form_event, booking_event; cbn [start_dateTime]. rewrite Hh. reflexivity.
Qed.

(** X8. When no slot is free on the date of the form, a new-booking run
    stops at the slot list whatever button was pressed short of "Return to
    Search": a warning is shown, no insert and no worksheet call is made,
    and the stores and the session state stay as they were. *)
Theorem X8_no_slot_stops_the_form
    (clicked : Button) (ws : Widgets) (w : World) :
  mode (session_state w) = new_booking ->
  is_button btn_return_to_search clicked = false ->
  fst (get_available_slots (form_date ws) w) = Done [] ->
  fst (script clicked ws w) = Stopped /\
  messages (snd (script clicked ws w)) = messages w ++ [Warning no_slots_warning] /\
  sheet (snd (script clicked ws w)) = sheet w /\
  calendar (snd (script clicked ws w)) = calendar w /\
  session_state (snd (script clicked ws w)) = session_state w /\
  exists n, calls_since (List.length (calls w)) (snd (script clicked ws w))
            = queries ws n.
Proof.
  intros Hmode Hbtn Hslots.
  assert (Hscript : script clicked ws w
                    = booking_form clicked ws None
                        (po_number (po_counter (session_state w)))
                        "Small Truck + 1 Man" "" w).
  { unfold script, bind at 1, get_state at 1. rewrite Hmode.
    unfold booking_page. rewrite Hbtn.
    cbv [when bind ret get_state generate_po_number]. rewrite Hmode. reflexivity. }
  destruct (get_available_slots_world (form_date ws) w) as [n Hn].
  assert (Hrun : script clicked ws w
                 = (Stopped, snd (st_warning no_slots_warning
                                    (after_listing (form_date ws) n w)))).
  { rewrite Hscript. unfold booking_form, bind at 1.
    destruct (get_available_slots (form_date ws) w) as [[slots|e|] w1];
      cbn [fst snd] in *; try discriminate.
    injection Hslots as ->. subst w1. reflexivity. }
  rewrite Hrun. cbn [fst snd st_warning show messages sheet calendar session_state
                     after_listing].
  do 5 (split; [reflexivity|]). exists n. apply calls_since_app. reflexivity.
Qed.

End FormMore.

(* ===================================================================== *)
(** * Further properties of the search *)
(* ===================================================================== *)

Section SearchMore.
Context `{svc : Services}.

Lemma lower_empty (s : string) : lower s = ""%string -> s = ""%string.
Proof. destruct s; [reflexivity | discriminate]. Qed.

Lemma append_empty (a b : string) : (a ++ b)%string = ""%string -> a = ""%string.
Proof. destruct a; [reflexivity | discriminate]. Qed.

Lemma length_zero_empty (s : string) : String.length s = 0%nat -> s = ""%string.
Proof. destruct s; [reflexivity | discriminate]. Qed.

(** A row that matches a query has a name or a phone. *)
Lemma matches_not_blank (name phone : string) (row : Row) :
  matches name phone row -> Name row <> ""%string \/ Phone row <> ""%string.
Proof.
  intros [[Hname (pre & post & Hsub)] | [Hphone (t & [_ Ht] & [_ Ht'])]].
  - left. intros Hblank. rewrite Hblank in Hsub. cbn [lower] in Hsub.
    symmetry in Hsub. destruct pre; [|discriminate]. rewrite append_nil in Hsub.
    apply append_empty, lower_empty in Hsub. contradiction.
  - right. intros Hblank. rewrite Hblank in Ht. cbn in Ht.
    rewrite Ht in Ht'. apply Hphone, length_zero_empty.
    destruct (String.length phone); [reflexivity | discriminate].
Qed.

(** X9. [find_customer] never returns a blank row: the row it returns has
    a name or a phone, so a cancelled booking, whose row is blanked, is not
    found again by any query. *)
Theorem X9_blank_rows_are_never_found
    (w : World) (name phone : string) (idx : nat) (row : Row) :
  fst (find_customer name phone w) = Done (Some (idx, row)) ->
  (Name row <> ""%string \/ Phone row <> ""%string) /\ row <> blank_row.
Proof.
  unfold find_customer, get_all_records, bind, ret.
  destruct (sheet_fault (calls w)); [discriminate|]. cbn [fst].
  intros [= Hfound].
  pose proof (find_loop_first_match name phone (sheet w) 2) as H.
  rewrite Hfound in H. destruct H as (k & _ & _ & Hm & _).
  apply matches_not_blank in Hm. split; [exact Hm|].
  intros ->. destruct Hm as [Hm | Hm]; apply Hm; reflexivity.
Qed.

Lemma suffix_slice_length (n : nat) (s : string) :
  (n <= String.length s)%nat -> String.length (suffix_slice n s) = n.
Proof. intros Hn. unfold suffix_slice. rewrite length_drop. lia. Qed.

Lemma suffix_slice_app (n : nat) (pre t : string) :
  String.length t = n -> suffix_slice n (pre ++ t)%string = t.
Proof.
  intros Ht. unfold suffix_slice. rewrite length_app_string, Ht.
  replace (String.length pre + n - n)%nat with (String.length pre) by lia.
  apply drop_append_length.
Qed.

(** X10. The phone search tolerates any prefix: for a stored phone of at
    least 9 characters, a query made of any text followed by its last 9
    characters finds a row at or before it whose phone ends in the same 9
    characters. *)
Theorem X10_phone_search_ignores_the_prefix
    (w : World) (k : nat) (row : Row) (prefix : string) :
  sheet w !! k = Some row ->
  (9 <= String.length (Phone row))%nat ->
  sheet_fault (calls w) = None ->
  exists idx found,
    fst (find_customer "" (prefix ++ suffix_slice 9 (Phone row)) w)
      = Done (Some (idx, found)) /\
    (idx <= k + 2)%nat /\
    suffix_slice 9 (Phone found) = suffix_slice 9 (Phone row).
Proof.
  intros Hk Hlen Hfault.
  set (query := (prefix ++ suffix_slice 9 (Phone row))%string).
  assert (Hq9 : suffix_slice 9 query = suffix_slice 9 (Phone row)).
  { apply suffix_slice_app, suffix_slice_length, Hlen. }
  assert (Hqne : query <> ""%string).
  { intros Hq. rewrite Hq in Hq9. cbn in Hq9.
    pose proof (suffix_slice_length 9 (Phone row) Hlen) as H9.
    rewrite <- Hq9 in H9. discriminate. }
  assert (Hrow : matches "" query row).
  { right. split; [exact Hqne|]. exists (suffix_slice 9 (Phone row)).
    rewrite !suffix_slice_spec. auto. }
  unfold find_customer, get_all_records, bind, ret. rewrite Hfault. cbn [fst].
  pose proof (find_loop_first_match "" query (sheet w) 2) as H.
  destruct (find_loop "" query 2 (sheet w)) as [[idx found]|].
  - destruct H as (k' & -> & Hk' & Hm & Hfirst).
    exists (2 + k')%nat, found. split; [reflexivity|]. split.
    + destruct (decide (k' <= k)%nat); [lia|].
      exfalso. apply (Hfirst k row); [lia | exact Hk | exact Hrow].
    + destruct Hm as [[Hne _] | [_ (t & Ht & Ht')]]; [congruence|].
      apply suffix_slice_spec in Ht, Ht'. congruence.
  - exfalso. apply (H row); [|exact Hrow].
    apply list_elem_of_lookup. exists k. exact Hk.
Qed.

End SearchMore.

(* ===================================================================== *)
(** * Further properties of the booking lifecycle *)
(* ===================================================================== *)

Section SessionMore.
Context `{svc : Services}.

Global Instance read_only_preorder : PreOrder read_only.
Proof.
  split.
  - intros w. repeat split. exists []. split; [symmetry; apply app_nil_r | constructor].
  - intros w1 w2 w3 (Hs & Hc & Hn & cs & Hcs & Hr) (Hs' & Hc' & Hn' & cs' & Hcs' & Hr').
    split; [congruence|]. split; [congruence|]. split; [congruence|].
    exists (cs ++ cs'). split; [rewrite Hcs', Hcs, app_assoc; reflexivity|].
    apply Forall_app. split; assumption.
Qed.

Global Instance same_mode_preorder : PreOrder same_mode.
Proof. split; [intros w; reflexivity | intros w1 w2 w3; unfold same_mode; congruence]. Qed.

Lemma read_only_silent (w w' : World) :
  sheet w' = sheet w -> calendar w' = calendar w ->
  po_counter (session_state w') = po_counter (session_state w) ->
  calls w' = calls w -> read_only w w'.
Proof.
  intros Hs Hc Hn Hcs. repeat split; try assumption.
  exists []. split; [rewrite Hcs; symmetry; apply app_nil_r | constructor].
Qed.

Lemma read_only_show (m : Msg) : preserves read_only (show m).
Proof. intros w. apply read_only_silent; reflexivity. Qed.

Lemma read_only_set_mode (m : Mode) : preserves read_only (set_mode m).
Proof. intros w. apply read_only_silent; reflexivity. Qed.

Lemma read_only_set_show_cancel_confirm (b : bool) :
  preserves read_only (set_show_cancel_confirm b).
Proof. intros w. apply read_only_silent; reflexivity. Qed.

Lemma read_only_set_current_customer (c : option (nat * Row)) :
  preserves read_only (set_current_customer c).
Proof. intros w. apply read_only_silent; reflexivity. Qed.

Lemma read_only_generate_po_number : preserves read_only generate_po_number.
Proof. intros w. apply read_only_silent; reflexivity. Qed.

Lemma read_only_get_all_records : preserves read_only get_all_records.
Proof.
  intros w. unfold get_all_records.
  destruct (sheet_fault (calls w)); repeat split;
    eexists; (split; [reflexivity | repeat constructor]).
Qed.

Lemma read_only_after_listing (date : date) (n : nat) (w : World) :
  read_only w (after_listing date n w).
Proof.
  repeat split. eexists. split; [reflexivity|]. apply Forall_replicate. reflexivity.
Qed.

Lemma read_only_get_available_slots (date : date) :
  preserves read_only (get_available_slots date).
Proof.
  intros w. destruct (get_available_slots_world date w) as [n ->].
  apply read_only_after_listing.
Qed.

Create HintDb reads.
#[local] Hint Resolve read_only_show read_only_set_mode
  read_only_set_show_cancel_confirm read_only_set_current_customer
  read_only_generate_po_number read_only_get_all_records
  read_only_get_available_slots : reads.

(** Follows binds, handlers and case distinctions down to the calls. *)
Ltac follow_step :=
  match goal with
  | |- preserves _ (bind _ _) => apply preserves_bind; [exact _ | | intros ?]
  | |- preserves _ (try_except _ _) => apply preserves_try_except; [exact _ | | intros ?]
  | |- preserves _ (when _ _) => apply preserves_when; [exact _ |]
  | |- preserves _ (ret _) => apply preserves_ret; exact _
  | |- preserves _ (raise _) => apply preserves_raise; exact _
  | |- preserves _ st_stop => apply preserves_st_stop; exact _
  | |- preserves _ (lift _) => apply preserves_lift; exact _
  | |- preserves _ get_state => apply preserves_get_state; exact _
  | |- preserves _ (match ?x with _ => _ end) => destruct x
  | |- preserves _ _ => solve [unfold st_warning, st_error, st_success; eauto with reads]
  end.

Ltac follow := repeat follow_step.

Lemma is_button_refl_false (b clicked : Button) :
  clicked <> b -> is_button b clicked = false.
Proof.
  intros Hne. destruct b, clicked; try reflexivity; try congruence.
  cbn. apply Nat.eqb_neq. congruence.
Qed.

Lemma read_only_search_page (clicked : Button) (ws : Widgets) :
  preserves read_only (search_page clicked ws).
Proof. unfold search_page, find_customer. follow. Qed.

Lemma read_only_view_page (clicked : Button) :
  clicked <> btn_yes_cancel -> preserves read_only (view_page clicked).
Proof.
  intros Hne. unfold view_page.
  rewrite (is_button_refl_false btn_yes_cancel clicked Hne). cbn [when]. follow.
Qed.

Lemma read_only_booking_page (clicked : Button) (ws : Widgets) :
  clicked <> btn_submit_booking -> preserves read_only (booking_page clicked ws).
Proof.
  intros Hne. unfold booking_page, booking_form.
  rewrite (is_button_refl_false btn_submit_booking clicked Hne). cbn [when]. follow.
Qed.

(** X11. Only "Submit Booking" and "Yes, Cancel" write: a rerun with any
    other button pressed, in any mode, issues nothing but calendar queries
    and worksheet snapshots, and leaves the worksheet, the calendar and the
    PO counter as they were. *)
Theorem X11_other_buttons_only_read
    (clicked : Button) (ws : Widgets) (w : World) :
  clicked <> btn_submit_booking ->
  clicked <> btn_yes_cancel ->
  read_only w (snd (script clicked ws w)).
Proof.
  intros Hsubmit Hcancel. unfold script, bind, get_state.
  destruct (mode (session_state w)).
  - apply read_only_search_page.
  - apply read_only_view_page, Hcancel.
  - apply read_only_booking_page, Hsubmit.
  - apply read_only_booking_page, Hsubmit.
Qed.

(** The outcomes of a new-booking submit: it ends without a booking, the
    session state and the worksheet being as they were, or it has created
    the booking of the form. *)
Lemma new_submit_cases (ws : Widgets) (w : World) :
  mode (session_state w) = new_booking ->
  ((forall x, fst (script btn_submit_booking ws w) <> Done x) /\
   session_state (snd (script btn_submit_booking ws w)) = session_state w /\
   sheet (snd (script btn_submit_booking ws w)) = sheet w) \/
  (exists n slots new_id c2,
      fst (get_available_slots (form_date ws) w) = Done slots /\
      slots <> [] /\
      script btn_submit_booking ws w =
      (Done tt,
       mk_world
         (sheet w ++
          [row_of_values
             (form_values (po_number (po_counter (session_state w))) ws slots new_id)])
         c2
         (mk_session search (po_counter (session_state w) + 1) None
                     (show_cancel_confirm (session_state w)))
         (calls w ++ queries ws n ++
          [CalInsert (form_event (po_number (po_counter (session_state w))) ws slots)
                     (inr new_id);
           SheetAppend
             (form_values (po_number (po_counter (session_state w))) ws slots new_id)
             None])
         (messages w ++ [Success "Booking created."]))).
Proof.
  intros Hmode.
  destruct (script_submit_slots ws w (or_introl Hmode)) as [n Hrun]. cbv zeta in Hrun.
  destruct Hrun as [(r & w' & Hrun & Hr & Hw')
                   | (slots & idx & event_id & po & Hslots & Hne & Hrun & Hdef)];
    rewrite Hrun.
  - left. cbn [fst snd]. split; [exact Hr|]. destruct Hw' as [-> | ->]; split; reflexivity.
  - rewrite Hmode in Hdef. destruct Hdef as (-> & -> & ->).
    unfold submit_form.
    destruct (events_insert (calendar (after_listing (form_date ws) n w))
                (form_event (po_number (po_counter (session_state w))) ws slots))
      as [ires c2] eqn:Hins.
    unfold form_event in Hins.
    rewrite (submit_booking_new _ _ _ _ _ _ _ _ _ _ _ _
               (after_listing (form_date ws) n w) ires c2 Hmode Hins).
    destruct ires as [e|new_id]; [|cbv zeta; destruct (sheet_fault _)].
    + left. cbn [fst snd]. split; [discriminate|]. split; reflexivity.
    + left. cbn [fst snd]. split; [discriminate|]. split; reflexivity.
    + right. exists n, slots, new_id, c2. split; [exact Hslots|]. split; [exact Hne|].
      unfold form_values, form_event, queries. cbn [calls sheet messages session_state
        after_listing]. rewrite <- !app_assoc. reflexivity.
Qed.

(** The outcomes of a rebook submit: it ends without a change of the
    worksheet and of the session state, or it has overwritten the row of the
    booking held. *)
Lemma rebook_submit_cases (ws : Widgets) (w : World) :
  mode (session_state w) = rebook ->
  ((forall x, fst (script btn_submit_booking ws w) <> Done x) /\
   session_state (snd (script btn_submit_booking ws w)) = session_state w /\
   sheet (snd (script btn_submit_booking ws w)) = sheet w) \/
  (exists idx cust slots new_id,
      current_customer (session_state w) = Some (idx, cust) /\
      fst (script btn_submit_booking ws w) = Done tt /\
      sheet (snd (script btn_submit_booking ws w)) =
        write_row idx (row_of_values (form_values (PO_No cust) ws slots new_id))
                  (sheet w) /\
      session_state (snd (script btn_submit_booking ws w)) =
        mk_session search (po_counter (session_state w)) None
                   (show_cancel_confirm (session_state w))).
Proof.
  intros Hmode.
  destruct (script_submit_slots ws w (or_intror Hmode)) as [n Hrun]. cbv zeta in Hrun.
  destruct Hrun as [(r & w' & Hrun & Hr & Hw')
                   | (slots & idx & event_id & po & Hslots & Hne & Hrun & Hdef)];
    rewrite Hrun.
  - left. cbn [fst snd]. split; [exact Hr|]. destruct Hw' as [-> | ->]; split; reflexivity.
  - rewrite Hmode in Hdef. destruct Hdef as (i & cust & Hcur & -> & -> & ->).
    unfold submit_form.
    destruct (events_delete (calendar (after_listing (form_date ws) n w)) (Event_ID cust))
      as [dres c1] eqn:Hdel.
    destruct (events_insert c1 (form_event (PO_No cust) ws slots)) as [ires c2] eqn:Hins.
    unfold form_event in Hins.
    rewrite (submit_booking_rebook _ _ _ _ _ _ _ _ _ _ _ _
               (after_listing (form_date ws) n w) dres c1 ires c2 Hmode Hdel Hins).
    destruct ires as [e|new_id]; [|cbv zeta; destruct (update_result _ _)].
    + left. cbn [fst snd]. split; [discriminate|]. split; reflexivity.
    + left. cbn [fst snd]. split; [discriminate|]. split; reflexivity.
    + right. exists i, cust, slots, new_id. split; [exact Hcur|].
      cbn [fst snd sheet session_state after_listing]. repeat split.
Qed.

(** X12. A booking submit that does not complete, whether it stops, or an
    insert, an append or a range update fails, leaves the session state
    (mode, booking held, PO counter) and the worksheet exactly as they
    were; one that completes returns to the search page and holds no
    booking. *)
Theorem X12_failed_submit_keeps_session_and_sheet
    (ws : Widgets) (w : World) :
  mode (session_state w) = new_booking \/ mode (session_state w) = rebook ->
  match fst (script btn_submit_booking ws w) with
  | Done _ =>
      mode (session_state (snd (script btn_submit_booking ws w))) = search /\
      current_customer (session_state (snd (script btn_submit_booking ws w))) = None
  | _ =>
      session_state (snd (script btn_submit_booking ws w)) = session_state w /\
      sheet (snd (script btn_submit_booking ws w)) = sheet w
  end.
Proof.
  intros [Hmode | Hmode].
  - destruct (new_submit_cases ws w Hmode)
      as [(Hr & Hs & Hsh) | (n & slots & new_id & c2 & _ & _ & ->)].
    + destruct (fst (script btn_submit_booking ws w)) as [x| |];
        [destruct (Hr x eq_refl) | auto | auto].
    + cbn. auto.
  - destruct (rebook_submit_cases ws w Hmode)
      as [(Hr & Hs & Hsh) | (idx & cust & slots & new_id & _ & -> & _ & ->)].
    + destruct (fst (script btn_submit_booking ws w)) as [x| |];
        [destruct (Hr x eq_refl) | auto | auto].
    + cbn. auto.
Qed.

(** X13. A new-booking submit that completes has inserted one event and
    then appended one row at the end of the worksheet; the row carries the
    PO number of the counter, what the form holds, the 4-hour block of the
    slot picked and the event id the insert returned; the counter is
    advanced by one and the session is back on the search page. *)
Theorem X13_completed_new_booking
    (ws : Widgets) (w : World) :
  mode (session_state w) = new_booking ->
  fst (script btn_submit_booking ws w) = Done tt ->
  exists n slots new_id row,
    fst (get_available_slots (form_date ws) w) = Done slots /\
    sheet (snd (script btn_submit_booking ws w)) = sheet w ++ [row] /\
    values_of_row row =
      [po_number (po_counter (session_state w)); form_name ws; form_phone ws;
       form_from_addr ws; form_to_addr ws; str_of_date (form_date ws);
       str_of_time (selectbox slots (form_start_time ws));
       str_of_time (time_add_hours (selectbox slots (form_start_time ws)) 4);
       service_name (form_service ws); form_notes ws; new_id] /\
    calls_since (List.length (calls w)) (snd (script btn_submit_booking ws w)) =
      queries ws n ++
      [CalInsert (form_event (po_number (po_counter (session_state w))) ws slots)
                 (inr new_id);
       SheetAppend (values_of_row row) None] /\
    session_state (snd (script btn_submit_booking ws w)) =
      mk_session search (po_counter (session_state w) + 1) None
                 (show_cancel_confirm (session_state w)).
Proof.
  intros Hmode Hdone.
  destruct (new_submit_cases ws w Hmode)
    as [(Hr & _) | (n & slots & new_id & c2 & Hslots & _ & Hrun)].
  { destruct (Hr tt Hdone). }
  rewrite Hrun. cbn [fst snd sheet session_state].
  exists n, slots, new_id, (row_of_values
    (form_values (po_number (po_counter (session_state w))) ws slots new_id)).
  split; [exact Hslots|]. split; [reflexivity|]. split; [reflexivity|].
  split; [|reflexivity]. apply calls_since_app. reflexivity.
Qed.

(** X15. Throughout a session, whatever the user does and whatever fails,
    the booking held for view, rebook or cancel is addressed by the sheet
    position of an existing data row. *)
Theorem X15_held_booking_is_an_existing_row
    (rows : Sheet) (c : Cal) (actions : list (Button * Widgets))
    (idx : nat) (cust : Row) :
  current_customer (session_state (run_session (new_session rows c) actions))
    = Some (idx, cust) ->
  (2 <= idx)%nat /\
  (idx - 2 < List.length (sheet (run_session (new_session rows c) actions)))%nat.
Proof. intros Hcur. exact (run_session_held rows c actions idx cust Hcur). Qed.

(** *** The PO counter *)

Lemma is_button_true (b clicked : Button) : is_button b clicked = true -> clicked = b.
Proof.
  destruct b, clicked; cbn; try discriminate; try reflexivity.
  intros H. apply Nat.eqb_eq in H. congruence.
Qed.

Lemma is_button_false (b clicked : Button) : is_button b clicked = false -> clicked <> b.
Proof.
  intros H ->. destruct b; cbn in H; try discriminate.
  rewrite Nat.eqb_refl in H. discriminate.
Qed.

(** X16. The PO counter advances only with a created booking.  A rerun in
    new-booking mode with "Submit Booking" pressed that completes advances
    the counter by one and appends a row under the PO number of the old
    counter; every other rerun, whatever the mode and the button, and
    whether it completes, stops or fails, leaves the counter where it was
    and appends no row: a rebook, a cancellation and a failed submit use up
    no PO number. *)
Theorem X16_counter_advances_only_with_a_created_booking
    (clicked : Button) (ws : Widgets) (w : World) :
  let r := fst (script clicked ws w) in
  let w' := snd (script clicked ws w) in
  let completed :=
    mode (session_state w) = new_booking /\ clicked = btn_submit_booking /\
    r = Done tt in
  (completed ->
   po_counter (session_state w') = po_counter (session_state w) + 1 /\
   assigned_pos (calls w') =
     assigned_pos (calls w) ++ [po_number (po_counter (session_state w))]) /\
  (~ completed ->
   po_counter (session_state w') = po_counter (session_state w) /\
   assigned_pos (calls w') = assigned_pos (calls w)).
Proof.
  cbv zeta.
  assert (Hyes : mode (session_state w) = new_booking /\ clicked = btn_submit_booking /\
                 fst (script clicked ws w) = Done tt ->
                 po_counter (session_state (snd (script clicked ws w)))
                 = po_counter (session_state w) + 1).
  { intros (Hmode & -> & Hr).
    destruct (new_submit_cases ws w Hmode)
      as [(Hnot & _) | (n & slots & new_id & c2 & _ & _ & Hrun)].
    - destruct (Hnot tt Hr).
    - rewrite Hrun. reflexivity. }
  assert (Hno : ~ (mode (session_state w) = new_booking /\ clicked = btn_submit_booking /\
                   fst (script clicked ws w) = Done tt) ->
                po_counter (session_state (snd (script clicked ws w)))
                = po_counter (session_state w)).
  { intros Hnc. destruct (mode (session_state w)) eqn:Hmode.
    - replace (script clicked ws w) with (search_page clicked ws w)
        by (unfold script, bind, get_state; rewrite Hmode; reflexivity).
      apply quiet_search_page.
    - replace (script clicked ws w) with (view_page clicked w)
        by (unfold script, bind, get_state; rewrite Hmode; reflexivity).
      apply quiet_view_page.
    - destruct (is_button btn_submit_booking clicked) eqn:Hbtn.
      + apply is_button_true in Hbtn. subst clicked.
        destruct (new_submit_cases ws w Hmode)
          as [(_ & Hs & _) | (n & slots & new_id & c2 & _ & _ & Hrun)].
        * rewrite Hs. reflexivity.
        * exfalso. apply Hnc. rewrite Hrun. auto.
      + replace (script clicked ws w) with (booking_page clicked ws w)
          by (unfold script, bind, get_state; rewrite Hmode; reflexivity).
        apply quiet_booking_page, Hbtn.
    - destruct (is_button btn_submit_booking clicked) eqn:Hbtn.
      + apply is_button_true in Hbtn. subst clicked.
        destruct (rebook_submit_cases ws w Hmode)
          as [(_ & Hs & _) | (idx & cust & slots & new_id & _ & _ & _ & Hs)];
          rewrite Hs; reflexivity.
      + replace (script clicked ws w) with (booking_page clicked ws w)
          by (unfold script, bind, get_state; rewrite Hmode; reflexivity).
        apply quiet_booking_page, Hbtn. }
  destruct (script_step clicked ws w) as [(Hc & Ha & _) | (Hc & Ha & _)]; split;
    intros H.
  - apply Hyes in H. lia.
  - split; assumption.
  - split; assumption.
  - apply Hno in H. lia.
Qed.

(** *** The page graph *)

Global Instance mode_or_preorder (t : option Mode) : PreOrder (mode_or t).
Proof.
  split.
  - intros w. left. reflexivity.
  - intros w1 w2 w3 [H | H] [H' | H']; unfold mode_or.
    + left. congruence.
    + right. exact H'.
    + right. congruence.
    + right. exact H'.
Qed.

Lemma same_mode_mode_or (t : option Mode) (w w' : World) :
  same_mode w w' -> mode_or t w w'.
Proof. intros H. left. exact H. Qed.

Lemma same_mode_show (m : Msg) : preserves same_mode (show m).
Proof. intros w. reflexivity. Qed.

Lemma same_mode_set_current_customer (c : option (nat * Row)) :
  preserves same_mode (set_current_customer c).
Proof. intros w. reflexivity. Qed.

Lemma same_mode_set_show_cancel_confirm (b : bool) :
  preserves same_mode (set_show_cancel_confirm b).
Proof. intros w. reflexivity. Qed.

Lemma same_mode_set_po_counter (n : Z) : preserves same_mode (set_po_counter n).
Proof. intros w. reflexivity. Qed.

Lemma same_mode_generate_po_number : preserves same_mode generate_po_number.
Proof. intros w. reflexivity. Qed.

Lemma same_mode_get_all_records : preserves same_mode get_all_records.
Proof. intros w. unfold get_all_records. destruct (sheet_fault (calls w)); reflexivity. Qed.

Lemma same_mode_calendar_insert (body : EventBody) :
  preserves same_mode (calendar_insert body).
Proof.
  intros w. unfold calendar_insert.
  destruct (events_insert (calendar w) body) as [[e|id] c]; reflexivity.
Qed.

Lemma same_mode_calendar_delete (event_id : string) :
  preserves same_mode (calendar_delete event_id).
Proof.
  intros w. unfold calendar_delete.
  destruct (events_delete (calendar w) event_id) as [[e|] c]; reflexivity.
Qed.

Lemma same_mode_append_row (values : list string) :
  preserves same_mode (append_row values).
Proof. intros w. unfold append_row. destruct (sheet_fault (calls w)); reflexivity. Qed.

Lemma same_mode_update (idx : nat) (values : list string) :
  preserves same_mode (update idx values).
Proof.
  intros w. unfold update.
  destruct (update_result idx (sheet_fault (calls w))); reflexivity.
Qed.

Lemma same_mode_get_available_slots (date : date) :
  preserves same_mode (get_available_slots date).
Proof.
  intros w. destruct (get_available_slots_world date w) as [n ->]. reflexivity.
Qed.

Lemma mode_or_set_mode (m : Mode) : preserves (mode_or (Some m)) (set_mode m).
Proof. intros w. right. reflexivity. Qed.

#[local] Hint Resolve same_mode_show same_mode_set_current_customer
  same_mode_set_show_cancel_confirm same_mode_set_po_counter
  same_mode_generate_po_number same_mode_get_all_records
  same_mode_calendar_insert same_mode_calendar_delete same_mode_append_row
  same_mode_update same_mode_get_available_slots mode_or_set_mode : reads.
Lemma preserves_weaken {A} (S R : World -> World -> Prop) (m : M A) :
  (forall w w', S w w' -> R w w') -> preserves S m -> preserves R m.
Proof. intros Hsub Hm w. apply Hsub, Hm. Qed.

#[local] Hint Extern 5 (preserves (mode_or ?t) _) =>
  apply (preserves_weaken same_mode (mode_or t) _ (same_mode_mode_or t)) : reads.

(** X17. The page mode changes only along the edges of the page graph: a
    rerun leaves the mode as it was, or moves it to the mode the pressed
    button leads to from the current page (search to view or new booking,
    view to rebook or back to search, a booking form back to search); a
    button of another page changes nothing. *)
Theorem X17_modes_change_along_the_page_graph
    (clicked : Button) (ws : Widgets) (w : World) :
  mode_or (leads_to (mode (session_state w)) clicked) w (snd (script clicked ws w)).
Proof.
  unfold script, bind at 1, get_state at 1.
  destruct (mode (session_state w)); destruct clicked; cbn [leads_to];
    match goal with
    | |- mode_or ?t _ (snd (?page _)) =>
        assert (H : preserves (mode_or t) page);
        [ unfold search_page, find_customer, view_page, cancel_booking,
            delete_calendar_event, booking_page, booking_form, submit_booking,
            update_calendar_event, create_calendar_event, append_booking_to_sheet,
            update_booking_in_sheet;
          cbn [is_button when]; follow
        | apply H ]
    end.
Qed.


End SessionMore.

(* ===================================================================== *)
(** * The further properties at work on the in-memory stores *)
(* ===================================================================== *)

Lemma ev_10_14_timed :
  timed_event (svc := services) ev_10_14
              (window_start june10 10, window_start june10 14).
Proof.
  exists "2024-06-10T10:00:00+10:00"%string, "2024-06-10T14:00:00+10:00"%string,
         (localize june10 (mk_time 10 0 0)), (localize june10 (mk_time 14 0 0)).
  repeat split; try discriminate; reflexivity.
Qed.

Lemma ev_all_day_untimed : untimed_event ev_all_day.
Proof. left. left. reflexivity. Qed.

(** An all-day event and an event 10:00 to 14:00: only 14:00 is free. *)
Lemma X1_two_kinds_of_events :
  fst (get_available_slots june10 w_two_kinds) = Done [mk_time 14 0 0].
Proof.
  assert (Hdesc : Forall2 (described (svc := services)) [ev_all_day; ev_10_14]
                    [None; Some (window_start june10 10, window_start june10 14)]).
  { constructor; [exact ev_all_day_untimed|].
    constructor; [exact ev_10_14_timed | constructor]. }
  rewrite (X1_slots_with_events_of_both_kinds w_two_kinds june10 _ _ eq_refl Hdesc).
  vm_compute. reflexivity.
Defined.

Lemma X2_one_slot_out_of_eight :
  [mk_time 14 0 0] `sublist_of` all_slots /\
  (List.length [mk_time 14 0 0] <= 8)%nat /\
  NoDup [mk_time 14 0 0] /\
  forall t, t ∈ [mk_time 14 0 0] -> exists h, 7 <= h <= 14 /\ t = mk_time h 0 0.
Proof.
  apply (X2_slots_are_a_sublist_of_the_eight w_one_event june10). reflexivity.
Defined.

Lemma X3_offline_calendar :
  get_available_slots june10 w_offline
  = (Raised (HttpError "503 Service Unavailable"), after_listing june10 1 w_offline).
Proof.
  apply (X3_listing_failure_is_raised_at_once w_offline june10). reflexivity.
Defined.

Lemma X4_garbled_event :
  get_available_slots june10 w_garbled
  = (Raised (ValueError "Invalid isoformat string"), after_listing june10 1 w_garbled).
Proof.
  apply (X4_unparsable_event_is_raised w_garbled june10 ev_garbled [ev_10_14]);
    [reflexivity|].
  exists "tomorrow"%string, "2024-06-10T14:00:00+10:00"%string.
  repeat split; try discriminate. left. reflexivity.
Defined.

Lemma X5_event_takes_slots_away :
  exists slots slots',
    fst (get_available_slots june10 w_one_event) = Done slots /\
    fst (get_available_slots june10 w_no_event) = Done slots' /\
    slots `sublist_of` slots'.
Proof.
  apply (X5_an_event_never_adds_slots w_one_event w_no_event june10 [] ev_10_14 []
           [] (Some (window_start june10 10, window_start june10 14)) []);
    try reflexivity; try constructor.
  exact ev_10_14_timed.
Defined.

Lemma cy_event_inserted :
  CalInsert (form_event "E000003" cy_form [mk_time 14 0 0]) (inr "evt3"%string)
    ∈ calls_since (List.length (calls w_one_event))
                  (snd (script btn_submit_booking cy_form w_one_event)).
Proof. apply list_elem_of_In. vm_compute. do 8 right. left. reflexivity. Qed.

Lemma X6_cy_block :
  exists h,
    7 <= h <= 14 /\
    start_dateTime (form_event "E000003" cy_form [mk_time 14 0 0])
      = isoformat (localize (form_date cy_form) (mk_time h 0 0)) /\
    end_dateTime (form_event "E000003" cy_form [mk_time 14 0 0])
      = isoformat (localize (form_date cy_form) (mk_time (h + 4) 0 0)).
Proof.
  apply (X6_inserted_event_is_a_four_hour_block cy_form w_one_event _
           (inr "evt3"%string)).
  - left. reflexivity.
  - exact cy_event_inserted.
Defined.

Lemma X7_cy_block_is_free :
  exists h,
    hour_available (form_date cy_form)
      (windows_of [Some (window_start june10 10, window_start june10 14)]) h /\
    start_dateTime (form_event "E000003" cy_form [mk_time 14 0 0])
      = isoformat (localize (form_date cy_form) (mk_time h 0 0)).
Proof.
  apply (X7_inserted_event_overlaps_no_listed_event cy_form w_one_event _
           (inr "evt3"%string) [ev_10_14]).
  - left. reflexivity.
  - reflexivity.
  - constructor; [exact ev_10_14_timed | constructor].
  - exact cy_event_inserted.
Defined.

Lemma X8_full_day :
  fst (script btn_submit_booking cy_form w_full_day) = Stopped /\
  messages (snd (script btn_submit_booking cy_form w_full_day))
    = messages w_full_day ++ [Warning no_slots_warning] /\
  sheet (snd (script btn_submit_booking cy_form w_full_day)) = sheet w_full_day /\
  calendar (snd (script btn_submit_booking cy_form w_full_day)) = calendar w_full_day /\
  session_state (snd (script btn_submit_booking cy_form w_full_day))
    = session_state w_full_day /\
  exists n, calls_since (List.length (calls w_full_day))
              (snd (script btn_submit_booking cy_form w_full_day))
            = queries cy_form n.
Proof.
  apply (X8_no_slot_stops_the_form btn_submit_booking cy_form w_full_day);
    reflexivity.
Defined.

Lemma X9_ann_is_not_blank :
  (Name ann <> ""%string \/ Phone ann <> ""%string) /\ ann <> blank_row.
Proof.
  apply (X9_blank_rows_are_never_found
           (world [bob; ann] [] false false booking_session) "LEE" "" 3 ann).
  reflexivity.
Defined.

Lemma X10_bob_with_country_code :
  exists idx found,
    fst (find_customer "" ("+61" ++ suffix_slice 9 (Phone bob)) w_one_event)
      = Done (Some (idx, found)) /\
    (idx <= 1 + 2)%nat /\
    suffix_slice 9 (Phone found) = suffix_slice 9 (Phone bob).
Proof.
  apply (X10_phone_search_ignores_the_prefix w_one_event 1 bob "+61").
  - reflexivity.
  - cbn. lia.
  - reflexivity.
Defined.

Lemma X11_search_button_only_reads :
  read_only w_one_event (snd (script btn_search search_ann w_one_event)).
Proof.
  apply (X11_other_buttons_only_read btn_search search_ann w_one_event); discriminate.
Defined.

Lemma X12_insert_rejected_keeps_the_form :
  session_state (snd (script btn_submit_booking cy_form w_insert_down))
    = session_state w_insert_down /\
  sheet (snd (script btn_submit_booking cy_form w_insert_down)) = sheet w_insert_down.
Proof.
  exact (X12_failed_submit_keeps_session_and_sheet cy_form w_insert_down
           (or_introl eq_refl)).
Defined.

Lemma X13_cy_booked :
  exists n slots new_id row,
    fst (get_available_slots (form_date cy_form) w_one_event) = Done slots /\
    sheet (snd (script btn_submit_booking cy_form w_one_event))
      = sheet w_one_event ++ [row] /\
    values_of_row row =
      [po_number (po_counter (session_state w_one_event)); form_name cy_form;
       form_phone cy_form; form_from_addr cy_form; form_to_addr cy_form;
       str_of_date (form_date cy_form);
       str_of_time (selectbox slots (form_start_time cy_form));
       str_of_time (time_add_hours (selectbox slots (form_start_time cy_form)) 4);
       service_name (form_service cy_form); form_notes cy_form; new_id] /\
    calls_since (List.length (calls w_one_event))
                (snd (script btn_submit_booking cy_form w_one_event)) =
      queries cy_form n ++
      [CalInsert (form_event (po_number (po_counter (session_state w_one_event)))
                             cy_form slots) (inr new_id);
       SheetAppend (values_of_row row) None] /\
    session_state (snd (script btn_submit_booking cy_form w_one_event)) =
      mk_session search (po_counter (session_state w_one_event) + 1) None
                 (show_cancel_confirm (session_state w_one_event)).
Proof.
  apply (X13_completed_new_booking cy_form w_one_event); reflexivity.
Defined.

Lemma X15_ann_is_held_at_row_2 :
  (2 <= 2)%nat /\
  (2 - 2 < List.length (sheet (run_session start [(btn_search, search_ann)])))%nat.
Proof.
  apply (X15_held_booking_is_an_existing_row (svc := services)
           [ann; bob] (mk_cal [] 3 false false) [(btn_search, search_ann)] 2 ann).
  reflexivity.
Defined.

(** Cy's booking uses up E000003 and moves the counter from 3 to 4; the
    same submit against a calendar that rejects inserts leaves it at 3. *)
Lemma X16_cy_uses_up_one_po_number :
  po_counter (session_state (snd (script btn_submit_booking cy_form w_one_event))) = 4 /\
  assigned_pos (calls (snd (script btn_submit_booking cy_form w_one_event)))
    = ["E000003"%string] /\
  po_counter (session_state (snd (script btn_submit_booking cy_form w_insert_down))) = 3 /\
  assigned_pos (calls (snd (script btn_submit_booking cy_form w_insert_down))) = [].
Proof.
  destruct (X16_counter_advances_only_with_a_created_booking
              btn_submit_booking cy_form w_one_event) as [Hyes _].
  destruct (Hyes (conj eq_refl (conj eq_refl eq_refl))) as [Hc Ha].
  destruct (X16_counter_advances_only_with_a_created_booking
              btn_submit_booking cy_form w_insert_down) as [_ Hno].
  assert (Hfail : ~ (mode (session_state w_insert_down) = new_booking /\
                     btn_submit_booking = btn_submit_booking /\
                     fst (script btn_submit_booking cy_form w_insert_down) = Done tt)).
  { intros (_ & _ & Hr). vm_compute in Hr. discriminate Hr. }
  destruct (Hno Hfail) as [Hc' Ha'].
  split; [exact Hc|]. split; [exact Ha|]. split; [exact Hc' | exact Ha'].
Defined.
